(** * GCP start/stop service: name resolution, directory cache, operation executor

    A shallow embedding of the Python sources

    - [vm_name_utils.py]            (class [VMNameManager]),
    - [core/vm_operations_handler.py] (class [VMOperationsHandler]),
    - [vm_cache.py]                 (class [VMCache]),
    - [utils/zone_manager.py]       (class [ZoneManager]),
    - [operation_logger.py]         (class [OperationLogger]),

    followed by the properties of the specification that concern them.

    Conventions.  A Python [str] is a [string]; its characters are the code
    points below 256.  A Python [dict] is an association list in insertion
    order (iteration order is insertion order in Python 3.7+).  Anything the
    program obtains from the outside (the exit code and the output of a
    [gcloud] process, the clock) is an explicit argument.  Logging through
    [logging.Logger] has no effect on any result and is left out. *)

From Stdlib Require Import Bool List ZArith Lia Ascii String DecimalString.
Import ListNotations.

Set Implicit Arguments.

Local Open Scope list_scope.
Local Open Scope string_scope.

(* ================================================================== *)
(** ** Python string operations used by the sources *)
(* ================================================================== *)

Module PyStr.

(** [str.isspace] on one character, which is also the class [\s] of [re]
    for [str] patterns: TAB..CR, FS..US, SPACE, NEL and NBSP. *)
Definition is_space (c : ascii) : bool :=
  let n := nat_of_ascii c in
  (((9 <=? n) && (n <=? 13)) || ((28 <=? n) && (n <=? 32))
   || (n =? 133) || (n =? 160))%nat.

(** [str.lower] on one character: A-Z, and the Latin-1 capitals
    (U+00C0..U+00DE without the multiplication sign U+00D7). *)
Definition lower_char (c : ascii) : ascii :=
  let n := nat_of_ascii c in
  if (((65 <=? n) && (n <=? 90))
      || ((192 <=? n) && (n <=? 222) && negb (n =? 215)))%nat
  then ascii_of_nat (n + 32) else c.

Fixpoint lower (s : string) : string :=
  match s with
  | EmptyString => EmptyString
  | String c t => String (lower_char c) (lower t)
  end.

(** [s.startswith(p)] *)
Fixpoint startswith (s p : string) : bool :=
  match p, s with
  | EmptyString, _ => true
  | String _ _, EmptyString => false
  | String a p', String b s' => Ascii.eqb a b && startswith s' p'
  end.

(** [sub in s] *)
Fixpoint contains (sub s : string) : bool :=
  startswith s sub
  || match s with
     | EmptyString => false
     | String _ t => contains sub t
     end.

(** [s.endswith(p)] *)
Fixpoint endswith (s p : string) : bool :=
  String.eqb s p
  || match s with
     | EmptyString => false
     | String _ t => endswith t p
     end.

(** [s[:k]] for [0 <= k] *)
Fixpoint take (k : nat) (s : string) : string :=
  match k, s with
  | O, _ => EmptyString
  | S _, EmptyString => EmptyString
  | S k', String c t => String c (take k' t)
  end.

(** [s[:-n]] for [0 <= n]: Python reads [-0] as [0], so [s[:-0]] is empty. *)
Definition slice_to_minus (s : string) (n : nat) : string :=
  match n with
  | O => EmptyString
  | S _ => take (String.length s - n) s
  end.

(** [s.split(sep)] for a separator of one character: never empty. *)
Fixpoint split (sep : ascii) (s : string) : list string :=
  match s with
  | EmptyString => [EmptyString]
  | String c t =>
      if Ascii.eqb c sep then EmptyString :: split sep t
      else match split sep t with
           | [] => [String c EmptyString]
           | w :: ws => String c w :: ws
           end
  end.

(** [sep in s] for one character *)
Fixpoint has_char (sep : ascii) (s : string) : bool :=
  match s with
  | EmptyString => false
  | String c t => Ascii.eqb c sep || has_char sep t
  end.

(** [s.split(sep)[0]] *)
Definition split_first (sep : ascii) (s : string) : string :=
  hd EmptyString (split sep s).

Fixpoint lstrip (s : string) : string :=
  match s with
  | EmptyString => EmptyString
  | String c t => if is_space c then lstrip t else s
  end.

(** [rstrip] keeps a character when it is not white space or when
    something is kept after it. *)
Fixpoint rstrip (s : string) : string :=
  match s with
  | EmptyString => EmptyString
  | String c t =>
      match rstrip t with
      | EmptyString => if is_space c then EmptyString else String c EmptyString
      | r => String c r
      end
  end.

(** [s.strip()] *)
Definition strip (s : string) : string := rstrip (lstrip s).

(** [sep.join(l)] *)
Fixpoint join (sep : string) (l : list string) : string :=
  match l with
  | [] => EmptyString
  | [x] => x
  | x :: rest => x ++ sep ++ join sep rest
  end.

(** Truth value of a [str]: [bool(s)] *)
Definition truthy (s : string) : bool :=
  match s with EmptyString => false | String _ _ => true end.

(** Longest prefix of [s] whose characters all satisfy [ok]. *)
Fixpoint span (ok : ascii -> bool) (s : string) : string :=
  match s with
  | EmptyString => EmptyString
  | String c t => if ok c then String c (span ok t) else EmptyString
  end.


(** What remains of [s] after [p], when [s] starts with [p]. *)
Fixpoint after_prefix (s p : string) : option string :=
  match p, s with
  | EmptyString, _ => Some s
  | String _ _, EmptyString => None
  | String a p', String b s' =>
      if Ascii.eqb a b then after_prefix s' p' else None
  end.

(** [group(1)] of [re.search] for the pattern made of a literal [lit] and a
    group [([cls]+)] over a character class: the leftmost place where [lit] is followed by at
    least one character of the class, and the longest run from there. *)
Fixpoint search_lit_class (lit : string) (cls : ascii -> bool) (s : string)
  : option string :=
  let here :=
    match after_prefix s lit with
    | Some rest =>
        match span cls rest with
        | EmptyString => None
        | g => Some g
        end
    | None => None
    end in
  match here with
  | Some g => Some g
  | None =>
      match s with
      | EmptyString => None
      | String _ t => search_lit_class lit cls t
      end
  end.

End PyStr.

Definition quote : ascii := "'"%char.
Definition dquote : ascii := "034"%char.
Definition newline : ascii := "010"%char.


(** An association list read as a Python [dict]. *)
Definition dict (V : Type) := list (string * V).

Module Dict.
Section Ops.
Variable V : Type.

(** [d.get(k)] *)
Fixpoint get (d : dict V) (k : string) : option V :=
  match d with
  | [] => None
  | (k', v) :: rest => if String.eqb k' k then Some v else get rest k
  end.

(** [k in d] *)
Definition mem (d : dict V) (k : string) : bool :=
  match get d k with Some _ => true | None => false end.

(** [d[k] = v]: an existing key keeps its place, a new one goes last. *)
Fixpoint set (d : dict V) (k : string) (v : V) : dict V :=
  match d with
  | [] => [(k, v)]
  | (k', v') :: rest =>
      if String.eqb k' k then (k', v) :: rest else (k', v') :: set rest k v
  end.

Definition keys (d : dict V) : list string := map fst d.
End Ops.
End Dict.

(* ================================================================== *)
(** ** vm_name_utils.py: class VMNameManager *)
(* ================================================================== *)

Module VMNameManager.

Record t := {
  vanity_to_hostname : dict string;
  domain_suffixes : list string
}.

(** [__init__] with both arguments omitted. *)
Definition default : t := {|
  vanity_to_hostname := [("nlq", "guedfocnlq03"); ("py-server", "guedfocdsml01")];
  domain_suffixes := [".dev.tibco.com"; ".ibi.systems"; ".tibco.com"]
|}.

(** The loop of [clean_vm_name]: the first suffix of the list that ends the
    name is cut off, and the loop stops there. *)
Fixpoint strip_known_suffix (suffixes : list string) (vmname : string) : string :=
  match suffixes with
  | [] => vmname
  | suffix :: rest =>
      if PyStr.endswith vmname suffix
      then PyStr.slice_to_minus vmname (String.length suffix)
      else strip_known_suffix rest vmname
  end.

Definition clean_vm_name (self : t) (vmname : string) : string :=
  if negb (PyStr.truthy vmname) then vmname
  else strip_known_suffix (domain_suffixes self) vmname.

(** The first entry of the table whose vanity name starts [vmname]. *)
Fixpoint first_vanity (table : dict string) (vmname : string)
  : option (string * string) :=
  match table with
  | [] => None
  | (vanity_name, real_hostname) :: rest =>
      if PyStr.startswith vmname vanity_name
      then Some (vanity_name, real_hostname)
      else first_vanity rest vmname
  end.

Definition map_vanity_to_hostname (self : t) (vmname : string) : string :=
  let vmname := clean_vm_name self vmname in
  match first_vanity (vanity_to_hostname self) vmname with
  | Some (_, real_hostname) => real_hostname
  | None => vmname
  end.

Definition get_vanity_name (self : t) (vmname : string) : string :=
  let vmname := clean_vm_name self vmname in
  match first_vanity (vanity_to_hostname self) vmname with
  | Some (vanity_name, _) => vanity_name ++ ".ibi.systems"
  | None => vmname
  end.

(** Whether a name ends with one of the configured domain suffixes. *)
Definition has_known_suffix (self : t) (vmname : string) : bool :=
  existsb (PyStr.endswith vmname) (domain_suffixes self).

End VMNameManager.

(* ================================================================== *)
(** ** core/vm_operations_handler.py: names and authorization *)
(* ================================================================== *)

Module Config.

Definition default_allowed_vms : list string :=
  ["guedfocnlq03"; "guedfocdsml01"; "guedfocwqa82"].

(** [[x.strip() for x in l if x.strip()]] *)
Definition clean_list (l : list string) : list string :=
  map PyStr.strip (filter (fun x => PyStr.truthy (PyStr.strip x)) l).

(** The module-level [ALLOWED_VMS] for a value of the environment variable
    of that name ([None] when it is unset). *)
Definition load_allowed_vms (env : option string) : list string :=
  clean_list
    (match env with
     | Some v => if PyStr.truthy v then PyStr.split ","%char v
                 else default_allowed_vms
     | None => default_allowed_vms
     end).

(** The module-level [RESTRICTED_OPERATIONS], likewise. *)
Definition load_restricted_operations (env : option string) : list string :=
  clean_list
    (PyStr.split ","%char
       (match env with Some v => v | None => "stop,suspend" end)).

Definition VANITY_TO_HOSTNAME : dict string :=
  [("nlq", "guedfocnlq03"); ("py-server", "guedfocdsml01")].

End Config.

(** [x in l] for a list of strings. *)
Definition str_in (x : string) (l : list string) : bool :=
  existsb (String.eqb x) l.

Module NameResolver.
Import Config.

(** [VMOperationsHandler.map_vanity_to_hostname] *)
Definition map_vanity_to_hostname (vmname : string) : string :=
  let base_vmname := PyStr.split_first "."%char vmname in
  match VMNameManager.first_vanity VANITY_TO_HOSTNAME base_vmname with
  | Some (_, real_hostname) => real_hostname
  | None => base_vmname
  end.

(** The loop of [VMOperationsHandler.get_vanity_name]. *)
Fixpoint vanity_of (table : dict string) (base_vmname : string) : option string :=
  match table with
  | [] => None
  | (vanity_name, real_hostname) :: rest =>
      if String.eqb base_vmname real_hostname
         || PyStr.startswith base_vmname vanity_name
      then Some (vanity_name ++ ".ibi.systems")
      else vanity_of rest base_vmname
  end.

(** [VMOperationsHandler.get_vanity_name] *)
Definition get_vanity_name (vmname : string) : string :=
  let base_vmname := PyStr.split_first "."%char vmname in
  match vanity_of VANITY_TO_HOSTNAME base_vmname with
  | Some alias => alias
  | None => vmname
  end.

End NameResolver.

Module AuthorizationPolicy.

Record t := {
  ALLOWED_VMS : list string;
  RESTRICTED_OPERATIONS : list string
}.

(** The policy of a process started with neither variable set. *)
Definition default : t := {|
  ALLOWED_VMS := Config.load_allowed_vms None;
  RESTRICTED_OPERATIONS := Config.load_restricted_operations None
|}.

(** [VMOperationsHandler.is_vm_allowed_for_operation] *)
Definition is_vm_allowed_for_operation (cfg : t) (vmname operation : string)
  : bool :=
  if negb (str_in (PyStr.lower operation) (RESTRICTED_OPERATIONS cfg)) then true
  else
    let real_vmname := NameResolver.map_vanity_to_hostname vmname in
    str_in real_vmname (ALLOWED_VMS cfg).

End AuthorizationPolicy.

(* ================================================================== *)
(** ** What the outside world hands to the program *)
(* ================================================================== *)

(** The value of a Python expression that may raise: [Raises msg] stands for
    an exception [e] with [str(e) = msg]. *)
Inductive py_result (A : Type) : Type :=
| Ok (a : A)
| Raises (msg : string).
Arguments Ok {A} a.
Arguments Raises {A} msg.

(** The document [json.loads] returns for the output of
    [gcloud compute instances describe --format=json], with the fields the
    handler reads; an absent key is [None].  [networkInterfaces] lists, for
    each interface, its [networkIP] when it has one. *)
Record describe_doc := {
  doc_name : option string;
  doc_status : option string;
  doc_machineType : option string;
  doc_networkInterfaces : option (list (option string))
}.

(** One run of an external command.
    - [raises]: the exception of [create_subprocess_exec] or of
      [communicate], when one of them raises;
    - [stdout]: [output.decode()] of the whole standard output;
    - [stdout_lines]: the same output as [readline] and [line.decode()]
      deliver it, line by line;
    - [stdout_json]: [json.loads(output)];
    - [stderr]: [error.decode()] of the standard error, [Ok] of the empty string when empty. *)
Record proc := {
  raises : option string;
  returncode : Z;
  stdout : py_result string;
  stdout_lines : list (py_result string);
  stdout_json : py_result describe_doc;
  stderr : py_result string
}.

(* ================================================================== *)
(** ** vm_cache.py: class VMCache *)
(* ================================================================== *)

Module VMCache.

(** Instants and durations are in microseconds, the resolution of
    [datetime]; [datetime.min] is [0]. *)
Definition hours (h : Z) : Z := (h * 3600 * 1000000)%Z.
Definition minutes (m : Z) : Z := (m * 60 * 1000000)%Z.
Definition seconds (x : Z) : Z := (x * 1000000)%Z.

Definition CACHE_MAX_AGE_HOURS : Z := 1%Z.

(** The fields of the object that [update_cache] and [get_vm_zone] use,
    and the pickle file [cache_file], whose content is the pair of
    [vm_zone_map] and [timestamp] ([None]: the file does not exist). *)
Record t := {
  max_age_hours : Z;
  vm_zone_map : dict string;
  last_update : Z;
  cache_file : option (dict string * Z)
}.

(** [__init__] *)
Definition init (file : option (dict string * Z)) : t := {|
  max_age_hours := CACHE_MAX_AGE_HOURS;
  vm_zone_map := [];
  last_update := 0%Z;
  cache_file := file
|}.

Definition with_map (self : t) (m : dict string) : t := {|
  max_age_hours := max_age_hours self;
  vm_zone_map := m;
  last_update := last_update self;
  cache_file := cache_file self
|}.

Definition with_last_update (self : t) (now : Z) : t := {|
  max_age_hours := max_age_hours self;
  vm_zone_map := vm_zone_map self;
  last_update := now;
  cache_file := cache_file self
|}.

(** [_save_to_pickle]; the write itself is taken to succeed. *)
Definition _save_to_pickle (self : t) (now : Z) : t := {|
  max_age_hours := max_age_hours self;
  vm_zone_map := vm_zone_map self;
  last_update := last_update self;
  cache_file := Some (vm_zone_map self, now)
|}.

(** [_load_from_pickle]: the new state and the returned flag. *)
Definition _load_from_pickle (self : t) (now : Z) : t * bool :=
  match cache_file self with
  | None => (self, false)
  | Some (m, cache_time) =>
      if (now - cache_time <? seconds 3600)%Z
      then (with_last_update (with_map self m) cache_time, true)
      else (self, false)
  end.

(** What the outside world answers during one [update_cache]. *)
Record refresh_env := {
  zones_process : proc;
  instances_process : string -> proc;   (* by zone *)
  now_update : Z;                        (* the clock at line 210 *)
  now_save : Z                           (* the clock in [_save_to_pickle] *)
}.

Definition zones_cmd : list string :=
  ["gcloud"; "compute"; "zones"; "list";
   "--filter=name~'^(us-|asia-)'"; "--format=value(name)"].

Definition instances_cmd (zone : string) : list string :=
  ["gcloud"; "compute"; "instances"; "list";
   "--zones=" ++ zone; "--format=value(name)"].

(** [[x for x in text.strip().split('\n') if x]] *)
Definition nonempty_lines (text : string) : list string :=
  filter PyStr.truthy (PyStr.split newline (PyStr.strip text)).

(** The inner loop: both spellings of each VM name go into the map. *)
Fixpoint store_vms (m : dict string) (vms : list string) (zone : string)
  : dict string :=
  match vms with
  | [] => m
  | vm :: rest =>
      let m1 := Dict.set m vm zone in
      let m2 := Dict.set m1 (PyStr.lower vm) zone in
      store_vms m2 rest zone
  end.

(** A run of [update_cache] as an observer sees it.
    - [commands]: the external commands launched, in order;
    - [observed]: the value of [self.vm_zone_map] while each of them runs,
      that is, at the [await] where [update_cache] is suspended and other
      coroutines (the request handlers) run;
    - [completed]: whether the zone loop ran to its end (no [return], no
      exception). *)
Record scan := {
  scanned_map : dict string;
  commands : list (list string);
  observed : list (dict string);
  completed : bool
}.

(** The loop over the zones (lines 178-208). *)
Fixpoint scan_zones (instances : string -> proc) (zones : list string)
         (m : dict string) : scan :=
  match zones with
  | [] => {| scanned_map := m; commands := []; observed := []; completed := true |}
  | zone :: rest =>
      let p := instances zone in
      let launched (k : scan) := {|
        scanned_map := scanned_map k;
        commands := instances_cmd zone :: commands k;
        observed := m :: observed k;
        completed := completed k |} in
      let stop := {| scanned_map := m; commands := []; observed := [];
                     completed := false |} in
      match raises p with
      | Some _ => launched stop
      | None =>
          if negb (returncode p =? 0)%Z then
            (* the error is decoded for the log line, then [continue] *)
            match stderr p with
            | Raises _ => launched stop
            | Ok _ => launched (scan_zones instances rest m)
            end
          else
            match stdout p with
            | Raises _ => launched stop
            | Ok text =>
                let m' := if PyStr.truthy text
                          then store_vms m (nonempty_lines text) zone
                          else m in
                launched (scan_zones instances rest m')
            end
      end
  end.

(** The outcome of one [update_cache]: the object afterwards, with the
    commands and the intermediate maps of [scan]. *)
Record refresh := {
  final : t;
  ran : list (list string);
  seen : list (dict string)
}.

(** [update_cache] *)
Definition update_cache (self : t) (env : refresh_env) : refresh :=
  (* line 147: self.vm_zone_map.clear() *)
  let cleared := with_map self [] in
  let zp := zones_process env in
  let aborted := {| final := cleared; ran := [zones_cmd]; seen := [[]] |} in
  match raises zp with
  | Some _ => aborted
  | None =>
      if negb (returncode zp =? 0)%Z then aborted          (* line 166 *)
      else
        match stdout zp with
        | Raises _ => aborted
        | Ok text =>
            match nonempty_lines text with
            | [] => aborted                                 (* line 173 *)
            | zones =>
                let k := scan_zones (instances_process env) zones [] in
                let here := with_map self (scanned_map k) in
                let out (c : t) := {|
                  final := c;
                  ran := zones_cmd :: commands k;
                  seen := [] :: observed k |} in
                if negb (completed k) then out here
                else
                  let stamped := with_last_update here (now_update env) in
                  match scanned_map k with
                  | [] => out stamped                       (* line 218 *)
                  | _ => out (_save_to_pickle stamped (now_save env))
                  end
            end
        end
  end.

(** The partial match of [get_vm_zone] (lines 359-362): the first entry
    whose key contains the name or is contained in it. *)
Fixpoint partial_match (m : dict string) (clean_vm_name : string)
  : option string :=
  match m with
  | [] => None
  | (vm, zone) :: rest =>
      if PyStr.contains clean_vm_name vm || PyStr.contains vm clean_vm_name
      then Some zone
      else partial_match rest clean_vm_name
  end.

(** [len(set(k.lower() for k in keys)) // 2 if keys else 0] *)
Definition cached_vms (m : dict string) : nat :=
  match m with
  | [] => 0
  | _ => Nat.div (List.length (nodup string_dec (map PyStr.lower (Dict.keys m)))) 2
  end.

(** [get_vm_zone]: the zone returned ([None] is Python's [None]) and the
    number of [update_cache] tasks the call schedules with
    [asyncio.create_task]. *)
Definition get_vm_zone (self : t) (now : Z) (vm_name : string)
  : option string * nat :=
  if negb (PyStr.truthy vm_name) then (None, 0)
  else
    let clean_vm_name := PyStr.split_first "."%char vm_name in
    let cache_age := (now - last_update self)%Z in
    let stale := if (cache_age >? hours (max_age_hours self))%Z then 1 else 0 in
    match Dict.get (vm_zone_map self) clean_vm_name with
    | Some zone => (Some zone, stale)
    | None =>
        let lower_vm_name := PyStr.lower clean_vm_name in
        match Dict.get (vm_zone_map self) lower_vm_name with
        | Some zone => (Some zone, stale)
        | None =>
            match partial_match (vm_zone_map self) clean_vm_name with
            | Some zone => (Some zone, stale)
            | None =>
                let n := cached_vms (vm_zone_map self) in
                let miss := if (n =? 0)%nat || (cache_age >? minutes 30)%Z
                            then 1 else 0 in
                (None, stale + miss)
            end
        end
    end.

(** [get_status()['cached_vms']] *)
Definition get_status (self : t) : nat := List.length (vm_zone_map self).

End VMCache.

(* ================================================================== *)
(** ** utils/zone_manager.py: class ZoneManager *)
(* ================================================================== *)

Module ZoneManager.

Definition target_regions : list string := ["us-"; "asia-"].

Definition fallback_zones : list string :=
  ["us-central1-a"; "us-central1-b"; "us-east1-b";
   "asia-east1-a"; "asia-southeast1-a"].

(** What [subprocess.run] gives [get_all_zones]: it raises, or returns the
    exit code and the text of the standard output, together with what
    [json.loads] makes of that text, read here as the list of the
    [name] entries of its elements (empty where there is none). *)
Record zones_run := {
  run_raises : option string;
  run_returncode : Z;
  run_stdout : string;
  run_json : py_result (list string)
}.

(** [get_all_zones] *)
Definition get_all_zones (r : zones_run) : list string :=
  match run_raises r with
  | Some _ => fallback_zones
  | None =>
      if (run_returncode r =? 0)%Z && PyStr.truthy (PyStr.strip (run_stdout r))
      then
        match run_json r with
        | Raises _ => fallback_zones
        | Ok all_zones =>
            filter (fun zone_name =>
                      existsb (PyStr.startswith zone_name) target_regions)
                   all_zones
        end
      else fallback_zones
  end.

End ZoneManager.

(* ================================================================== *)
(** ** utils/vm_scanner.py and utils/gcp_commands.py: the other refresh *)
(* ================================================================== *)

Module VMScanner.

(** An element of the list that [gcloud compute instances list
    --format=json] prints, with the keys the scanner reads. *)
Record instance := {
  inst_name : option string;
  inst_zone : option string;
  inst_status : option string
}.

(** The value stored for a VM in [new_cache]. *)
Record vm_entry := {
  vm_zone : string;
  vm_status : option string;
  vm_project : string
}.

(** What [subprocess.run] gives [list_vms_in_zone], with what [json.loads]
    makes of the standard output. *)
Record listing := {
  ls_raises : option string;
  ls_returncode : Z;
  ls_stdout : string;
  ls_json : py_result (list instance);
  ls_stderr : string
}.

Definition list_cmd (zone : string) : list string :=
  ["gcloud"; "compute"; "instances"; "list"; "--filter=zone:" ++ zone;
   "--format=json"].

(** [GCPCommandExecutor.list_vms_in_zone]: success, instances and error
    message; an exception of [subprocess.run] or [json.loads] is not caught. *)
Definition list_vms_in_zone (l : listing)
  : py_result (bool * list instance * string) :=
  match ls_raises l with
  | Some msg => Raises msg
  | None =>
      if (ls_returncode l =? 0)%Z && PyStr.truthy (PyStr.strip (ls_stdout l))
      then match ls_json l with
           | Ok instances => Ok (true, instances, "")
           | Raises msg => Raises msg
           end
      else Ok (false, [],
               if PyStr.truthy (ls_stderr l)
               then PyStr.split_first newline (ls_stderr l)
               else "Empty response")
  end.

(** The loop over the instances of one zone (lines 63-75). *)
Fixpoint add_instances (new_cache : dict vm_entry) (instances : list instance)
         (project : string) : dict vm_entry :=
  match instances with
  | [] => new_cache
  | i :: rest =>
      let vm_zone :=
        last (PyStr.split "/"%char
                (match inst_zone i with Some z => z | None => "" end)) "" in
      match inst_name i with
      | Some (String c t) =>
          add_instances
            (Dict.set new_cache (String c t)
               {| vm_zone := vm_zone; vm_status := inst_status i;
                  vm_project := project |})
            rest project
      | _ => add_instances new_cache rest project
      end
  end.

(** The loop over the zones (lines 59-77): the listings launched and the
    cache built, or the exception that ends the scan. *)
Fixpoint scan_zones (listings : string -> listing) (zones : list string)
         (project : string) (new_cache : dict vm_entry)
  : py_result (list (list string) * dict vm_entry) :=
  match zones with
  | [] => Ok ([], new_cache)
  | zone :: rest =>
      match list_vms_in_zone (listings zone) with
      | Raises msg => Raises msg
      | Ok (success, instances, _) =>
          let new_cache' :=
            if success then add_instances new_cache instances project
            else new_cache in
          match scan_zones listings rest project new_cache' with
          | Raises msg => Raises msg
          | Ok (cmds, final_cache) => Ok (list_cmd zone :: cmds, final_cache)
          end
      end
  end.

(** [VMScanner.update_vm_cache] up to its call of [self.vm_cache.update]:
    [None] when the project is unknown and the update is abandoned with the
    cache untouched; otherwise the listings launched and the [new_cache]
    that [VMCache.update] then puts in place of the old one, in one
    assignment under the lock. *)
Definition update_vm_cache (project : string) (zones : ZoneManager.zones_run)
           (listings : string -> listing)
  : py_result (option (list (list string) * dict vm_entry)) :=
  if negb (PyStr.truthy project) then Ok None
  else
    match scan_zones listings (ZoneManager.get_all_zones zones) project [] with
    | Raises msg => Raises msg
    | Ok r => Ok (Some r)
    end.

End VMScanner.

(* ================================================================== *)
(** ** operation_logger.py: class OperationLogger *)
(* ================================================================== *)

Module OperationLogger.

(** The row [log_operation] appends, without its first column (the
    timestamp): vm_name, operation, client_ip, zone, status, vanity_name. *)
Record row := {
  vm_name : string;
  operation : string;
  client_ip : string;
  zone : string;
  status : string;
  vanity_name : string
}.

(** [x or default] for an optional string. *)
Definition or_else (x : option string) (default : string) : string :=
  match x with
  | Some (String c t) => String c t
  | _ => default
  end.

(** The row written by
    [log_operation(timestamp, vm_name, operation, client_ip, zone, status, vanity_name)].
    The method catches every exception of the file write and returns
    [None] then; the write is taken to succeed. *)
Definition log_operation (vm_name operation client_ip : string)
           (zone : option string) (status : string)
           (vanity_name : option string) : row := {|
  vm_name := vm_name;
  operation := operation;
  client_ip := client_ip;
  zone := or_else zone "unknown";
  status := status;
  vanity_name := or_else vanity_name vm_name
|}.

End OperationLogger.

(* ================================================================== *)
(** ** core/vm_operations_handler.py: class VMOperationsHandler *)
(* ================================================================== *)

Module VMOperationsHandler.
Import NameResolver AuthorizationPolicy.

(** *** Error sanitizing *)

(** The character class of the pattern in [_sanitize_error]: anything but
    a single quote, a double quote or white space. *)
Definition vm_name_char (c : ascii) : bool :=
  negb (Ascii.eqb c quote || Ascii.eqb c dquote || PyStr.is_space c).

Definition not_found_message (vm_name : string) : string :=
  "Error: VM '" ++ vm_name ++ "' not found. Please verify the VM name and try again.".

Definition permission_message : string :=
  "Error: Insufficient permissions to perform this operation.".

Definition generic_message : string :=
  "An error occurred while performing the operation. Please check VM name and try again.".

(** The search for [instances/] followed by a run of that class, and the
    choice of [vm_name] that follows it (lines 334-335). *)
Definition extracted_vm_name (error_message : string) : string :=
  match PyStr.search_lit_class "instances/" vm_name_char error_message with
  | Some g => g
  | None => "the specified VM"
  end.

Definition is_not_found_error (error_message : string) : bool :=
  PyStr.contains "HTTPError 404" error_message
  && PyStr.contains "was not found" error_message.

Definition is_permission_error (error_message : string) : bool :=
  PyStr.contains "permission" (PyStr.lower error_message)
  || PyStr.contains "authorized" (PyStr.lower error_message).

(** [_sanitize_error] *)
Definition _sanitize_error (error_message : string) : string :=
  if is_not_found_error error_message
  then not_found_message (extracted_vm_name error_message)
  else if is_permission_error error_message
  then permission_message
  else generic_message.

(** *** The pattern of [execute_operation_json], line 479 *)

Definition not_slash (c : ascii) : bool := negb (Ascii.eqb c "/"%char).
Definition not_quote (c : ascii) : bool :=
  negb (Ascii.eqb c quote || Ascii.eqb c dquote).

(** What follows the longest prefix of [s] made of [ok] characters. *)
Fixpoint drop_while (ok : ascii -> bool) (s : string) : string :=
  match s with
  | EmptyString => EmptyString
  | String c t => if ok c then drop_while ok t else s
  end.

(** The tail of the pattern, a lazy [.*?] before [instances/] and a
    group of non-quotes: the first place, reached without crossing a
    line end, where [instances/] is followed by a character that is not a
    quote; the second group is the longest run from there. *)
Fixpoint lazy_instances (s : string) : option string :=
  let here :=
    match PyStr.after_prefix s "instances/" with
    | Some rest =>
        match PyStr.span not_quote rest with
        | EmptyString => None
        | g => Some g
        end
    | None => None
    end in
  match here with
  | Some g => Some g
  | None =>
      match s with
      | EmptyString => None
      | String c t => if Ascii.eqb c newline then None else lazy_instances t
      end
  end.

(** The match anchored at one position: [The resource 'projects/], a
    non-empty run without slash, a slash, and then [lazy_instances]. *)
Definition resource_here (s : string) : option string :=
  match PyStr.after_prefix s "The resource 'projects/" with
  | None => None
  | Some rest =>
      match PyStr.span not_slash rest with
      | EmptyString => None
      | _ =>
          match PyStr.after_prefix (drop_while not_slash rest) "/" with
          | None => None
          | Some rest' => lazy_instances rest'
          end
      end
  end.

(** [re.search] with the pattern of line 479: [group(2)] of the leftmost
    match. *)
Fixpoint resource_instance (s : string) : option string :=
  match resource_here s with
  | Some g => Some g
  | None =>
      match s with
      | EmptyString => None
      | String _ t => resource_instance t
      end
  end.

(** *** Events, effects and control flow *)

Record status_info := {
  si_name : string;
  si_vanity_name : option string;
  si_status : string;
  si_machine_type : string;
  si_ip_address : string;
  si_zone : string
}.

(** The [data] of an SSE message: a text, or the dictionary that the
    handler passes through [json.dumps]. *)
Inductive payload :=
| Text (s : string)
| Json (info : status_info).

Record sse_message := {
  event : string;
  data : payload;
  retry : Z
}.

(** [_format_sse_message] *)
Definition _format_sse_message (event_type : string) (data : payload)
  : sse_message :=
  {| event := event_type; data := data; retry := 1000 |}.

(** What one invocation does, in order: the messages it yields, the rows
    it has the logger write, the commands it launches and the names it
    asks the cache for. *)
Inductive effect :=
| Yield (m : sse_message)
| Log (r : OperationLogger.row)
| Exec (cmd : list string)
| ZoneLookup (vm_name : string).

(** The exceptions that travel through [execute_operation_json]. *)
Inductive pyexn :=
| HTTPException (status_code : Z) (detail : string)
| Exception (msg : string).

(** How a block of statements ends: it falls through with a value, it
    executes [return], or it raises. *)
Inductive flow (R A : Type) :=
| Next (a : A)
| Return (r : R)
| Throw (e : pyexn).
Arguments Next {R A} a.
Arguments Return {R A} r.
Arguments Throw {R A} e.

(** A block: the effects it performs and how it ends. *)
Definition block (R A : Type) : Type := list effect * flow R A.

Definition pass {R A} (a : A) : block R A := ([], Next a).
Definition do {R} (e : effect) : block R unit := ([e], Next tt).
Definition return_ {R A} (r : R) : block R A := ([], Return r).
Definition raise {R A} (e : pyexn) : block R A := ([], Throw e).

Definition bind {R A B} (m : block R A) (k : A -> block R B) : block R B :=
  match m with
  | (t, Next a) => let (t', f) := k a in ((t ++ t')%list, f)
  | (t, Return r) => (t, Return r)
  | (t, Throw e) => (t, Throw e)
  end.

Notation "x <- m ;; k" := (bind m (fun x => k))
  (at level 61, m at next level, right associativity).
Notation "m ;; k" := (bind m (fun _ => k))
  (at level 61, right associativity).

(** A value that may raise, inside a block. *)
Definition eval {R A} (v : py_result A) : block R A :=
  match v with
  | Ok a => pass a
  | Raises msg => raise (Exception msg)
  end.

(** [await asyncio.create_subprocess_exec( *cmd, ...)] *)
Definition launch {R} (cmd : list string) (p : proc) : block R unit :=
  do (Exec cmd) ;;
  match raises p with
  | Some msg => raise (Exception msg)
  | None => pass tt
  end.

(** The operations the route of [fastserver.py] lets through. *)
Definition valid_operations : list string :=
  ["status"; "start"; "stop"; "suspend"; "resume"].

(** *** Commands *)

Definition gcloud_instances (verb vmname zone : string) : list string :=
  ["gcloud"; "compute"; "instances"; verb; vmname; "--zone"; zone].

(** [_get_gcloud_command] *)
Definition _get_gcloud_command (operation vmname zone : string)
  : option (list string) :=
  Dict.get
    [("status", gcloud_instances "describe" vmname zone);
     ("start", gcloud_instances "start" vmname zone);
     ("stop", gcloud_instances "stop" vmname zone);
     ("suspend", gcloud_instances "suspend" vmname zone);
     ("resume", gcloud_instances "resume" vmname zone)]
    operation.

Definition status_cmd_csv (real_vmname zone : string) : list string :=
  ["gcloud"; "compute"; "instances"; "describe"; real_vmname; "--zone"; zone;
   "--format=csv[no-heading](status,machineType.basename(),networkInterfaces[0].networkIP)"].

Definition status_cmd_json (real_vmname zone : string) : list string :=
  ["gcloud"; "compute"; "instances"; "describe"; real_vmname; "--zone"; zone;
   "--format=json"].

(** *** Messages *)

Definition denial_message (cfg : AuthorizationPolicy.t)
           (vmname operation : string) : string :=
  let allowed_vms_display :=
    map (fun vm => vm ++ " (" ++ get_vanity_name vm ++ ")") (ALLOWED_VMS cfg) in
  "Operation '" ++ operation ++ "' is not allowed for VM '" ++ vmname
    ++ "'. Only allowed for: " ++ PyStr.join ", " allowed_vms_display.

Definition no_zone_message (real_vmname : string) : string :=
  "VM " ++ real_vmname ++ " not found in any zone. Please specify a zone parameter.".

(** Truth value of an optional string: [None] and the empty string are false. *)
Definition given (zone : option string) : option string :=
  match zone with
  | Some (String c t) => Some (String c t)
  | _ => None
  end.

(** *** The two executors *)

Section Executor.

(** The configuration read at import time, the cache object the handler
    was built with, the clock at the cache lookup, and the behaviour of
    the one external command an invocation may launch. *)
Variable cfg : AuthorizationPolicy.t.
Variable vm_cache : VMCache.t.
Variable now : Z.
Variable p : proc.

(** The arguments of the call. *)
Variable vmname operation : string.
Variable zone : option string.
Variable client_ip : string.

Let real_vmname := map_vanity_to_hostname vmname.
Let vanity_vmname := get_vanity_name vmname.

Definition log_row (zone : option string) (status : string) : effect :=
  Log (OperationLogger.log_operation real_vmname operation client_ip zone
         status (Some vanity_vmname)).

Definition say {R} (event_type text : string) : block R unit :=
  do (Yield (_format_sse_message event_type (Text text))).

(** Lines 105-123 and 375-394: the zone of the request, or the one the
    cache knows; [on_miss] is what the caller does when there is none. *)
Definition resolve_zone {R} (on_miss : block R string) : block R string :=
  match given zone with
  | Some z => pass z
  | None =>
      do (ZoneLookup real_vmname) ;;
      match given (fst (VMCache.get_vm_zone vm_cache now real_vmname)) with
      | Some z => pass z
      | None => on_miss
      end
  end.

(** **** Streaming mode: [execute_vm_operation] *)

(** Lines 235-239: one progress message per line of output. *)
Fixpoint stream_output (lines : list (py_result string)) : block unit unit :=
  match lines with
  | [] => pass tt
  | line :: rest =>
      text <- eval line ;;
      say "progress" (PyStr.strip text) ;;
      stream_output rest
  end.

(** Lines 138-216. *)
Definition stream_status (zone : string) : block unit unit :=
  say "info" ("Checking status of VM " ++ real_vmname ++ " in zone " ++ zone) ;;
  launch (status_cmd_csv real_vmname zone) p ;;
  (if (returncode p =? 0)%Z then
     output <- eval (stdout p) ;;
     let output_text := PyStr.strip output in
     let vm_info := PyStr.split ","%char output_text in
     if (1 <=? List.length vm_info)%nat then
       let status := PyStr.strip (nth 0 vm_info "") in
       let machine_type :=
         if (2 <=? List.length vm_info)%nat
         then PyStr.strip (nth 1 vm_info "") else "unknown" in
       let ip_address :=
         if (3 <=? List.length vm_info)%nat
         then PyStr.strip (nth 2 vm_info "") else "unknown" in
       let info := {|
         si_name := real_vmname;
         si_vanity_name :=
           if String.eqb vanity_vmname real_vmname then None
           else Some vanity_vmname;
         si_status := status;
         si_machine_type := machine_type;
         si_ip_address := ip_address;
         si_zone := zone |} in
       do (log_row (Some zone) "completed") ;;
       do (Yield (_format_sse_message "status" (Json info))) ;;
       say "success" ("VM " ++ real_vmname ++ " is " ++ status ++ " ("
                        ++ machine_type ++ ", IP: " ++ ip_address ++ ")")
     else
       say "error" "Unable to parse VM status information"
   else
     error_msg <- eval (stderr p) ;;
     say "error" (_sanitize_error error_msg) ;;
     do (log_row (Some zone) "failed")) ;;
  return_ tt.

(** Lines 218-278. *)
Definition stream_command (zone : string) : block unit unit :=
  match _get_gcloud_command operation real_vmname zone with
  | None =>
      say "error" ("Invalid operation: " ++ operation) ;;
      return_ tt
  | Some cmd =>
      say "info" ("Executing " ++ operation ++ " on VM " ++ real_vmname
                    ++ " in zone " ++ zone) ;;
      launch cmd p ;;
      stream_output (stdout_lines p) ;;
      if (returncode p =? 0)%Z then
        say "success" ("Successfully completed " ++ operation
                         ++ " operation on VM " ++ real_vmname
                         ++ " (" ++ vanity_vmname ++ ")") ;;
        do (log_row (Some zone) "completed")
      else
        error_message <- eval (stderr p) ;;
        say "error" (_sanitize_error error_message) ;;
        do (log_row (Some zone) "failed")
  end.

(** The body of the [try] statement (lines 104-278). *)
Definition stream_try : block unit unit :=
  zone <- resolve_zone
            (say "error" (no_zone_message real_vmname) ;;
             do (log_row (Some "unknown") "failed-no-zone") ;;
             return_ tt) ;;
  do (log_row (Some zone) "started") ;;
  if String.eqb operation "status"
  then stream_status zone
  else stream_command zone.

(** The [zone] variable when an exception reaches the handler: nothing
    raises before the zone is resolved, so it is the resolved zone. *)
Definition zone_at_except : option string :=
  match given zone with
  | Some z => Some z
  | None => fst (VMCache.get_vm_zone vm_cache now real_vmname)
  end.

(** The text [str(e)] of an exception; for an [HTTPException] it is
    the status code, a colon and the detail. *)
Definition str_of (e : pyexn) : string :=
  match e with
  | HTTPException status_code detail =>
      NilZero.string_of_int (Z.to_int status_code) ++ ": " ++ detail
  | Exception msg => msg
  end.

(** [execute_vm_operation], run to the end of the generator. *)
Definition execute_vm_operation : list effect :=
  if negb (is_vm_allowed_for_operation cfg real_vmname operation) then
    [Yield (_format_sse_message "error"
              (Text (denial_message cfg vmname operation)));
     log_row zone "denied"]
  else
    match stream_try with
    | (t, Throw e) =>
        (* lines 280-297 *)
        (t ++ [Yield (_format_sse_message "error"
                        (Text (_sanitize_error (str_of e))));
               log_row zone_at_except "error"])%list
    | (t, _) => t
    end.

(** **** Single-response mode: [execute_operation_json] *)

Record instance_info := {
  ii_name : string;
  ii_status : string;
  ii_zone : string;
  ii_machineType : string;
  ii_networkIP : string
}.

(** The dictionaries the function returns. *)
Inductive json_response :=
| StatusResponse (data : instance_info) (vanity_name : option string)
| MessageResponse (message : string).

(** How the call ends for its caller. *)
Inductive json_outcome :=
| Returned (r : option json_response)
| Raised (status_code : Z) (detail : string).

Definition get_or (x : option string) (default : string) : string :=
  match x with Some v => v | None => default end.

(** Lines 409-485. *)
Definition json_status (zone : string) : block json_response unit :=
  launch (status_cmd_json real_vmname zone) p ;;
  if (returncode p =? 0)%Z then
    full_vm_info <- eval (stdout_json p) ;;
    let machine_type :=
      match doc_machineType full_vm_info with
      | Some mt => last (PyStr.split "/"%char mt) "unknown"
      | None => "unknown"
      end in
    let network_ip :=
      match doc_networkInterfaces full_vm_info with
      | Some (first :: _) => get_or first "unknown"
      | _ => "unknown"
      end in
    let info := {|
      ii_name := get_or (doc_name full_vm_info) "unknown";
      ii_status := get_or (doc_status full_vm_info) "unknown";
      ii_zone := zone;
      ii_machineType := machine_type;
      ii_networkIP := network_ip |} in
    do (log_row (Some zone) "completed") ;;
    return_ (StatusResponse info
               (if String.eqb vanity_vmname real_vmname then None
                else Some vanity_vmname))
  else
    error_msg <- eval (stderr p) ;;
    let sanitized_error := _sanitize_error error_msg in
    do (log_row (Some zone) "failed") ;;
    match resource_instance error_msg with
    | Some instance =>
        raise (HTTPException 404
                 ("Error: The resource '" ++ instance
                    ++ "' was not found in zone '" ++ zone ++ "'."))
    | None => raise (HTTPException 500 sanitized_error)
    end.

Definition operation_past : string :=
  get_or (Dict.get [("start", "started"); ("stop", "stopped");
                    ("suspend", "suspended"); ("resume", "resumed")]
                   operation)
         (operation ++ "ed").

(** Lines 487-537. *)
Definition json_command (zone : string) : block json_response unit :=
  match _get_gcloud_command operation real_vmname zone with
  | None =>
      (* unpacking [None] raises a TypeError; not reached for the four
         operations of this branch *)
      raise (Exception "Value after * must be an iterable, not NoneType")
  | Some cmd =>
      launch cmd p ;;
      if (returncode p =? 0)%Z then
        do (log_row (Some zone) "completed") ;;
        return_ (MessageResponse
                   ("VM " ++ real_vmname ++ " (" ++ vanity_vmname ++ ") "
                      ++ operation_past ++ " successfully."))
      else
        error_msg <- eval (stderr p) ;;
        do (log_row (Some zone) "failed") ;;
        raise (HTTPException 500 (_sanitize_error error_msg))
  end.

(** The body of the [try] statement (lines 374-540). *)
Definition json_try : block json_response unit :=
  zone <- resolve_zone
            (do (log_row (Some "unknown") "failed-no-zone") ;;
             raise (HTTPException 404 (no_zone_message real_vmname))) ;;
  do (log_row (Some zone) "started") ;;
  if String.eqb operation "status" then json_status zone
  else if str_in operation ["start"; "stop"; "suspend"; "resume"]
  then json_command zone
  else raise (HTTPException 400 ("Invalid operation: " ++ operation)).

(** [execute_operation_json]: the effects and the way the call ends. *)
Definition execute_operation_json : list effect * json_outcome :=
  if negb (is_vm_allowed_for_operation cfg real_vmname operation) then
    ([log_row zone "denied"],
     Raised 403 (denial_message cfg vmname operation))
  else
    match json_try with
    | (t, Return r) => (t, Returned (Some r))
    | (t, Next _) => (t, Returned None)
    | (t, Throw (HTTPException status_code detail)) =>
        (t, Raised status_code detail)                  (* line 544 *)
    | (t, Throw (Exception msg)) =>
        ((t ++ [log_row zone_at_except "error"])%list,
         Raised 500 (_sanitize_error msg))              (* lines 545-561 *)
    end.

End Executor.

(** *** Reading a trace *)

Definition rows (t : list effect) : list OperationLogger.row :=
  flat_map (fun e => match e with Log r => [r] | _ => [] end) t.

Definition commands (t : list effect) : list (list string) :=
  flat_map (fun e => match e with Exec c => [c] | _ => [] end) t.

Definition messages (t : list effect) : list sse_message :=
  flat_map (fun e => match e with Yield m => [m] | _ => [] end) t.

Definition lookups (t : list effect) : list string :=
  flat_map (fun e => match e with ZoneLookup n => [n] | _ => [] end) t.

(** An effect concerns the host [host]: a row carries it as [vm_name], a
    command names it as its instance (the fifth word), a cache lookup asks
    for it.  A message concerns no host. *)
Definition targets (host : string) (e : effect) : bool :=
  match e with
  | Log r => String.eqb (OperationLogger.vm_name r) host
  | Exec cmd => String.eqb (nth 4 cmd "") host
  | ZoneLookup n => String.eqb n host
  | Yield _ => true
  end.

Definition all_target (host : string) (t : list effect) : Prop :=
  forallb (targets host) t = true.

Definition statuses (t : list effect) : list string :=
  map OperationLogger.status (rows t).

(** The statuses that close an invocation which has written [started]. *)
Definition is_terminal (status : string) : bool :=
  str_in status ["completed"; "failed"; "error"].

(** The statuses written after the first [started]. *)
Fixpoint after_started (l : list string) : option (list string) :=
  match l with
  | [] => None
  | s :: rest => if String.eqb s "started" then Some rest else after_started rest
  end.

(** A block of the streaming executor that closes an operation: it
    writes one [completed] row or one [failed] row, or it writes none and
    leaves with an exception that the handler turns into a row. *)
Definition closes (m : block unit unit) : Prop :=
  match snd m with
  | Throw (Exception _) => statuses (fst m) = []
  | Throw (HTTPException _ _) => False
  | _ => statuses (fst m) = ["completed"] \/ statuses (fst m) = ["failed"]
  end.

(** The same for the single-response executor: a result comes with one
    [completed] row, an HTTP error with one [failed] row. *)
Definition closes_json {R} (m : block R unit) : Prop :=
  match snd m with
  | Throw (Exception _) => statuses (fst m) = []
  | Throw (HTTPException _ _) => statuses (fst m) = ["failed"]
  | Return _ => statuses (fst m) = ["completed"]
  | Next _ => False
  end.

Definition terminal_rows_after_started (t : list effect) : option nat :=
  match after_started (statuses t) with
  | Some rest => Some (List.length (filter is_terminal rest))
  | None => None
  end.

End VMOperationsHandler.

(* ================================================================== *)
(** ** Inputs of the examples *)
(* ================================================================== *)

Module Sample.

(** A command that exits with code 0 and prints [out]. *)
Definition succeeds (out : string) : proc := {|
  raises := None;
  returncode := 0;
  stdout := Ok out;
  stdout_lines := match out with EmptyString => [] | _ => [Ok out] end;
  stdout_json := Raises "Expecting value: line 1 column 1 (char 0)";
  stderr := Ok ""
|}.

(** A command that exits with code 1 and writes [err] to its standard
    error. *)
Definition fails (err : string) : proc := {|
  raises := None;
  returncode := 1;
  stdout := Ok "";
  stdout_lines := [];
  stdout_json := Raises "Expecting value: line 1 column 1 (char 0)";
  stderr := Ok err
|}.

(** A cache that knows one VM, refreshed at instant [0]. *)
Definition one_vm : VMCache.t := {|
  VMCache.max_age_hours := VMCache.CACHE_MAX_AGE_HOURS;
  VMCache.vm_zone_map := [("vm1", "us-central1-a")];
  VMCache.last_update := 0;
  VMCache.cache_file := Some ([("vm1", "us-central1-a")], 0%Z)
|}.

(** A cache that knows two VMs in two zones. *)
Definition two_vms : VMCache.t := {|
  VMCache.max_age_hours := VMCache.CACHE_MAX_AGE_HOURS;
  VMCache.vm_zone_map := [("vm1", "us-central1-a"); ("vm2", "us-east1-b")];
  VMCache.last_update := 0;
  VMCache.cache_file :=
    Some ([("vm1", "us-central1-a"); ("vm2", "us-east1-b")], 0%Z)
|}.

(** A refresh whose zone listing exits with code 1. *)
Definition zone_listing_fails (instances : string -> proc) (t1 t2 : Z)
  : VMCache.refresh_env := {|
  VMCache.zones_process :=
    fails "ERROR: (gcloud.compute.zones.list) You do not currently have an active account selected.";
  VMCache.instances_process := instances;
  VMCache.now_update := t1;
  VMCache.now_save := t2
|}.

(** A refresh that finds the two zones and, in each, the VM that
    [two_vms] knows there. *)
Definition finds_both (t1 t2 : Z) : VMCache.refresh_env := {|
  VMCache.zones_process :=
    succeeds (String.concat (String newline "")
                ["us-central1-a"; "us-east1-b"; ""]);
  VMCache.instances_process := fun zone =>
    if String.eqb zone "us-central1-a"
    then succeeds (String.concat (String newline "") ["vm1"; ""])
    else succeeds (String.concat (String newline "") ["vm2"; ""]);
  VMCache.now_update := t1;
  VMCache.now_save := t2
|}.

(** [subprocess.run] of the zone listing of [ZoneManager] exiting with
    code 1. *)
Definition zones_run_fails : ZoneManager.zones_run := {|
  ZoneManager.run_raises := None;
  ZoneManager.run_returncode := 1;
  ZoneManager.run_stdout := "";
  ZoneManager.run_json := Raises "Expecting value: line 1 column 1 (char 0)"
|}.

(** An instance listing that exits with code 0 and prints an empty list. *)
Definition no_instances (zone : string) : VMScanner.listing := {|
  VMScanner.ls_raises := None;
  VMScanner.ls_returncode := 0;
  VMScanner.ls_stdout := "[]";
  VMScanner.ls_json := Ok [];
  VMScanner.ls_stderr := ""
|}.

End Sample.

(* ================================================================== *)
(** ** vm_cache.py and fastserver.py: start and stop of the cache *)
(* ================================================================== *)

Module VMCacheStartup.
Import VMCache.

(** [VMCache.__init__] with an explicit [max_age_hours]. *)
Definition make (file : option (dict string * Z)) (max_age_hours : Z) : t := {|
  max_age_hours := max_age_hours;
  vm_zone_map := [];
  last_update := 0%Z;
  cache_file := file
|}.

(** The object after a start, with the external commands launched on the
    way. *)
Record startup := {
  state : t;
  launched : list (list string)
}.

(** [VMCache.initialize]: the pickle file when it loads, a refresh
    otherwise.  The background task it then starts has no effect before the
    coroutine returns. *)
Definition initialize (self : t) (now : Z) (env : refresh_env) : startup :=
  let (loaded, ok) := _load_from_pickle self now in
  if ok then {| state := loaded; launched := [] |}
  else
    let r := update_cache self env in
    {| state := final r; launched := ran r |}.

(** The start-up half of [lifespan] in [fastserver.py]: [initialize], and
    one more refresh when the cache reports no entry. *)
Definition lifespan_startup (self : t) (now : Z) (env1 env2 : refresh_env)
  : startup :=
  let s := initialize self now env1 in
  if (get_status (state s) =? 0)%nat then
    let r := update_cache (state s) env2 in
    {| state := final r; launched := (launched s ++ ran r)%list |}
  else s.

(** The shut-down half of [lifespan]: the task is cancelled and the
    current state is written to the pickle file. *)
Definition lifespan_shutdown (self : t) (now : Z) : t :=
  _save_to_pickle self now.

(** With every key the mapping holds its lower-case spelling. *)
Definition lower_closed (m : dict string) : Prop :=
  forall k, Dict.mem m k = true -> Dict.mem m (PyStr.lower k) = true.

(** The key [k] is a line, as printed or in lower case, of the output of
    a successful instance listing of the zone [z]. *)
Definition listed_in (instances : string -> proc) (k z : string) : Prop :=
  exists out vm,
    stdout (instances z) = Ok out
    /\ returncode (instances z) = 0%Z
    /\ In vm (nonempty_lines out)
    /\ (k = vm \/ k = PyStr.lower vm).

End VMCacheStartup.

(* ================================================================== *)
(** ** fastserver.py: the route /gcp-action/ *)
(* ================================================================== *)

Module Route.
Import VMOperationsHandler.

(** What the route hands back: the streaming response, whose generator the
    server then runs, the body of a single response, or an HTTP error. *)
Inductive response :=
| Stream
| Body (r : option json_response)
| HttpError (status_code : Z) (detail : string).

(** A query parameter with a default value. *)
Definition query (given : option string) (default : string) : string :=
  match given with Some v => v | None => default end.

(** [handle_vm_operation]: the effects of the request, those of the
    generator included, and the response. *)
Definition handle_vm_operation (cfg : AuthorizationPolicy.t)
           (vm_cache : VMCache.t) (now : Z) (p : proc)
           (vmname : string) (operation : option string)
           (zone : option string) (format : option string)
           (client_ip : string) : list effect * response :=
  let operation := query operation "status" in
  let format := query format "sse" in
  if negb (str_in operation valid_operations) then
    ([], HttpError 400
           ("Invalid operation: " ++ operation ++ ". Valid operations are: "
              ++ PyStr.join ", " valid_operations))
  else if String.eqb (PyStr.lower format) "json" then
    match execute_operation_json cfg vm_cache now p vmname operation zone
            client_ip with
    | (t, Returned r) => (t, Body r)
    | (t, Raised status_code detail) => (t, HttpError status_code detail)
    end
  else
    (execute_vm_operation cfg vm_cache now p vmname operation zone client_ip,
     Stream).

(** A message that ends a stream. *)
Definition is_final (m : sse_message) : bool :=
  str_in (event m) ["success"; "error"].

End Route.

(* ================================================================== *)
(** ** Reading a trace, continued *)
(* ================================================================== *)

Module Shape.
Import VMOperationsHandler.

(** The message that forwards one line of output. *)
Definition progress_message (text : string) : sse_message :=
  _format_sse_message "progress" (Text (PyStr.strip text)).

(** A command is launched only once a row [started] has been written, and
    only one command is launched: [started] and [launched] tell what has
    been seen so far. *)
Fixpoint in_order (started launched : bool) (t : list effect) : bool :=
  match t with
  | [] => true
  | Log r :: rest =>
      in_order (started || String.eqb (OperationLogger.status r) "started")
               launched rest
  | Exec _ :: rest => started && negb launched && in_order started true rest
  | _ :: rest => in_order started launched rest
  end.

(** The last message, and only the last, ends the stream. *)
Fixpoint one_final_last (l : list sse_message) : bool :=
  match l with
  | [] => false
  | m :: rest =>
      match rest with
      | [] => Route.is_final m
      | _ => negb (Route.is_final m) && one_final_last rest
      end
  end.

(** A row that belongs to the request: the host column is the canonical
    name of the identifier of the request, the alias column leads back to
    the host column, the operation and the client are those of the
    request, and the zone column is not empty. *)
Definition carries_request (vmname operation client_ip : string)
           (r : OperationLogger.row) : Prop :=
  OperationLogger.vm_name r = NameResolver.map_vanity_to_hostname vmname
  /\ NameResolver.map_vanity_to_hostname (OperationLogger.vanity_name r)
     = OperationLogger.vm_name r
  /\ OperationLogger.operation r = operation
  /\ OperationLogger.client_ip r = client_ip
  /\ OperationLogger.zone r <> "".

(** The status codes that [execute_operation_json] raises. *)
Definition http_codes : list Z := [400; 403; 404; 500]%Z.

End Shape.

(* ================================================================== *)
(** ** utils/sse_utils.py: class SSEManager *)
(* ================================================================== *)

Module SSEManager.

(** The data of an event: the dictionary of [add_progress_update] without
    its timestamp, the dictionary of the [connected] event, or what the
    caller passed. *)
Inductive payload :=
| ProgressData (step : string) (progress : Z) (message status : string)
| ConnectionEstablished (operation_id : string)
| Given (d : option string).

(** An [SSEEvent] as the manager builds it: the identifier is drawn at
    random and [retry] is left out. *)
Record SSEEvent := { data : payload; event : string }.

(** [operation_events] *)
Definition t := dict (list SSEEvent).

Definition create_operation_stream (self : t) (operation_id : string) : t :=
  if Dict.mem self operation_id then self else Dict.set self operation_id [].

(** [operation_events.get(operation_id, [])] *)
Definition events_of (self : t) (operation_id : string) : list SSEEvent :=
  match Dict.get self operation_id with
  | Some events => events
  | None => []
  end.

Definition add_event (self : t) (operation_id event_type : string)
           (d : payload) : t :=
  let self := create_operation_stream self operation_id in
  Dict.set self operation_id
    (events_of self operation_id ++ [{| data := d; event := event_type |}])%list.

Definition add_progress_update (self : t) (operation_id step : string)
           (progress : Z) (message status : string) : t :=
  add_event self operation_id "progress"
    (ProgressData step progress message status).

Definition add_completion_event (self : t) (operation_id : string)
           (success : bool) (d : option string) : t :=
  let event_type := if success then "success" else "error" in
  let self := add_event self operation_id event_type (Given d) in
  if success then
    add_progress_update self operation_id "completed" 100
      "Operation completed successfully" "success"
  else
    add_progress_update self operation_id "failed" 100
      "Operation failed" "error".

(** A call of one of the three methods that add events.  They are plain
    methods: on the event loop, one call runs to its end before anything
    else does. *)
Inductive call :=
| AddEvent (operation_id event_type : string) (d : payload)
| AddProgressUpdate (operation_id step : string) (progress : Z)
                    (message status : string)
| AddCompletionEvent (operation_id : string) (success : bool)
                     (d : option string).

Definition run_call (self : t) (c : call) : t :=
  match c with
  | AddEvent operation_id event_type d =>
      add_event self operation_id event_type d
  | AddProgressUpdate operation_id step progress message status =>
      add_progress_update self operation_id step progress message status
  | AddCompletionEvent operation_id success d =>
      add_completion_event self operation_id success d
  end.

Definition run_calls (self : t) (calls : list call) : t :=
  fold_left run_call calls self.

(** A call that does not hand [success] or [error] to [add_event]
    directly. *)
Definition through_helpers (c : call) : bool :=
  match c with
  | AddEvent _ event_type _ => negb (str_in event_type ["success"; "error"])
  | _ => true
  end.

(** [l[a:b]] for [a <= b]. *)
Definition slice {A : Type} (l : list A) (a b : nat) : list A :=
  firstn (b - a) (skipn a l).

(** How the loop of [stream_events] is left; [Running] when the schedule
    ends before the loop does. *)
Inductive ending := Completed | Disconnected | Running.

(** What the rest of the program does around one round of the loop: the
    calls made before the round reads the list of the operation, the
    calls made while the round is suspended at its [yield]s (none can be
    made when it yields nothing), and what [request.is_disconnected()]
    answers. *)
Record tick := {
  before : list call;
  during : list call;
  disconnected : bool
}.

Definition is_final (e : SSEEvent) : bool :=
  str_in (event e) ["success"; "error"].

(** The [while True] loop of [stream_events]: the events it yields and
    how it is left. *)
Fixpoint stream_loop (self : t) (operation_id : string) (sent_events : nat)
         (schedule : list tick) : list SSEEvent * ending :=
  match schedule with
  | [] => ([], Running)
  | tk :: rest =>
      let self := run_calls self (before tk) in
      let unsent := skipn sent_events (events_of self operation_id) in
      let sent_events := (sent_events + List.length unsent)%nat in
      let self :=
        match unsent with
        | [] => self
        | _ => run_calls self (during tk)
        end in
      (* [current_events] is the list object of the operation, with what
         was appended to it meanwhile *)
      let current_events := events_of self operation_id in
      if (0 <? sent_events)%nat
         && existsb is_final
              (slice current_events (sent_events - 1) sent_events)
      then (unsent, Completed)
      else if disconnected tk then (unsent, Disconnected)
      else
        let (more, e) := stream_loop self operation_id sent_events rest in
        ((unsent ++ more)%list, e)
  end.

(** [stream_events], up to the end of its loop; the calls made while it
    is suspended at its first [yield] are those of the first round. *)
Definition stream_events (self : t) (operation_id : string)
           (schedule : list tick) : list SSEEvent * ending :=
  let self := create_operation_stream self operation_id in
  let connected := {| data := ConnectionEstablished operation_id;
                      event := "connected" |} in
  let (sent, e) := stream_loop self operation_id 0 schedule in
  (connected :: sent, e).

(** A list of events that does not end with a [success] or an [error]. *)
Definition open_ended (l : list SSEEvent) : Prop :=
  l = [] \/ exists a e, l = (a ++ [e])%list /\ is_final e = false.

(** A schedule in which no call hands [success] or [error] to
    [add_event] directly. *)
Definition helpers_only (schedule : list tick) : bool :=
  forallb (fun tk => forallb through_helpers (before tk)
                     && forallb through_helpers (during tk)) schedule.

End SSEManager.

(* ================================================================== *)
(** * Properties *)
(* ================================================================== *)

Unset Implicit Arguments.

(** ** Strings *)

Section StringFacts.

Lemma startswith_refl (s : string) : PyStr.startswith s s = true.
Proof.
  induction s as [|c s IH]; simpl; [reflexivity|].
  now rewrite Ascii.eqb_refl, IH.
Qed.

Lemma startswith_nil (s : string) : PyStr.startswith s "" = true.
Proof. destruct s; reflexivity. Qed.

Lemma contains_self (s : string) : PyStr.contains s s = true.
Proof.
  destruct s as [|c s]; simpl; [reflexivity|].
  now rewrite Ascii.eqb_refl, startswith_refl.
Qed.

Lemma split_first_cons (sep c : ascii) (t : string) :
  PyStr.split_first sep (String c t)
  = if Ascii.eqb c sep then "" else String c (PyStr.split_first sep t).
Proof.
  unfold PyStr.split_first; simpl.
  destruct (Ascii.eqb c sep); [reflexivity|].
  destruct (PyStr.split sep t); reflexivity.
Qed.

Lemma split_first_no_sep (sep : ascii) (s : string) :
  PyStr.has_char sep (PyStr.split_first sep s) = false.
Proof.
  induction s as [|c t IH]; [reflexivity|].
  rewrite split_first_cons.
  destruct (Ascii.eqb c sep) eqn:E; simpl; [reflexivity|].
  now rewrite E, IH.
Qed.

Lemma split_first_id (sep : ascii) (s : string) :
  PyStr.has_char sep s = false -> PyStr.split_first sep s = s.
Proof.
  induction s as [|c t IH]; [reflexivity|]; simpl; intros H.
  apply orb_false_iff in H as [Hc Ht].
  rewrite split_first_cons, Hc, IH by assumption. reflexivity.
Qed.

Lemma split_first_idem (sep : ascii) (s : string) :
  PyStr.split_first sep (PyStr.split_first sep s) = PyStr.split_first sep s.
Proof. apply split_first_id, split_first_no_sep. Qed.

Lemma take_length (k : nat) (s : string) :
  (String.length (PyStr.take k s) <= k)%nat.
Proof.
  revert s; induction k as [|k IH]; intros [|c t]; simpl; try lia.
  specialize (IH t); lia.
Qed.

Lemma str_in_In (x : string) (l : list string) :
  str_in x l = true <-> In x l.
Proof.
  unfold str_in; rewrite existsb_exists; split.
  - intros (y & Hy & E). apply String.eqb_eq in E. now subst.
  - intros H. exists x. split; [assumption|apply String.eqb_refl].
Qed.

End StringFacts.

(** ** Name resolution *)

Section NameResolution.
Import NameResolver.

(** The two real host names of the vanity table are fixed points. *)
Lemma real_hostname_fixed (vmname : string) :
  VMNameManager.first_vanity Config.VANITY_TO_HOSTNAME
    (PyStr.split_first "."%char vmname) <> None ->
  map_vanity_to_hostname (map_vanity_to_hostname vmname)
  = map_vanity_to_hostname vmname.
Proof.
  unfold map_vanity_to_hostname; simpl.
  destruct (PyStr.startswith _ "nlq"); [reflexivity|].
  destruct (PyStr.startswith _ "py-server"); [reflexivity|].
  intros H; now elim H.
Qed.

(** The executor's canonicalization, applied twice, is the same as once. *)
Lemma map_vanity_to_hostname_idem (vmname : string) :
  map_vanity_to_hostname (map_vanity_to_hostname vmname)
  = map_vanity_to_hostname vmname.
Proof.
  destruct (VMNameManager.first_vanity Config.VANITY_TO_HOSTNAME
              (PyStr.split_first "."%char vmname)) as [[v r]|] eqn:E.
  - apply real_hostname_fixed. now rewrite E.
  - unfold map_vanity_to_hostname. rewrite E, split_first_idem, E.
    reflexivity.
Qed.

(** A label that starts with a vanity name resolves to that entry's host. *)
Lemma map_vanity_nlq (vmname : string) :
  PyStr.startswith (PyStr.split_first "."%char vmname) "nlq" = true ->
  map_vanity_to_hostname vmname = "guedfocnlq03".
Proof.
  intros H. unfold map_vanity_to_hostname; simpl. now rewrite H.
Qed.

Lemma startswith_two_heads (s : string) :
  PyStr.startswith s "py-server" = true -> PyStr.startswith s "nlq" = false.
Proof.
  destruct s as [|c t]; cbn [PyStr.startswith]; intros H; [discriminate H|].
  apply andb_prop in H as [E _].
  apply Ascii.eqb_eq in E; subst c. reflexivity.
Qed.

Lemma map_vanity_py_server (vmname : string) :
  PyStr.startswith (PyStr.split_first "."%char vmname) "py-server" = true ->
  map_vanity_to_hostname vmname = "guedfocdsml01".
Proof.
  intros H. unfold map_vanity_to_hostname; simpl.
  now rewrite (startswith_two_heads _ H), H.
Qed.

End NameResolution.

Section SuffixStripping.
Import VMNameManager.

Lemma slice_shorter (s : string) (n : nat) :
  s <> "" -> (String.length (PyStr.slice_to_minus s (S n)) < String.length s)%nat.
Proof.
  intros H. unfold PyStr.slice_to_minus.
  pose proof (take_length (String.length s - S n) s).
  destruct s; [now elim H|]. simpl in *. lia.
Qed.

(** Cutting a known suffix off a name gives another string. *)
Lemma clean_changes (vmname : string) :
  has_known_suffix default vmname = true ->
  (String.length (clean_vm_name default vmname) < String.length vmname)%nat.
Proof.
  unfold has_known_suffix, clean_vm_name. simpl.
  destruct vmname as [|c t]; [discriminate|]. cbn [PyStr.truthy negb].
  set (s := String c t). assert (Hs : s <> "") by discriminate.
  destruct (PyStr.endswith s ".dev.tibco.com"); [intros _; now apply slice_shorter|].
  destruct (PyStr.endswith s ".ibi.systems"); [intros _; now apply slice_shorter|].
  destruct (PyStr.endswith s ".tibco.com"); [intros _; now apply slice_shorter|].
  discriminate.
Qed.

Lemma clean_keeps (vmname : string) :
  has_known_suffix default vmname = false ->
  clean_vm_name default vmname = vmname.
Proof.
  unfold has_known_suffix, clean_vm_name. simpl.
  destruct (PyStr.truthy vmname); [|reflexivity]. simpl.
  destruct (PyStr.endswith vmname ".dev.tibco.com"); [discriminate|].
  destruct (PyStr.endswith vmname ".ibi.systems"); [discriminate|].
  destruct (PyStr.endswith vmname ".tibco.com"); [discriminate|].
  reflexivity.
Qed.

(** A name that starts with no vanity name is a fixed point exactly when
    it carries no known domain suffix. *)
Lemma manager_fixed_iff (y : string) :
  first_vanity (vanity_to_hostname default) y = None ->
  map_vanity_to_hostname default y = y
  <-> has_known_suffix default y = false.
Proof.
  intros Hv. split.
  - intros Hfix. destruct (has_known_suffix default y) eqn:Hs; [|reflexivity].
    exfalso. apply clean_changes in Hs.
    unfold map_vanity_to_hostname in Hfix.
    destruct (first_vanity (vanity_to_hostname default)
                (clean_vm_name default y)) as [[v r]|] eqn:E.
    + cbn [first_vanity vanity_to_hostname default] in E.
      destruct (PyStr.startswith _ "nlq");
        [|destruct (PyStr.startswith _ "py-server"); [|discriminate E]];
        injection E as _ <-; rewrite <- Hfix in Hs;
        vm_compute in Hs; lia.
    + rewrite Hfix in Hs. lia.
  - intros Hs. unfold map_vanity_to_hostname.
    rewrite (clean_keeps _ Hs), Hv. reflexivity.
Qed.

(** With the default tables, [map_vanity_to_hostname] of the name manager
    is stable at [vmname] exactly when its result carries no further known
    domain suffix. *)
Lemma manager_idem_iff (vmname : string) :
  map_vanity_to_hostname default (map_vanity_to_hostname default vmname)
  = map_vanity_to_hostname default vmname
  <-> has_known_suffix default (map_vanity_to_hostname default vmname) = false.
Proof.
  unfold map_vanity_to_hostname at 2 3 4.
  destruct (first_vanity (vanity_to_hostname default)
              (clean_vm_name default vmname)) as [[v r]|] eqn:E.
  - cbn [first_vanity vanity_to_hostname default] in E.
    destruct (PyStr.startswith _ "nlq");
      [|destruct (PyStr.startswith _ "py-server"); [|discriminate E]];
      injection E as _ <-; split; reflexivity.
  - now apply manager_fixed_iff.
Qed.

End SuffixStripping.

(** C6 (as the claim states it, for the suffix-stripping canonicalization):
    a name with two known domain suffixes loses one at each application, so
    applying [map_vanity_to_hostname] of the name manager twice differs from
    applying it once. *)
Lemma canonicalize_twice_differs :
  VMNameManager.map_vanity_to_hostname VMNameManager.default
    "vm.tibco.com.ibi.systems" = "vm.tibco.com"
  /\ VMNameManager.map_vanity_to_hostname VMNameManager.default
       "vm.tibco.com" = "vm"
  /\ VMNameManager.map_vanity_to_hostname VMNameManager.default
       (VMNameManager.map_vanity_to_hostname VMNameManager.default
          "vm.tibco.com.ibi.systems")
     <> VMNameManager.map_vanity_to_hostname VMNameManager.default
          "vm.tibco.com.ibi.systems".
Proof.
  split; [reflexivity|]. split; [reflexivity|].
  vm_compute. discriminate.
Qed.

(** C6 (amended): the canonicalization of the operation executor (first
    dot-separated label, then the vanity table) is idempotent on every
    input; the canonicalization of the name manager (one known domain suffix
    cut off, then the vanity table) is idempotent at an input exactly when its
    result does not still end with a known domain suffix. *)
Theorem canonicalize_idempotent :
  (forall x : string,
     NameResolver.map_vanity_to_hostname (NameResolver.map_vanity_to_hostname x)
     = NameResolver.map_vanity_to_hostname x)
  /\ (forall x : string,
       VMNameManager.map_vanity_to_hostname VMNameManager.default
         (VMNameManager.map_vanity_to_hostname VMNameManager.default x)
       = VMNameManager.map_vanity_to_hostname VMNameManager.default x
       <-> VMNameManager.has_known_suffix VMNameManager.default
             (VMNameManager.map_vanity_to_hostname VMNameManager.default x)
           = false).
Proof.
  split.
  - exact map_vanity_to_hostname_idem.
  - exact manager_idem_iff.
Qed.

(** ** Authorization *)

Section Denial.
Import VMOperationsHandler AuthorizationPolicy NameResolver.

Variable cfg : AuthorizationPolicy.t.

(** The check made on the already resolved name is the check on the
    resolved name itself. *)
Lemma allowed_on_resolved (vmname operation : string) :
  is_vm_allowed_for_operation cfg (map_vanity_to_hostname vmname) operation
  = negb (str_in (PyStr.lower operation) (RESTRICTED_OPERATIONS cfg))
    || str_in (map_vanity_to_hostname vmname) (ALLOWED_VMS cfg).
Proof.
  unfold is_vm_allowed_for_operation.
  rewrite map_vanity_to_hostname_idem.
  destruct (str_in (PyStr.lower operation) _); reflexivity.
Qed.

Lemma denied_when (vmname operation : string) :
  In (PyStr.lower operation) (RESTRICTED_OPERATIONS cfg) ->
  ~ In (map_vanity_to_hostname vmname) (ALLOWED_VMS cfg) ->
  is_vm_allowed_for_operation cfg (map_vanity_to_hostname vmname) operation
  = false.
Proof.
  intros Hr Ha. rewrite allowed_on_resolved.
  apply str_in_In in Hr. rewrite Hr. simpl.
  destruct (str_in _ (ALLOWED_VMS cfg)) eqn:E; [|reflexivity].
  apply str_in_In in E. contradiction.
Qed.

End Denial.

(** C1: a restricted operation on a VM whose canonical name is not in the
    allow-list.  In streaming mode the run is exactly one [error] message
    followed by one row with status [denied]; in single-response mode it is
    exactly that row followed by the HTTP error 403.  In both modes no
    command is launched, the cache is not asked, and nothing else is
    written. *)
Theorem denied_operation_stops
  (cfg : AuthorizationPolicy.t) (vm_cache : VMCache.t) (now : Z) (p : proc)
  (vmname operation : string) (zone : option string) (client_ip : string) :
  In (PyStr.lower operation) (AuthorizationPolicy.RESTRICTED_OPERATIONS cfg) ->
  ~ In (NameResolver.map_vanity_to_hostname vmname)
       (AuthorizationPolicy.ALLOWED_VMS cfg) ->
  let denial := VMOperationsHandler.denial_message cfg vmname operation in
  let denied :=
    OperationLogger.log_operation
      (NameResolver.map_vanity_to_hostname vmname) operation client_ip zone
      "denied" (Some (NameResolver.get_vanity_name vmname)) in
  let sse := VMOperationsHandler.execute_vm_operation
               cfg vm_cache now p vmname operation zone client_ip in
  let json := VMOperationsHandler.execute_operation_json
               cfg vm_cache now p vmname operation zone client_ip in
  sse = [VMOperationsHandler.Yield
           (VMOperationsHandler._format_sse_message "error"
              (VMOperationsHandler.Text denial));
         VMOperationsHandler.Log denied]
  /\ json = ([VMOperationsHandler.Log denied],
             VMOperationsHandler.Raised 403 denial)
  /\ VMOperationsHandler.commands sse = []
  /\ VMOperationsHandler.commands (fst json) = []
  /\ VMOperationsHandler.rows sse = [denied]
  /\ VMOperationsHandler.rows (fst json) = [denied]
  /\ OperationLogger.status denied = "denied".
Proof.
  intros Hr Ha denial denied sse json.
  assert (Hs : sse = [VMOperationsHandler.Yield
                        (VMOperationsHandler._format_sse_message "error"
                           (VMOperationsHandler.Text denial));
                      VMOperationsHandler.Log denied]).
  { subst sse. unfold VMOperationsHandler.execute_vm_operation.
    now rewrite (denied_when cfg vmname operation Hr Ha). }
  assert (Hj : json = ([VMOperationsHandler.Log denied],
                       VMOperationsHandler.Raised 403 denial)).
  { subst json. unfold VMOperationsHandler.execute_operation_json.
    now rewrite (denied_when cfg vmname operation Hr Ha). }
  rewrite Hs, Hj. repeat split.
Qed.

(** The scenario of the specification: [suspend] on [otherhost], which the
    default allow-list does not contain. *)
Lemma denied_operation_stops_witness :
  let cfg := AuthorizationPolicy.default in
  let p := {| raises := None; returncode := 0; stdout := Ok "";
              stdout_lines := []; stdout_json := Raises "no output";
              stderr := Ok "" |} in
  VMOperationsHandler.commands
    (VMOperationsHandler.execute_vm_operation
       cfg (VMCache.init None) 0 p "otherhost" "suspend" None "10.0.0.7") = []
  /\ map OperationLogger.status
       (VMOperationsHandler.rows
          (VMOperationsHandler.execute_vm_operation
             cfg (VMCache.init None) 0 p "otherhost" "suspend" None "10.0.0.7"))
     = ["denied"].
Proof.
  intros cfg p.
  destruct (denied_operation_stops cfg (VMCache.init None) 0 p
              "otherhost" "suspend" None "10.0.0.7")
    as (Hs & _ & Hc & _ & Hrows & _ & _).
  - vm_compute. tauto.
  - vm_compute. intuition discriminate.
  - split; [exact Hc|]. rewrite Hrows. reflexivity.
Defined.

(** ** Which host an invocation acts on *)

Section Targets.
Import VMOperationsHandler NameResolver.

Variable cfg : AuthorizationPolicy.t.
Variable vm_cache : VMCache.t.
Variable now : Z.
Variable p : proc.
Variable vmname operation : string.
Variable zone : option string.
Variable client_ip : string.

Let host := map_vanity_to_hostname vmname.

Let on_host {R A} (m : block R A) : Prop := all_target host (fst m).

Lemma on_host_bind {R A B} (m : block R A) (k : A -> block R B) :
  on_host m -> (forall a, on_host (k a)) -> on_host (bind m k).
Proof.
  unfold on_host, all_target. destruct m as [t [a|r|e]]; simpl; intros Hm Hk; auto.
  specialize (Hk a). destruct (k a) as [t' f]; simpl in *.
  rewrite forallb_app, Hm, Hk. reflexivity.
Qed.

Lemma on_host_say {R} (ev text : string) : on_host (@say R ev text).
Proof. reflexivity. Qed.

Lemma on_host_row {R} (z : option string) (st : string) :
  on_host (@do R (log_row vmname operation client_ip z st)).
Proof. unfold on_host, all_target; simpl. now rewrite String.eqb_refl. Qed.

Lemma on_host_lookup {R} : on_host (@do R (ZoneLookup host)).
Proof. unfold on_host, all_target; simpl. now rewrite String.eqb_refl. Qed.

Lemma on_host_eval {R A} (v : py_result A) : on_host (@eval R A v).
Proof. destruct v; reflexivity. Qed.

Lemma on_host_launch {R} (cmd : list string) :
  nth 4 cmd "" = host -> on_host (@launch R cmd p).
Proof.
  intros H. unfold launch. apply on_host_bind.
  - unfold on_host, all_target; simpl. now rewrite H, String.eqb_refl.
  - intros _. destruct (raises p); reflexivity.
Qed.

Lemma gcloud_command_host (z : string) (cmd : list string) :
  _get_gcloud_command operation host z = Some cmd -> nth 4 cmd "" = host.
Proof.
  unfold _get_gcloud_command. cbn [Dict.get].
  repeat (destruct (String.eqb _ operation);
          [intros [= <-]; reflexivity|]).
  discriminate.
Qed.

Lemma on_host_resolve {R} (on_miss : block R string) :
  on_host on_miss -> on_host (resolve_zone vm_cache now vmname zone on_miss).
Proof.
  intros H. unfold resolve_zone. destruct (given zone); [reflexivity|].
  apply on_host_bind; [apply on_host_lookup|intros _].
  destruct (given _); [reflexivity|assumption].
Qed.

Lemma on_host_stream_output (lines : list (py_result string)) :
  on_host (stream_output lines).
Proof.
  induction lines as [|l rest IH]; [reflexivity|]. cbn [stream_output].
  apply on_host_bind; [apply on_host_eval|intros text].
  apply on_host_bind; [apply on_host_say|intros _]. exact IH.
Qed.

Ltac on_host_step :=
  first
    [ apply on_host_say
    | apply on_host_row
    | apply on_host_eval
    | apply on_host_stream_output
    | apply on_host_launch; reflexivity
    | apply on_host_bind; [|intros ?]
    | reflexivity
    | match goal with
      | |- on_host (if ?c then _ else _) => destruct c
      | |- on_host (match ?c with _ => _ end) => destruct c eqn:?
      end ].

Lemma on_host_stream_try :
  on_host (stream_try vm_cache now p vmname operation zone client_ip).
Proof.
  unfold stream_try.
  apply on_host_bind; [apply on_host_resolve; repeat on_host_step|intros z].
  apply on_host_bind; [apply on_host_row|intros _].
  destruct (String.eqb operation "status").
  - unfold stream_status. repeat on_host_step.
  - unfold stream_command.
    destruct (_get_gcloud_command _ _ _) as [cmd|] eqn:E;
      [|repeat on_host_step].
    apply gcloud_command_host in E.
    apply on_host_bind; [apply on_host_say|intros _].
    apply on_host_bind; [now apply on_host_launch|intros _].
    repeat on_host_step.
Qed.

Lemma on_host_json_try :
  on_host (json_try vm_cache now p vmname operation zone client_ip).
Proof.
  unfold json_try.
  apply on_host_bind; [apply on_host_resolve; repeat on_host_step|intros z].
  apply on_host_bind; [apply on_host_row|intros _].
  destruct (String.eqb operation "status").
  - unfold json_status. repeat on_host_step.
  - destruct (str_in operation _); [|reflexivity].
    unfold json_command.
    destruct (_get_gcloud_command _ _ _) as [cmd|] eqn:E; [|reflexivity].
    apply gcloud_command_host in E.
    apply on_host_bind; [now apply on_host_launch|intros _].
    repeat on_host_step.
Qed.

(** Every row, command and cache lookup of a streaming run names the
    resolved host. *)
Lemma stream_run_on_host :
  forallb (targets host)
    (execute_vm_operation cfg vm_cache now p vmname operation zone client_ip)
  = true.
Proof.
  unfold execute_vm_operation.
  destruct (negb _).
  - simpl. now rewrite String.eqb_refl.
  - pose proof on_host_stream_try as H. unfold on_host, all_target in H.
    destruct (stream_try _ _ _ _ _ _ _) as [t [a|r|e]]; simpl in H; auto.
    rewrite forallb_app, H. simpl. now rewrite String.eqb_refl.
Qed.

(** The same for a single-response run. *)
Lemma json_run_on_host :
  forallb (targets host)
    (fst (execute_operation_json cfg vm_cache now p vmname operation zone
            client_ip))
  = true.
Proof.
  unfold execute_operation_json.
  destruct (negb _).
  - simpl. now rewrite String.eqb_refl.
  - pose proof on_host_json_try as H. unfold on_host, all_target in H.
    destruct (json_try _ _ _ _ _ _ _) as [t [a|r|[c d|msg]]]; simpl in *; auto.
    rewrite forallb_app, H. simpl. now rewrite String.eqb_refl.
Qed.

End Targets.

(** C10: vanity names are matched by prefix.  Whenever the first
    dot-separated label of the client's identifier starts with a vanity name
    of the table, the canonical name is that entry's real host, whatever
    follows the prefix; the authorization check is the one of that host, and
    every cache lookup, external command and audit row of the invocation, in
    both modes, names that host. *)
Theorem vanity_prefix_redirects
  (cfg : AuthorizationPolicy.t) (vm_cache : VMCache.t) (now : Z) (p : proc)
  (vmname operation : string) (zone : option string) (client_ip : string)
  (vanity real : string) :
  In (vanity, real) Config.VANITY_TO_HOSTNAME ->
  PyStr.startswith (PyStr.split_first "."%char vmname) vanity = true ->
  NameResolver.map_vanity_to_hostname vmname = real
  /\ AuthorizationPolicy.is_vm_allowed_for_operation cfg
       (NameResolver.map_vanity_to_hostname vmname) operation
     = negb (str_in (PyStr.lower operation)
               (AuthorizationPolicy.RESTRICTED_OPERATIONS cfg))
       || str_in real (AuthorizationPolicy.ALLOWED_VMS cfg)
  /\ VMOperationsHandler.all_target real
       (VMOperationsHandler.execute_vm_operation
          cfg vm_cache now p vmname operation zone client_ip)
  /\ VMOperationsHandler.all_target real
       (fst (VMOperationsHandler.execute_operation_json
               cfg vm_cache now p vmname operation zone client_ip)).
Proof.
  intros Hin Hpre.
  assert (Hmap : NameResolver.map_vanity_to_hostname vmname = real).
  { destruct Hin as [[= <- <-]|[[= <- <-]|[]]].
    - now apply map_vanity_nlq.
    - now apply map_vanity_py_server. }
  split; [exact Hmap|]. split.
  - rewrite allowed_on_resolved, Hmap. reflexivity.
  - rewrite <- Hmap. split.
    + apply stream_run_on_host.
    + apply json_run_on_host.
Qed.

(** A name that only begins with [nlq] is handled as [guedfocnlq03]. *)
Lemma vanity_prefix_redirects_witness :
  NameResolver.map_vanity_to_hostname "nlqueue-staging.example.org"
  = "guedfocnlq03"
  /\ VMOperationsHandler.commands
       (VMOperationsHandler.execute_vm_operation
          AuthorizationPolicy.default Sample.one_vm 0 (Sample.succeeds "")
          "nlqueue-staging.example.org" "stop" (Some "us-east1-b") "10.0.0.7")
     = [["gcloud"; "compute"; "instances"; "stop"; "guedfocnlq03";
         "--zone"; "us-east1-b"]]
  /\ VMOperationsHandler.all_target "guedfocnlq03"
       (VMOperationsHandler.execute_vm_operation
          AuthorizationPolicy.default Sample.one_vm 0 (Sample.succeeds "")
          "nlqueue-staging.example.org" "stop" (Some "us-east1-b") "10.0.0.7").
Proof.
  destruct (vanity_prefix_redirects
              AuthorizationPolicy.default Sample.one_vm 0 (Sample.succeeds "")
              "nlqueue-staging.example.org" "stop" (Some "us-east1-b")
              "10.0.0.7" "nlq" "guedfocnlq03")
    as (Hm & _ & Hs & _).
  - simpl. left. reflexivity.
  - reflexivity.
  - split; [exact Hm|]. split; [reflexivity|exact Hs].
Defined.

(** ** The rows of one invocation *)

Section Lifecycle.
Import VMOperationsHandler NameResolver.

Variable cfg : AuthorizationPolicy.t.
Variable vm_cache : VMCache.t.
Variable now : Z.
Variable p : proc.
Variable vmname operation : string.
Variable zone : option string.
Variable client_ip : string.

Lemma statuses_app (t u : list effect) :
  statuses (t ++ u) = (statuses t ++ statuses u)%list.
Proof. unfold statuses, rows. now rewrite flat_map_app, map_app. Qed.

Lemma statuses_log_row (v o c : string) (z : option string) (st : string)
      (t : list effect) :
  statuses (log_row v o c z st :: t) = st :: statuses t.
Proof. reflexivity. Qed.

Lemma statuses_yield (m : sse_message) (t : list effect) :
  statuses (Yield m :: t) = statuses t.
Proof. reflexivity. Qed.

Lemma split_never_empty (sep : ascii) (s : string) :
  (1 <=? List.length (PyStr.split sep s))%nat = true.
Proof.
  destruct s as [|c t]; [reflexivity|]. cbn [PyStr.split].
  destruct (Ascii.eqb c sep); [reflexivity|].
  destruct (PyStr.split sep t); reflexivity.
Qed.

(** Forwarding the output writes no row; it ends normally or with the
    exception of a line that cannot be read. *)
Lemma stream_output_rows (lines : list (py_result string)) :
  exists t, statuses t = [] /\ commands t = [] /\
            (stream_output lines = (t, Next tt) \/
             exists msg, stream_output lines = (t, Throw (Exception msg))).
Proof.
  induction lines as [|[text|msg] rest (t & Hs & Hc & IH)].
  - exists []. repeat split. now left.
  - exists (Yield (_format_sse_message "progress" (Text (PyStr.strip text))) :: t).
    repeat split; [exact Hs|exact Hc|].
    cbn [stream_output eval pass bind say do].
    destruct IH as [-> | (m & ->)]; [left|right; exists m]; reflexivity.
  - exists []. repeat split. right. exists msg. reflexivity.
Qed.

Lemma stream_status_shape (z : string) :
  closes (stream_status p vmname operation client_ip z).
Proof.
  unfold stream_status, launch, closes.
  destruct (raises p); [reflexivity|].
  destruct (returncode p =? 0)%Z.
  - destruct (stdout p) as [out|msg]; [|reflexivity].
    cbn [eval pass bind do say fst snd app].
    rewrite split_never_empty. left. reflexivity.
  - destruct (stderr p) as [err|msg]; [|reflexivity].
    right. reflexivity.
Qed.

Lemma stream_command_shape (z : string) :
  In operation ["start"; "stop"; "suspend"; "resume"] ->
  closes (stream_command p vmname operation client_ip z).
Proof.
  intros Hop. unfold stream_command.
  destruct (stream_output_rows (stdout_lines p)) as (t & Hs & _ & Hout).
  assert (Hcmd : exists cmd,
             _get_gcloud_command operation (map_vanity_to_hostname vmname) z
             = Some cmd).
  { destruct Hop as [<-|[<-|[<-|[<-|[]]]]]; eexists; reflexivity. }
  destruct Hcmd as (cmd & ->).
  unfold launch, closes.
  destruct (raises p); [reflexivity|].
  unfold statuses, rows in *.
  destruct Hout as [-> | (m & ->)]; [|cbn; exact Hs].
  destruct (returncode p =? 0)%Z.
  - cbn. rewrite flat_map_app, map_app, Hs. left. reflexivity.
  - destruct (stderr p) as [err|msg]; cbn.
    + rewrite flat_map_app, map_app, Hs. right. reflexivity.
    + rewrite app_nil_r. exact Hs.
Qed.

Lemma stream_dispatch_closes (z : string) :
  In operation valid_operations ->
  closes (if String.eqb operation "status"
          then stream_status p vmname operation client_ip z
          else stream_command p vmname operation client_ip z).
Proof.
  intros Hop. destruct (String.eqb operation "status") eqn:E.
  - apply stream_status_shape.
  - apply stream_command_shape. destruct Hop as [H|H]; [|exact H].
    rewrite <- H in E. discriminate E.
Qed.

(** Streaming mode, a supported operation: the rows of a run are one of
    five sequences, and [started] is always followed by exactly one of
    [completed], [failed] and [error]. *)
Lemma stream_statuses :
  In operation valid_operations ->
  In (statuses (execute_vm_operation cfg vm_cache now p vmname operation
                  zone client_ip))
     [["denied"]; ["failed-no-zone"]; ["started"; "completed"];
      ["started"; "failed"]; ["started"; "error"]].
Proof.
  intros Hop. unfold execute_vm_operation.
  destruct (negb _); [now left|].
  assert (Hz : forall z,
             In (statuses
                   (match
                       (do (log_row vmname operation client_ip (Some z) "started") ;;
                        if String.eqb operation "status"
                        then stream_status p vmname operation client_ip z
                        else stream_command p vmname operation client_ip z)
                     with
                     | (t, Throw e) =>
                         (t ++ [Yield (_format_sse_message "error"
                                         (Text (_sanitize_error (str_of e))));
                                log_row vmname operation client_ip
                                  (zone_at_except vm_cache now vmname zone)
                                  "error"])%list
                     | (t, _) => t
                     end))
                [["started"; "completed"]; ["started"; "failed"];
                 ["started"; "error"]]).
  { intros z. pose proof (stream_dispatch_closes z Hop) as H.
    destruct (if String.eqb operation "status" then _ else _)
      as [t [a|r|[c d|msg]]]; unfold closes in H; cbn [fst snd] in H;
      cbn [bind do fst snd app];
      repeat (rewrite statuses_app || rewrite statuses_log_row
              || rewrite statuses_yield);
      [destruct H as [-> | ->] | destruct H as [-> | ->] | elim H
      | rewrite H]; cbn; auto. }
  unfold stream_try, resolve_zone.
  destruct (given zone) as [z|].
  - specialize (Hz z). cbn [bind pass fst snd app] in *.
    destruct (do _ ;; _) as [t f].
    cbn in Hz |- *. destruct f; intuition.
  - destruct (given (fst _)) as [z|].
    + specialize (Hz z). cbn [bind pass do fst snd app] in *.
      destruct (if String.eqb operation "status" then _ else _) as [t f].
      cbn [bind pass do fst snd app] in *.
      destruct f; cbn in Hz |- *; intuition.
    + right; left. reflexivity.
Qed.

Lemma json_status_shape (z : string) :
  closes_json (json_status p vmname operation client_ip z).
Proof.
  unfold json_status, launch, closes_json.
  destruct (raises p); [reflexivity|].
  destruct (returncode p =? 0)%Z.
  - destruct (stdout_json p) as [doc|msg]; reflexivity.
  - destruct (stderr p) as [err|msg]; [|reflexivity].
    cbn [eval pass bind do fst snd app].
    destruct (resource_instance err); reflexivity.
Qed.

Lemma json_command_shape (z : string) :
  In operation ["start"; "stop"; "suspend"; "resume"] ->
  closes_json (json_command p vmname operation client_ip z).
Proof.
  intros Hop. unfold json_command.
  assert (Hcmd : exists cmd,
             _get_gcloud_command operation (map_vanity_to_hostname vmname) z
             = Some cmd).
  { destruct Hop as [<-|[<-|[<-|[<-|[]]]]]; eexists; reflexivity. }
  destruct Hcmd as (cmd & ->).
  unfold launch, closes_json.
  destruct (raises p); [reflexivity|].
  destruct (returncode p =? 0)%Z; [reflexivity|].
  destruct (stderr p) as [err|msg]; reflexivity.
Qed.

Lemma json_dispatch_closes (z : string) :
  In operation valid_operations ->
  closes_json
    (if String.eqb operation "status"
     then json_status p vmname operation client_ip z
     else if str_in operation ["start"; "stop"; "suspend"; "resume"]
          then json_command p vmname operation client_ip z
          else raise (HTTPException 400 ("Invalid operation: " ++ operation))).
Proof.
  intros Hop. destruct (String.eqb operation "status") eqn:E.
  - apply json_status_shape.
  - assert (H : In operation ["start"; "stop"; "suspend"; "resume"]).
    { destruct Hop as [H|H]; [|exact H].
      rewrite <- H in E. discriminate E. }
    rewrite (proj2 (str_in_In _ _) H). now apply json_command_shape.
Qed.

(** Single-response mode, a supported operation: the same five sequences
    of rows. *)
Lemma json_statuses :
  In operation valid_operations ->
  In (statuses (fst (execute_operation_json cfg vm_cache now p vmname
                       operation zone client_ip)))
     [["denied"]; ["failed-no-zone"]; ["started"; "completed"];
      ["started"; "failed"]; ["started"; "error"]].
Proof.
  intros Hop. unfold execute_operation_json.
  destruct (negb _); [now left|].
  assert (Hz : forall z,
             In (statuses
                   (fst
                      (match
                          (do (log_row vmname operation client_ip (Some z) "started") ;;
                           if String.eqb operation "status"
                           then json_status p vmname operation client_ip z
                           else if str_in operation
                                     ["start"; "stop"; "suspend"; "resume"]
                                then json_command p vmname operation client_ip z
                                else raise (HTTPException 400
                                              ("Invalid operation: " ++ operation)))
                        with
                        | (t, Return r) => (t, Returned (Some r))
                        | (t, Next _) => (t, Returned None)
                        | (t, Throw (HTTPException status_code detail)) =>
                            (t, Raised status_code detail)
                        | (t, Throw (Exception msg)) =>
                            ((t ++ [log_row vmname operation client_ip
                                      (zone_at_except vm_cache now vmname zone)
                                      "error"])%list,
                             Raised 500 (_sanitize_error msg))
                        end)))
                [["started"; "completed"]; ["started"; "failed"];
                 ["started"; "error"]]).
  { intros z. pose proof (json_dispatch_closes z Hop) as H.
    destruct (if String.eqb operation "status" then _ else _)
      as [t [a|r|[c d|msg]]]; unfold closes_json in H; cbn [fst snd] in H;
      cbn [bind do fst snd app];
      repeat (rewrite statuses_app || rewrite statuses_log_row);
      [elim H | rewrite H | rewrite H | rewrite H]; cbn; auto. }
  unfold json_try, resolve_zone.
  destruct (given zone) as [z|].
  - specialize (Hz z). cbn [bind pass fst snd app] in *.
    destruct (do _ ;; _) as [t [a|r|[c d|msg]]]; cbn in Hz |- *; intuition.
  - destruct (given (fst _)) as [z|].
    + specialize (Hz z). cbn [bind pass do fst snd app] in *.
      destruct (if String.eqb operation "status" then _ else _)
        as [t [a|r|[c d|msg]]];
        cbn [bind pass do fst snd app] in *; cbn in Hz |- *; intuition.
    + right; left. reflexivity.
Qed.

End Lifecycle.

(** The terminal rows after [started], read off the five sequences. *)
Lemma one_terminal_row (l : list string) :
  In l [["denied"]; ["failed-no-zone"]; ["started"; "completed"];
        ["started"; "failed"]; ["started"; "error"]] ->
  match VMOperationsHandler.after_started l with
  | Some rest => List.length (filter VMOperationsHandler.is_terminal rest) = 1%nat
  | None => True
  end.
Proof.
  intros [<-|[<-|[<-|[<-|[<-|[]]]]]]; cbn; auto.
Qed.

(** C5, on the operations of the request surface: an invocation that has
    written [started] writes exactly one of [completed], [failed] and
    [error] after it, in both modes. *)
Lemma started_then_one_terminal
  (cfg : AuthorizationPolicy.t) (vm_cache : VMCache.t) (now : Z) (p : proc)
  (vmname operation : string) (zone : option string) (client_ip : string) :
  In operation VMOperationsHandler.valid_operations ->
  (VMOperationsHandler.terminal_rows_after_started
     (VMOperationsHandler.execute_vm_operation
        cfg vm_cache now p vmname operation zone client_ip) = None
   \/ VMOperationsHandler.terminal_rows_after_started
        (VMOperationsHandler.execute_vm_operation
           cfg vm_cache now p vmname operation zone client_ip) = Some 1%nat)
  /\ (VMOperationsHandler.terminal_rows_after_started
        (fst (VMOperationsHandler.execute_operation_json
                cfg vm_cache now p vmname operation zone client_ip)) = None
      \/ VMOperationsHandler.terminal_rows_after_started
           (fst (VMOperationsHandler.execute_operation_json
                   cfg vm_cache now p vmname operation zone client_ip))
         = Some 1%nat).
Proof.
  intros Hop.
  pose proof (one_terminal_row _ (stream_statuses cfg vm_cache now p vmname
                                    operation zone client_ip Hop)) as Hs.
  pose proof (one_terminal_row _ (json_statuses cfg vm_cache now p vmname
                                    operation zone client_ip Hop)) as Hj.
  unfold VMOperationsHandler.terminal_rows_after_started.
  split.
  - clear Hj. revert Hs.
    destruct (VMOperationsHandler.after_started _); intros Hs;
      [right; now rewrite Hs|now left].
  - clear Hs. revert Hj.
    destruct (VMOperationsHandler.after_started _); intros Hj;
      [right; now rewrite Hj|now left].
Qed.

(** C5, at an operation name that has no external command
    ([_get_gcloud_command] returns [None] for it), with the zone given in the
    request: [started] is written, the streaming run ends with the message
    [Invalid operation] and the single-response run with the HTTP error 400,
    and neither writes a row after [started]. *)
Theorem started_without_terminal_row
  (vm_cache : VMCache.t) (now : Z) (p : proc) (client_ip : string) :
  let sse := VMOperationsHandler.execute_vm_operation
               AuthorizationPolicy.default vm_cache now p
               "vm1" "restart" (Some "us-central1-a") client_ip in
  let json := VMOperationsHandler.execute_operation_json
                AuthorizationPolicy.default vm_cache now p
                "vm1" "restart" (Some "us-central1-a") client_ip in
  VMOperationsHandler._get_gcloud_command "restart" "vm1" "us-central1-a" = None
  /\ VMOperationsHandler.statuses sse = ["started"]
  /\ VMOperationsHandler.messages sse
     = [VMOperationsHandler._format_sse_message "error"
          (VMOperationsHandler.Text "Invalid operation: restart")]
  /\ VMOperationsHandler.terminal_rows_after_started sse = Some 0%nat
  /\ VMOperationsHandler.statuses (fst json) = ["started"]
  /\ snd json = VMOperationsHandler.Raised 400 "Invalid operation: restart"
  /\ VMOperationsHandler.terminal_rows_after_started (fst json) = Some 0%nat.
Proof.
  repeat split.
Qed.

(** ** The status operation *)

Section StatusParsing.
Import VMOperationsHandler NameResolver.

Variable p : proc.
Variable vmname operation client_ip zone : string.

Lemma split_no_sep (sep : ascii) (s : string) :
  PyStr.has_char sep s = false -> PyStr.split sep s = [s].
Proof.
  induction s as [|c t IH]; [reflexivity|]. cbn [PyStr.has_char PyStr.split].
  intros H. apply orb_false_iff in H as [Hc Ht].
  now rewrite Hc, (IH Ht).
Qed.

(** The fields the handler reads off the text [out] of the describe
    command. *)
Let fields (out : string) : list string :=
  PyStr.split ","%char (PyStr.strip out).
Let machine_type (out : string) : string :=
  if (2 <=? List.length (fields out))%nat
  then PyStr.strip (nth 1 (fields out) "") else "unknown".
Let ip_address (out : string) : string :=
  if (3 <=? List.length (fields out))%nat
  then PyStr.strip (nth 2 (fields out) "") else "unknown".

(** When the describe command succeeds, whatever it printed, the status
    branch logs [completed] and reports success; a field that is not
    there is reported as [unknown]. *)
Lemma status_always_parses (out : string) :
  raises p = None -> returncode p = 0%Z -> stdout p = Ok out ->
  let real := map_vanity_to_hostname vmname in
  let status := PyStr.strip (nth 0 (fields out) "") in
  stream_status p vmname operation client_ip zone
  = ([Yield (_format_sse_message "info"
               (Text ("Checking status of VM " ++ real ++ " in zone " ++ zone)));
      Exec (status_cmd_csv real zone);
      log_row vmname operation client_ip (Some zone) "completed";
      Yield (_format_sse_message "status"
               (Json {| si_name := real;
                        si_vanity_name :=
                          if String.eqb (get_vanity_name vmname) real
                          then None else Some (get_vanity_name vmname);
                        si_status := status;
                        si_machine_type := machine_type out;
                        si_ip_address := ip_address out;
                        si_zone := zone |}));
      Yield (_format_sse_message "success"
               (Text ("VM " ++ real ++ " is " ++ status ++ " ("
                        ++ machine_type out ++ ", IP: " ++ ip_address out
                        ++ ")")))],
     Return tt).
Proof.
  intros Hr Hc Ho real status.
  unfold stream_status, launch. rewrite Hr, Hc, Ho.
  cbn [Z.eqb eval pass bind do say fst snd app].
  rewrite split_never_empty. reflexivity.
Qed.

(** A record of one field leaves the other two at [unknown]. *)
Lemma one_field_defaults (out : string) :
  PyStr.has_char ","%char (PyStr.strip out) = false ->
  machine_type out = "unknown" /\ ip_address out = "unknown".
Proof.
  intros H. unfold machine_type, ip_address, fields.
  rewrite (split_no_sep _ _ H). split; reflexivity.
Qed.

End StatusParsing.

(** C8, at a describe command that succeeds and prints nothing (a record
    with no usable field): the run reports success with an empty status and
    both other fields [unknown], logs [completed], and yields no [error]
    message. *)
Theorem empty_status_record_succeeds
  (vm_cache : VMCache.t) (now : Z) (client_ip : string) :
  let sse := VMOperationsHandler.execute_vm_operation
               AuthorizationPolicy.default vm_cache now (Sample.succeeds "")
               "vm1" "status" (Some "us-central1-a") client_ip in
  VMOperationsHandler.messages sse
  = [VMOperationsHandler._format_sse_message "info"
       (VMOperationsHandler.Text
          "Checking status of VM vm1 in zone us-central1-a");
     VMOperationsHandler._format_sse_message "status"
       (VMOperationsHandler.Json
          {| VMOperationsHandler.si_name := "vm1";
             VMOperationsHandler.si_vanity_name := None;
             VMOperationsHandler.si_status := "";
             VMOperationsHandler.si_machine_type := "unknown";
             VMOperationsHandler.si_ip_address := "unknown";
             VMOperationsHandler.si_zone := "us-central1-a" |});
     VMOperationsHandler._format_sse_message "success"
       (VMOperationsHandler.Text "VM vm1 is  (unknown, IP: unknown)")]
  /\ VMOperationsHandler.statuses sse = ["started"; "completed"]
  /\ existsb (fun m => String.eqb (VMOperationsHandler.event m) "error")
       (VMOperationsHandler.messages sse) = false.
Proof.
  repeat split.
Qed.

(** ** The error sanitizer *)

Section Sanitizer.
Import VMOperationsHandler.







End Sanitizer.



(** In single-response mode a failed status command answers with the
    sanitizer's message unless the error text names a resource, in which
    case the answer is built around the instance name found there. *)
Lemma json_status_failure_detail
  (p : proc) (vmname operation client_ip zone err : string) :
  raises p = None -> (returncode p =? 0)%Z = false -> stderr p = Ok err ->
  snd (VMOperationsHandler.json_status p vmname operation client_ip zone)
  = match VMOperationsHandler.resource_instance err with
    | Some instance =>
        VMOperationsHandler.Throw
          (VMOperationsHandler.HTTPException 404
             ("Error: The resource '" ++ instance
                ++ "' was not found in zone '" ++ zone ++ "'."))
    | None =>
        VMOperationsHandler.Throw
          (VMOperationsHandler.HTTPException 500
             (VMOperationsHandler._sanitize_error err))
    end.
Proof.
  intros Hr Hc He. unfold VMOperationsHandler.json_status,
    VMOperationsHandler.launch. rewrite Hr, Hc, He.
  cbn. destruct (VMOperationsHandler.resource_instance err); reflexivity.
Qed.

(** ** The directory cache *)

Section Lookup.
Import VMCache.

Lemma partial_match_none (m : dict string) (name : string) :
  (forall k v, In (k, v) m ->
               PyStr.contains name k = false /\ PyStr.contains k name = false) ->
  partial_match m name = None.
Proof.
  induction m as [|[k v] rest IH]; intros H; [reflexivity|].
  cbn [partial_match].
  destruct (H k v (or_introl eq_refl)) as [-> ->]. cbn [orb].
  apply IH. intros k' v' Hin. apply (H k' v'). now right.
Qed.

Lemma get_none (m : dict string) (name : string) :
  ~ In name (Dict.keys m) -> Dict.get m name = None.
Proof.
  induction m as [|[k v] rest IH]; intros H; [reflexivity|].
  cbn [Dict.get]. destruct (String.eqb k name) eqn:E.
  - apply String.eqb_eq in E. elim H. now left.
  - apply IH. intros Hin. apply H. now right.
Qed.

(** A name that no key equals, in either spelling, and that is in the
    substring relation with no key, is not found. *)
Lemma lookup_miss (self : t) (now : Z) (vm_name : string) :
  let name := PyStr.split_first "."%char vm_name in
  ~ In name (Dict.keys (vm_zone_map self)) ->
  ~ In (PyStr.lower name) (Dict.keys (vm_zone_map self)) ->
  (forall k v, In (k, v) (vm_zone_map self) ->
               PyStr.contains name k = false /\ PyStr.contains k name = false) ->
  fst (get_vm_zone self now vm_name) = None.
Proof.
  intros name H1 H2 H3. unfold get_vm_zone.
  destruct (negb (PyStr.truthy vm_name)); [reflexivity|].
  fold name. rewrite (get_none _ _ H1), (get_none _ _ H2),
    (partial_match_none _ _ H3). reflexivity.
Qed.

End Lookup.

(** C9: a refresh that finds the one VM [abc] in [zone1] leaves the mapping
    with the single key [abc] (its lower-case twin is the same key); in a
    cache with that mapping [xabc] has no exact and no case-insensitive
    match, and its lookup returns [zone1] because the key is a substring of
    the name.  In any cache, a name that matches no key exactly,
    case-insensitively or by substring is answered with [None]. *)
Theorem lookup_substring_fallback :
  VMCache.store_vms [] ["abc"] "zone1" = [("abc", "zone1")]
  /\ (forall self now,
        VMCache.vm_zone_map self = [("abc", "zone1")] ->
        Dict.get (VMCache.vm_zone_map self) "xabc" = None
        /\ Dict.get (VMCache.vm_zone_map self) (PyStr.lower "xabc") = None
        /\ PyStr.contains "abc" "xabc" = true
        /\ fst (VMCache.get_vm_zone self now "xabc") = Some "zone1")
  /\ (forall self now vm_name,
        ~ In (PyStr.split_first "."%char vm_name)
             (Dict.keys (VMCache.vm_zone_map self)) ->
        ~ In (PyStr.lower (PyStr.split_first "."%char vm_name))
             (Dict.keys (VMCache.vm_zone_map self)) ->
        (forall k v, In (k, v) (VMCache.vm_zone_map self) ->
           PyStr.contains (PyStr.split_first "."%char vm_name) k = false
           /\ PyStr.contains k (PyStr.split_first "."%char vm_name) = false) ->
        fst (VMCache.get_vm_zone self now vm_name) = None).
Proof.
  split; [reflexivity|]. split.
  - intros self now Hm. unfold VMCache.get_vm_zone. rewrite Hm.
    repeat split.
  - intros self now vm_name. apply lookup_miss.
Qed.

(** A miss in a cache of two VMs. *)
Example lookup_miss_example :
  fst (VMCache.get_vm_zone
         (VMCache.with_map Sample.one_vm
            [("abc", "zone1"); ("Web7", "zone2"); ("web7", "zone2")])
         0 "db-primary.example.org") = None.
Proof. reflexivity. Qed.

(** ** The refresh of the directory *)

Section Refresh.
Import VMCache.

(** The mapping after a refresh does not depend on the mapping before
    it: line 147 empties it first. *)
Lemma refresh_forgets (self : t) (m : dict string) (env : refresh_env) :
  vm_zone_map (final (update_cache (with_map self m) env))
  = vm_zone_map (final (update_cache self env)).
Proof.
  unfold update_cache.
  destruct (raises (zones_process env)); [reflexivity|].
  destruct (negb _); [reflexivity|].
  destruct (stdout (zones_process env)) as [text|msg]; [|reflexivity].
  destruct (nonempty_lines text) as [|z zs]; [reflexivity|].
  destruct (completed _); [|reflexivity].
  destruct (scanned_map _); reflexivity.
Qed.

(** While the zone listing runs, the live mapping is empty. *)
Lemma refresh_exposes_empty (self : t) (env : refresh_env) :
  hd_error (seen (update_cache self env)) = Some [].
Proof.
  unfold update_cache.
  destruct (raises (zones_process env)); [reflexivity|].
  destruct (negb _); [reflexivity|].
  destruct (stdout (zones_process env)) as [text|msg]; [|reflexivity].
  destruct (nonempty_lines text) as [|z zs]; [reflexivity|].
  destruct (completed _); [|reflexivity].
  destruct (scanned_map _); reflexivity.
Qed.

(** A refresh whose zone listing fails, in any of the ways it can,
    launches no instance listing and leaves the mapping empty and the
    pickle file as it was. *)
Lemma refresh_without_zones (self : t) (env : refresh_env) :
  raises (zones_process env) <> None
  \/ returncode (zones_process env) <> 0%Z
  \/ (exists msg, stdout (zones_process env) = Raises msg)
  \/ (exists text, stdout (zones_process env) = Ok text
                   /\ nonempty_lines text = []) ->
  ran (update_cache self env) = [zones_cmd]
  /\ vm_zone_map (final (update_cache self env)) = []
  /\ cache_file (final (update_cache self env)) = cache_file self
  /\ last_update (final (update_cache self env)) = last_update self.
Proof.
  unfold update_cache. intros H.
  destruct (raises (zones_process env)); [repeat split|].
  destruct (returncode (zones_process env) =? 0)%Z eqn:E; [|repeat split].
  apply Z.eqb_eq in E. cbn [negb].
  destruct H as [H|[H|[(msg & ->)|(text & -> & ->)]]];
    [now elim H|now elim H|repeat split ..].
Qed.

(** A refresh that ends with an empty mapping writes no pickle file
    (the guard of line 213). *)
Lemma empty_refresh_keeps_snapshot (self : t) (env : refresh_env) :
  vm_zone_map (final (update_cache self env)) = [] ->
  cache_file (final (update_cache self env)) = cache_file self.
Proof.
  unfold update_cache.
  destruct (raises (zones_process env)); [reflexivity|].
  destruct (negb _); [reflexivity|].
  destruct (stdout (zones_process env)) as [text|msg]; [|reflexivity].
  destruct (nonempty_lines text) as [|z zs]; [reflexivity|].
  destruct (completed _); [|reflexivity].
  destruct (scanned_map _); [reflexivity|discriminate].
Qed.

End Refresh.

(** C3, at a cache that knows [vm1] and a refresh whose zone listing exits
    with code 1: before the refresh the lookup of [vm1] returns its zone;
    after it the mapping is empty and the same lookup returns [None].  The
    pickle file still holds the old mapping. *)
Theorem failed_refresh_empties_directory
  (instances : string -> proc) (t1 t2 now : Z) :
  let before := Sample.one_vm in
  let after := VMCache.final
                 (VMCache.update_cache before
                    (Sample.zone_listing_fails instances t1 t2)) in
  fst (VMCache.get_vm_zone before now "vm1") = Some "us-central1-a"
  /\ VMCache.vm_zone_map after = []
  /\ fst (VMCache.get_vm_zone after now "vm1") = None
  /\ VMCache.cache_file after = Some ([("vm1", "us-central1-a")], 0%Z).
Proof.
  repeat split.
Qed.

(** C4, at a cache that knows [vm1] and [vm2] and a refresh that finds both
    again: the mapping is the same before and after the refresh, and the
    lookup of [vm2] returns its zone on both; but the mappings that a lookup
    can observe while [update_cache] awaits its three commands are the empty
    one, twice, and then one with [vm1] only, and on each of them the lookup
    of [vm2] returns [None]. *)
Theorem lookup_sees_partial_mapping (t1 t2 now : Z) :
  let before := Sample.two_vms in
  let r := VMCache.update_cache before (Sample.finds_both t1 t2) in
  VMCache.vm_zone_map (VMCache.final r) = VMCache.vm_zone_map before
  /\ fst (VMCache.get_vm_zone before now "vm2") = Some "us-east1-b"
  /\ fst (VMCache.get_vm_zone (VMCache.final r) now "vm2") = Some "us-east1-b"
  /\ VMCache.seen r = [[]; []; [("vm1", "us-central1-a")]]
  /\ Forall (fun m => fst (VMCache.get_vm_zone (VMCache.with_map before m)
                             now "vm2") = None)
            (VMCache.seen r).
Proof.
  repeat split. repeat constructor.
Qed.

(** C7, at a refresh whose zone listing exits with code 1: [update_cache]
    launches the zone listing and nothing else, so no zone is scanned, and
    the mapping is left empty; [ZoneManager.get_all_zones], on a listing
    that fails the same way, returns its five fallback zones, and the
    refresh of [VMScanner] goes on to list the instances of each of them. *)
Theorem zone_listing_failure_aborts
  (self : VMCache.t) (instances : string -> proc) (t1 t2 : Z) :
  let r := VMCache.update_cache self
             (Sample.zone_listing_fails instances t1 t2) in
  VMCache.ran r = [VMCache.zones_cmd]
  /\ VMCache.vm_zone_map (VMCache.final r) = []
  /\ ZoneManager.get_all_zones Sample.zones_run_fails
     = ["us-central1-a"; "us-central1-b"; "us-east1-b";
        "asia-east1-a"; "asia-southeast1-a"]
  /\ VMScanner.update_vm_cache "my-project" Sample.zones_run_fails
       Sample.no_instances
     = Ok (Some (map VMScanner.list_cmd ZoneManager.fallback_zones, [])).
Proof.
  repeat split.
Qed.

(** ** Scenarios of the specification *)

(** [stop] on the vanity name [nlq.ibi.systems], which the default
    allow-list covers, with a command that exits with code 0: the messages
    are [info] and [success], and the rows are [started] and [completed],
    both for [guedfocnlq03] with the alias [nlq.ibi.systems]. *)
Example scenario_stop_allowed :
  let t := VMOperationsHandler.execute_vm_operation
             AuthorizationPolicy.default Sample.one_vm 0 (Sample.succeeds "")
             "nlq.ibi.systems" "stop" (Some "us-east1-b") "10.0.0.7" in
  map VMOperationsHandler.event (VMOperationsHandler.messages t)
  = ["info"; "success"]
  /\ map (fun r => (OperationLogger.vm_name r, OperationLogger.status r,
                    OperationLogger.vanity_name r))
         (VMOperationsHandler.rows t)
     = [("guedfocnlq03", "started", "nlq.ibi.systems");
        ("guedfocnlq03", "completed", "nlq.ibi.systems")]
  /\ List.length (VMOperationsHandler.commands t) = 1%nat.
Proof. repeat split. Qed.

(** No zone in the request and a VM the directory does not know: one
    [error] message, one row [failed-no-zone], no command. *)
Example scenario_no_zone :
  let t := VMOperationsHandler.execute_vm_operation
             AuthorizationPolicy.default Sample.one_vm 0 (Sample.succeeds "")
             "db-primary" "start" None "10.0.0.7" in
  VMOperationsHandler.messages t
  = [VMOperationsHandler._format_sse_message "error"
       (VMOperationsHandler.Text
          "VM db-primary not found in any zone. Please specify a zone parameter.")]
  /\ VMOperationsHandler.statuses t = ["failed-no-zone"]
  /\ VMOperationsHandler.commands t = []
  /\ VMOperationsHandler.lookups t = ["db-primary"].
Proof. repeat split. Qed.

(** A status record with one field: the other two are [unknown] and the
    outcome is a success. *)
Example scenario_status_one_field :
  let t := VMOperationsHandler.execute_vm_operation
             AuthorizationPolicy.default Sample.one_vm 0
             (Sample.succeeds "RUNNING") "vm1" "status" None "10.0.0.7" in
  map VMOperationsHandler.event (VMOperationsHandler.messages t)
  = ["info"; "status"; "success"]
  /\ nth 2 (map VMOperationsHandler.data (VMOperationsHandler.messages t))
         (VMOperationsHandler.Text "")
     = VMOperationsHandler.Text "VM vm1 is RUNNING (unknown, IP: unknown)"
  /\ VMOperationsHandler.statuses t = ["started"; "completed"].
Proof. repeat split. Qed.

(** A gcloud error for a missing instance, as the sanitizer rewrites it. *)
Example sanitize_not_found :
  VMOperationsHandler._sanitize_error
    "ERROR: (gcloud.compute.instances.start) HTTPError 404: The resource 'projects/acme/zones/us-east1-b/instances/vm9' was not found"
  = "Error: VM 'vm9' not found. Please verify the VM name and try again.".
Proof. reflexivity. Qed.

Example sanitize_permission :
  VMOperationsHandler._sanitize_error
    "ERROR: (gcloud.compute.instances.stop) Required 'compute.instances.stop' Permission for 'projects/acme/zones/us-east1-b/instances/vm9'"
  = "Error: Insufficient permissions to perform this operation.".
Proof. reflexivity. Qed.

(** The snapshot written by a refresh is what a fresh object loads. *)
Example snapshot_round_trip :
  let saved := VMCache.final
                 (VMCache.update_cache Sample.two_vms (Sample.finds_both 10 11)) in
  fst (VMCache._load_from_pickle (VMCache.init (VMCache.cache_file saved)) 12)
  = VMCache.with_last_update
      (VMCache.with_map (VMCache.init (VMCache.cache_file saved))
         (VMCache.vm_zone_map saved))
      11.
Proof. reflexivity. Qed.

(* ================================================================== *)
(** * Further properties of the same code *)
(* ================================================================== *)

(** ** More on strings *)

Section MoreStringFacts.

Lemma lower_char_idem (c : ascii) :
  PyStr.lower_char (PyStr.lower_char c) = PyStr.lower_char c.
Proof.
  destruct c as [[] [] [] [] [] [] [] []]; reflexivity.
Qed.

Lemma lower_idem (s : string) : PyStr.lower (PyStr.lower s) = PyStr.lower s.
Proof.
  induction s as [|c t IH]; [reflexivity|].
  cbn [PyStr.lower]. now rewrite lower_char_idem, IH.
Qed.

Lemma rstrip_cons (c : ascii) (t : string) :
  PyStr.rstrip (String c t)
  = match PyStr.rstrip t with
    | EmptyString => if PyStr.is_space c then "" else String c ""
    | r => String c r
    end.
Proof. reflexivity. Qed.

Lemma rstrip_idem (s : string) : PyStr.rstrip (PyStr.rstrip s) = PyStr.rstrip s.
Proof.
  induction s as [|c t IH]; [reflexivity|]. rewrite rstrip_cons.
  destruct (PyStr.rstrip t) as [|d r] eqn:E.
  - destruct (PyStr.is_space c) eqn:Hc; [reflexivity|].
    rewrite rstrip_cons. cbn [PyStr.rstrip]. now rewrite Hc.
  - rewrite rstrip_cons, IH. reflexivity.
Qed.

Lemma rstrip_head (c : ascii) (t : string) :
  PyStr.is_space c = false ->
  exists r, PyStr.rstrip (String c t) = String c r.
Proof.
  intros Hc. cbn [PyStr.rstrip]. destruct (PyStr.rstrip t) as [|d r].
  - rewrite Hc. now exists "".
  - now exists (String d r).
Qed.

Lemma lstrip_head (s : string) :
  PyStr.lstrip s = ""
  \/ exists c t, PyStr.lstrip s = String c t /\ PyStr.is_space c = false.
Proof.
  induction s as [|c t IH]; [now left|]. cbn [PyStr.lstrip].
  destruct (PyStr.is_space c) eqn:Hc; [exact IH|].
  right. now exists c, t.
Qed.

(** Stripping a stripped string changes nothing. *)
Lemma strip_idem (s : string) : PyStr.strip (PyStr.strip s) = PyStr.strip s.
Proof.
  unfold PyStr.strip.
  destruct (lstrip_head s) as [-> | (c & t & -> & Hc)]; [reflexivity|].
  destruct (rstrip_head c t Hc) as (r & E). rewrite E.
  cbn [PyStr.lstrip]. rewrite Hc, <- E. apply rstrip_idem.
Qed.

Lemma startswith_app (p t : string) : PyStr.startswith (p ++ t) p = true.
Proof.
  induction p as [|c p IH]; [apply startswith_nil|].
  cbn [append PyStr.startswith]. now rewrite Ascii.eqb_refl, IH.
Qed.

Lemma startswith_split (s p : string) :
  PyStr.startswith s p = true -> exists t, s = p ++ t.
Proof.
  revert s. induction p as [|c p IH]; intros s H; [now exists s|].
  destruct s as [|d s]; [discriminate H|]. cbn [PyStr.startswith] in H.
  apply andb_prop in H as [Hc Hs]. apply Ascii.eqb_eq in Hc. subst d.
  destruct (IH s Hs) as (t & ->). now exists t.
Qed.

Lemma length_app (a b : string) :
  String.length (a ++ b) = (String.length a + String.length b)%nat.
Proof. induction a as [|c a IH]; [reflexivity|]. cbn. now rewrite IH. Qed.

Lemma app_inv_length (a b c : string) :
  a ++ c = b ++ c -> a = b.
Proof.
  revert b. induction a as [|x a IH]; intros [|y b] H.
  - reflexivity.
  - exfalso. apply (f_equal String.length) in H.
    cbn [append] in H. cbn [String.length] in H. rewrite length_app in H. lia.
  - exfalso. apply (f_equal String.length) in H.
    cbn [append] in H. cbn [String.length] in H. rewrite length_app in H. lia.
  - cbn [append] in H. injection H as -> H. now rewrite (IH b H).
Qed.

(** [endswith] holds exactly of the strings that are something followed by
    the suffix. *)
Lemma endswith_app (a p : string) : PyStr.endswith (a ++ p) p = true.
Proof.
  induction a as [|c a IH]; cbn [append].
  - destruct p; cbn [PyStr.endswith]; now rewrite String.eqb_refl.
  - cbn [PyStr.endswith]. rewrite IH. apply orb_true_r.
Qed.

Lemma endswith_split (s p : string) :
  PyStr.endswith s p = true -> exists a, s = a ++ p.
Proof.
  induction s as [|c s IH]; cbn [PyStr.endswith]; intros H.
  - rewrite orb_false_r in H. apply String.eqb_eq in H. subst p. now exists "".
  - apply orb_prop in H as [H|H].
    + apply String.eqb_eq in H. subst p. now exists "".
    + destruct (IH H) as (a & ->). now exists (String c a).
Qed.

Lemma take_app (a b : string) : PyStr.take (String.length a) (a ++ b) = a.
Proof. induction a as [|c a IH]; [now destruct b|]. cbn. now rewrite IH. Qed.

(** Cutting a suffix off with the slice [s[:-n]] gives what precedes
    it. *)
Lemma slice_app (a p : string) :
  p <> "" -> PyStr.slice_to_minus (a ++ p) (String.length p) = a.
Proof.
  intros Hp. unfold PyStr.slice_to_minus.
  destruct (String.length p) as [|n] eqn:E; [destruct p; [now elim Hp|discriminate E]|].
  rewrite length_app, E.
  replace (String.length a + S n - S n)%nat with (String.length a) by lia.
  apply take_app.
Qed.

Lemma split_first_app_sep (sep : ascii) (a b : string) :
  PyStr.has_char sep a = false ->
  PyStr.split_first sep (a ++ String sep b) = a.
Proof.
  induction a as [|c a IH]; cbn [append PyStr.has_char]; intros H.
  - rewrite split_first_cons, Ascii.eqb_refl. reflexivity.
  - apply orb_false_iff in H as [Hc Ha].
    rewrite split_first_cons, Hc, (IH Ha). reflexivity.
Qed.

End MoreStringFacts.

Section SuffixFacts.

Lemma app_empty_r (a : string) : a ++ "" = a.
Proof. induction a as [|c a IH]; [reflexivity|]. cbn. now rewrite IH. Qed.

Lemma app_assoc_str (a b c : string) : (a ++ b) ++ c = a ++ (b ++ c).
Proof. induction a as [|x a IH]; [reflexivity|]. cbn. now rewrite IH. Qed.

Lemma app_last_char (a b : string) (c d : ascii) :
  a ++ String c "" = b ++ String d "" -> c = d.
Proof.
  revert b. induction a as [|x a IH]; intros [|y b] H; cbn [append] in H.
  - now injection H.
  - injection H as _ H. destruct b; discriminate H.
  - injection H as _ H. destruct a; discriminate H.
  - injection H as _ H. exact (IH b H).
Qed.

(** A common ending can be cancelled in [endswith]. *)
Lemma endswith_cancel (a q p : string) :
  PyStr.endswith (a ++ p) (q ++ p) = PyStr.endswith a q.
Proof.
  destruct (PyStr.endswith a q) eqn:E.
  - destruct (endswith_split a q E) as (x & ->).
    rewrite app_assoc_str. apply endswith_app.
  - destruct (PyStr.endswith (a ++ p) (q ++ p)) eqn:F; [|reflexivity].
    destruct (endswith_split _ _ F) as (x & H).
    rewrite <- app_assoc_str in H. apply app_inv_length in H. subst a.
    now rewrite endswith_app in E.
Qed.

(** Strings that end with different characters do not end one another. *)
Lemma endswith_other_end (a p q : string) (c d : ascii) :
  c <> d -> PyStr.endswith (a ++ p ++ String c "") (q ++ String d "") = false.
Proof.
  intros Hcd. destruct (PyStr.endswith _ _) eqn:E; [|reflexivity].
  destruct (endswith_split _ _ E) as (x & H).
  rewrite <- !app_assoc_str in H. apply app_last_char in H. contradiction.
Qed.

Lemma has_char_app (sep : ascii) (a b : string) :
  PyStr.has_char sep (a ++ b) = PyStr.has_char sep a || PyStr.has_char sep b.
Proof.
  induction a as [|c a IH]; [reflexivity|]. cbn [append PyStr.has_char].
  now rewrite IH, orb_assoc.
Qed.

(** A name without a dot ends with none of the default suffixes. *)
Lemma dot_free_no_suffix (name suffix : string) :
  PyStr.has_char "."%char name = false ->
  PyStr.has_char "."%char suffix = true ->
  PyStr.endswith name suffix = false.
Proof.
  intros Hn Hs. destruct (PyStr.endswith name suffix) eqn:E; [|reflexivity].
  destruct (endswith_split _ _ E) as (a & ->).
  rewrite has_char_app, Hs, orb_true_r in Hn. discriminate Hn.
Qed.

End SuffixFacts.

(** ** Names and aliases *)

(** Canonicalizing the alias of an identifier gives the canonical name of
    the identifier. *)
Lemma alias_maps_back (vmname : string) :
  NameResolver.map_vanity_to_hostname (NameResolver.get_vanity_name vmname)
  = NameResolver.map_vanity_to_hostname vmname.
Proof.
  unfold NameResolver.get_vanity_name.
  cbn [NameResolver.vanity_of Config.VANITY_TO_HOSTNAME].
  destruct (String.eqb (PyStr.split_first "."%char vmname) "guedfocnlq03") eqn:E1.
  { apply String.eqb_eq in E1. cbn [orb].
    unfold NameResolver.map_vanity_to_hostname at 2. now rewrite E1. }
  destruct (PyStr.startswith (PyStr.split_first "."%char vmname) "nlq") eqn:E2.
  { cbn [orb]. now rewrite (map_vanity_nlq vmname E2). }
  cbn [orb].
  destruct (String.eqb (PyStr.split_first "."%char vmname) "guedfocdsml01") eqn:E3.
  { apply String.eqb_eq in E3. cbn [orb].
    unfold NameResolver.map_vanity_to_hostname at 2. now rewrite E3. }
  destruct (PyStr.startswith (PyStr.split_first "."%char vmname) "py-server") eqn:E4.
  { cbn [orb]. now rewrite (map_vanity_py_server vmname E4). }
  reflexivity.
Qed.

(** X1.  The display alias leads back to the canonical name: for every
    identifier, canonicalizing its alias gives the same host as
    canonicalizing the identifier itself; and the alias is either the
    identifier unchanged or the vanity name, followed by [.ibi.systems], of
    the table entry whose real host is the canonical name. *)
Theorem alias_canonicalizes_back (vmname : string) :
  NameResolver.map_vanity_to_hostname (NameResolver.get_vanity_name vmname)
  = NameResolver.map_vanity_to_hostname vmname
  /\ (NameResolver.get_vanity_name vmname = vmname
      \/ exists vanity,
           In (vanity, NameResolver.map_vanity_to_hostname vmname)
              Config.VANITY_TO_HOSTNAME
           /\ NameResolver.get_vanity_name vmname = vanity ++ ".ibi.systems").
Proof.
  unfold NameResolver.get_vanity_name.
  cbn [NameResolver.vanity_of Config.VANITY_TO_HOSTNAME].
  destruct (String.eqb (PyStr.split_first "."%char vmname) "guedfocnlq03") eqn:E1.
  { apply String.eqb_eq in E1.
    assert (H : NameResolver.map_vanity_to_hostname vmname = "guedfocnlq03").
    { unfold NameResolver.map_vanity_to_hostname. now rewrite E1. }
    cbn [orb]. rewrite H. split; [reflexivity|].
    right. exists "nlq". split; [now left|reflexivity]. }
  destruct (PyStr.startswith (PyStr.split_first "."%char vmname) "nlq") eqn:E2.
  { cbn [orb]. rewrite (map_vanity_nlq vmname E2). split; [reflexivity|].
    right. exists "nlq". split; [now left|reflexivity]. }
  cbn [orb].
  destruct (String.eqb (PyStr.split_first "."%char vmname) "guedfocdsml01") eqn:E3.
  { apply String.eqb_eq in E3.
    assert (H : NameResolver.map_vanity_to_hostname vmname = "guedfocdsml01").
    { unfold NameResolver.map_vanity_to_hostname. now rewrite E3. }
    cbn [orb]. rewrite H. split; [reflexivity|].
    right. exists "py-server". split; [right; now left|reflexivity]. }
  destruct (PyStr.startswith (PyStr.split_first "."%char vmname) "py-server") eqn:E4.
  { cbn [orb]. rewrite (map_vanity_py_server vmname E4). split; [reflexivity|].
    right. exists "py-server". split; [right; now left|reflexivity]. }
  cbn [orb]. split; [reflexivity|now left].
Qed.

Section ManagerSuffixes.
Import VMNameManager.

Lemma strip_known_suffix_splits (suffixes : list string) (vmname : string) :
  Forall (fun s => s <> "") suffixes ->
  exists suffix,
    (suffix = "" \/ In suffix suffixes)
    /\ vmname = strip_known_suffix suffixes vmname ++ suffix.
Proof.
  induction suffixes as [|s rest IH]; intros H; cbn [strip_known_suffix].
  - exists "". split; [now left|]. now rewrite app_empty_r.
  - inversion H as [|? ? Hs Hrest]; subst.
    destruct (PyStr.endswith vmname s) eqn:E.
    + destruct (endswith_split _ _ E) as (a & ->).
      exists s. split; [right; now left|]. now rewrite (slice_app a s Hs).
    + destruct (IH Hrest) as (suffix & [-> | Hin] & Heq).
      * exists "". split; [now left|exact Heq].
      * exists suffix. split; [right; now right|exact Heq].
Qed.

End ManagerSuffixes.

(** X2.  [clean_vm_name] removes at most one configured suffix and nothing
    else: for a manager whose suffixes are not empty, every name is its
    cleaned form followed by the empty string or by one of the suffixes. *)
Theorem clean_vm_name_cuts_one_suffix (self : VMNameManager.t) (vmname : string) :
  Forall (fun s => s <> "") (VMNameManager.domain_suffixes self) ->
  exists suffix,
    (suffix = "" \/ In suffix (VMNameManager.domain_suffixes self))
    /\ vmname = VMNameManager.clean_vm_name self vmname ++ suffix.
Proof.
  intros H. unfold VMNameManager.clean_vm_name.
  destruct (negb (PyStr.truthy vmname)).
  - exists "". split; [now left|]. now rewrite app_empty_r.
  - now apply strip_known_suffix_splits.
Qed.

Lemma clean_vm_name_cuts_one_suffix_witness :
  exists suffix,
    (suffix = "" \/ In suffix [".dev.tibco.com"; ".ibi.systems"; ".tibco.com"])
    /\ "web1.ibi.systems"
       = VMNameManager.clean_vm_name VMNameManager.default "web1.ibi.systems"
         ++ suffix.
Proof.
  apply (clean_vm_name_cuts_one_suffix VMNameManager.default "web1.ibi.systems").
  repeat constructor; discriminate.
Defined.

Section DefaultSuffixes.
Import VMNameManager.

Lemma clean_nonempty (vmname : string) :
  vmname <> "" ->
  clean_vm_name default vmname
  = strip_known_suffix (domain_suffixes default) vmname.
Proof.
  intros H. unfold clean_vm_name. destruct vmname; [now elim H|reflexivity].
Qed.

Lemma app_nonempty (a b : string) : b <> "" -> a ++ b <> "".
Proof. intros H. destruct a; [exact H|discriminate]. Qed.

Lemma clean_dev (name : string) :
  clean_vm_name default (name ++ ".dev.tibco.com") = name.
Proof.
  rewrite clean_nonempty by (apply app_nonempty; discriminate).
  cbn [strip_known_suffix domain_suffixes default].
  rewrite endswith_app. apply slice_app. discriminate.
Qed.

Lemma clean_ibi (name : string) :
  clean_vm_name default (name ++ ".ibi.systems") = name.
Proof.
  rewrite clean_nonempty by (apply app_nonempty; discriminate).
  cbn [strip_known_suffix domain_suffixes default].
  pose proof (endswith_other_end name ".ibi.system" ".dev.tibco.co" "s" "m")
    as H.
  cbn [append] in H. rewrite H by discriminate.
  rewrite endswith_app. apply slice_app. discriminate.
Qed.

Lemma clean_tibco (name : string) :
  clean_vm_name default (name ++ ".tibco.com")
  = if PyStr.endswith name ".dev" then PyStr.slice_to_minus name 4 else name.
Proof.
  rewrite clean_nonempty by (apply app_nonempty; discriminate).
  cbn [strip_known_suffix domain_suffixes default].
  pose proof (endswith_cancel name ".dev" ".tibco.com") as Hc.
  cbn [append] in Hc. rewrite Hc.
  destruct (PyStr.endswith name ".dev") eqn:E.
  - destruct (endswith_split _ _ E) as (a & ->).
    rewrite app_assoc_str. cbn [append].
    rewrite (slice_app a ".dev.tibco.com") by discriminate.
    change 4%nat with (String.length ".dev").
    now rewrite (slice_app a ".dev") by discriminate.
  - pose proof (endswith_other_end name ".tibco.co" ".ibi.system" "m" "s")
      as H.
    cbn [append] in H. rewrite H by discriminate.
    rewrite endswith_app. apply slice_app. discriminate.
Qed.

End DefaultSuffixes.

(** X3.  With the default suffix list, appending a known suffix and
    cleaning gives the name back for [.dev.tibco.com] and [.ibi.systems];
    for [.tibco.com] it gives the name back unless the name ends with
    [.dev], in which case that ending goes too (the longer suffix is tried
    first). *)
Theorem clean_vm_name_undoes_suffix (name : string) :
  VMNameManager.clean_vm_name VMNameManager.default (name ++ ".dev.tibco.com")
  = name
  /\ VMNameManager.clean_vm_name VMNameManager.default (name ++ ".ibi.systems")
     = name
  /\ VMNameManager.clean_vm_name VMNameManager.default (name ++ ".tibco.com")
     = if PyStr.endswith name ".dev" then PyStr.slice_to_minus name 4
       else name.
Proof.
  split; [apply clean_dev|]. split; [apply clean_ibi|apply clean_tibco].
Qed.

(** X4.  On a name without a dot, alone or followed by one of the default
    domain suffixes, the canonicalization of the executor and the one of the
    name manager give the same host. *)
Theorem canonicalizations_agree (name suffix : string) :
  PyStr.has_char "."%char name = false ->
  suffix = "" \/ In suffix (VMNameManager.domain_suffixes VMNameManager.default) ->
  NameResolver.map_vanity_to_hostname (name ++ suffix)
  = VMNameManager.map_vanity_to_hostname VMNameManager.default (name ++ suffix).
Proof.
  intros Hn Hs.
  assert (Hd : PyStr.endswith name ".dev" = false)
    by (apply dot_free_no_suffix; [exact Hn|reflexivity]).
  unfold NameResolver.map_vanity_to_hostname,
    VMNameManager.map_vanity_to_hostname.
  assert (H : PyStr.split_first "."%char (name ++ suffix) = name
              /\ VMNameManager.clean_vm_name VMNameManager.default
                   (name ++ suffix) = name).
  { destruct Hs as [-> | [<- | [<- | [<- | []]]]].
    - rewrite app_empty_r. split; [now apply split_first_id|].
      apply clean_keeps. unfold VMNameManager.has_known_suffix.
      cbn [existsb VMNameManager.domain_suffixes VMNameManager.default].
      now rewrite !dot_free_no_suffix.
    - split; [now apply split_first_app_sep|apply clean_dev].
    - split; [now apply split_first_app_sep|apply clean_ibi].
    - split; [now apply split_first_app_sep|]. now rewrite clean_tibco, Hd. }
  destruct H as [-> ->]. reflexivity.
Qed.

Lemma canonicalizations_agree_witness :
  NameResolver.map_vanity_to_hostname ("nlq" ++ ".ibi.systems")
  = VMNameManager.map_vanity_to_hostname VMNameManager.default
      ("nlq" ++ ".ibi.systems").
Proof.
  apply (canonicalizations_agree "nlq" ".ibi.systems").
  - reflexivity.
  - right. right. left. reflexivity.
Defined.

(** ** The configuration lists *)

Section ConfigLists.

Lemma clean_list_clean (l : list string) :
  Forall (fun x => x <> "" /\ PyStr.strip x = x) (Config.clean_list l).
Proof.
  unfold Config.clean_list. apply Forall_forall. intros x Hx.
  apply in_map_iff in Hx as (y & <- & Hy).
  apply filter_In in Hy as [_ Hy]. split.
  - intros E. rewrite E in Hy. discriminate Hy.
  - apply strip_idem.
Qed.

Lemma clean_list_blank (l : list string) :
  Forall (fun piece => PyStr.strip piece = "") l -> Config.clean_list l = [].
Proof.
  unfold Config.clean_list. induction 1 as [|x l Hx _ IH]; [reflexivity|].
  cbn [filter]. rewrite Hx. exact IH.
Qed.

Lemma str_in_filter (x : string) (keep : string -> bool) (l : list string) :
  keep x = true -> str_in x (filter keep l) = str_in x l.
Proof.
  intros Hx. unfold str_in. induction l as [|y l IH]; [reflexivity|].
  cbn [filter existsb]. destruct (keep y) eqn:Hy.
  - cbn [existsb]. now rewrite IH.
  - rewrite IH. destruct (String.eqb x y) eqn:E; [|reflexivity].
    apply String.eqb_eq in E. congruence.
Qed.

End ConfigLists.

(** X5.  Whatever the environment variables hold, the allow-list and the
    list of restricted operations contain no empty entry and no entry with
    white space around it. *)
Theorem config_lists_are_clean (env : option string) :
  Forall (fun x => x <> "" /\ PyStr.strip x = x) (Config.load_allowed_vms env)
  /\ Forall (fun x => x <> "" /\ PyStr.strip x = x)
       (Config.load_restricted_operations env).
Proof.
  split; apply clean_list_clean.
Qed.

(** X6.  An [ALLOWED_VMS] variable that is set but holds only commas and
    white space does not fall back to the default list: the allow-list is
    empty, and every restricted operation is refused for every VM. *)
Theorem blank_allow_list_denies_all
  (v : string) (cfg : AuthorizationPolicy.t) (vmname operation : string) :
  v <> "" ->
  Forall (fun piece => PyStr.strip piece = "") (PyStr.split ","%char v) ->
  AuthorizationPolicy.ALLOWED_VMS cfg = Config.load_allowed_vms (Some v) ->
  In (PyStr.lower operation) (AuthorizationPolicy.RESTRICTED_OPERATIONS cfg) ->
  AuthorizationPolicy.ALLOWED_VMS cfg = []
  /\ AuthorizationPolicy.is_vm_allowed_for_operation cfg vmname operation
     = false.
Proof.
  intros Hv Hblank Hcfg Hop.
  assert (He : AuthorizationPolicy.ALLOWED_VMS cfg = []).
  { rewrite Hcfg. unfold Config.load_allowed_vms.
    destruct v; [now elim Hv|]. cbn [PyStr.truthy].
    now apply clean_list_blank. }
  split; [exact He|].
  unfold AuthorizationPolicy.is_vm_allowed_for_operation.
  rewrite (proj2 (str_in_In _ _) Hop), He. reflexivity.
Qed.

Lemma blank_allow_list_denies_all_witness :
  let cfg := {| AuthorizationPolicy.ALLOWED_VMS :=
                  Config.load_allowed_vms (Some " , ,");
                AuthorizationPolicy.RESTRICTED_OPERATIONS :=
                  Config.load_restricted_operations None |} in
  AuthorizationPolicy.ALLOWED_VMS cfg = []
  /\ AuthorizationPolicy.is_vm_allowed_for_operation cfg "guedfocnlq03" "stop"
     = false.
Proof.
  intros cfg.
  apply (blank_allow_list_denies_all " , ," cfg "guedfocnlq03" "stop").
  - discriminate.
  - repeat constructor.
  - reflexivity.
  - vm_compute. tauto.
Defined.

(** X7.  The restriction test reads the operation in lower case and the
    configured names as they are: an operation is judged like its lower-case
    spelling, and a configured name that is not in lower case restricts
    nothing, so that dropping such names leaves every decision unchanged. *)
Theorem restriction_is_case_folded
  (cfg : AuthorizationPolicy.t) (vmname operation : string) :
  AuthorizationPolicy.is_vm_allowed_for_operation cfg vmname operation
  = AuthorizationPolicy.is_vm_allowed_for_operation cfg vmname
      (PyStr.lower operation)
  /\ AuthorizationPolicy.is_vm_allowed_for_operation cfg vmname operation
     = AuthorizationPolicy.is_vm_allowed_for_operation
         {| AuthorizationPolicy.ALLOWED_VMS := AuthorizationPolicy.ALLOWED_VMS cfg;
            AuthorizationPolicy.RESTRICTED_OPERATIONS :=
              filter (fun r => String.eqb (PyStr.lower r) r)
                     (AuthorizationPolicy.RESTRICTED_OPERATIONS cfg) |}
         vmname operation.
Proof.
  unfold AuthorizationPolicy.is_vm_allowed_for_operation.
  cbn [AuthorizationPolicy.ALLOWED_VMS AuthorizationPolicy.RESTRICTED_OPERATIONS].
  split.
  - now rewrite lower_idem.
  - rewrite str_in_filter; [reflexivity|].
    rewrite lower_idem. apply String.eqb_refl.
Qed.

(** ** More on the lookup *)

Section DictFacts.
Variable V : Type.

Lemma get_set_same (d : dict V) (k : string) (v : V) :
  Dict.get (Dict.set d k v) k = Some v.
Proof.
  induction d as [|[k' v'] d IH]; cbn [Dict.set Dict.get].
  - now rewrite String.eqb_refl.
  - destruct (String.eqb k' k) eqn:E; cbn [Dict.get]; rewrite E;
      [reflexivity|exact IH].
Qed.

Lemma get_set_other (d : dict V) (k k2 : string) (v : V) :
  k <> k2 -> Dict.get (Dict.set d k v) k2 = Dict.get d k2.
Proof.
  intros Hk. induction d as [|[k' v'] d IH]; cbn [Dict.set Dict.get].
  - destruct (String.eqb k k2) eqn:E; [|reflexivity].
    apply String.eqb_eq in E. contradiction.
  - destruct (String.eqb k' k) eqn:E; cbn [Dict.get].
    + apply String.eqb_eq in E. subst k'.
      destruct (String.eqb k k2) eqn:E2; [|reflexivity].
      apply String.eqb_eq in E2. contradiction.
    + destruct (String.eqb k' k2); [reflexivity|exact IH].
Qed.

End DictFacts.

Section StoredNames.
Import VMCache.

Lemma get_set_zone (m : dict string) (k k2 zone : string) :
  Dict.get (Dict.set m k zone) k2 = Some zone
  \/ Dict.get (Dict.set m k zone) k2 = Dict.get m k2.
Proof.
  destruct (string_dec k k2) as [<- | Hk].
  - left. apply get_set_same.
  - right. now apply get_set_other.
Qed.

(** Storing the VMs of a zone writes that zone and nothing else. *)
Lemma store_vms_get (vms : list string) (zone k : string) (m : dict string) :
  Dict.get (store_vms m vms zone) k = Some zone
  \/ Dict.get (store_vms m vms zone) k = Dict.get m k.
Proof.
  revert m. induction vms as [|vm rest IH]; intros m; [now right|].
  cbn [store_vms].
  destruct (IH (Dict.set (Dict.set m vm zone) (PyStr.lower vm) zone))
    as [H | H]; [now left|]. rewrite H.
  destruct (get_set_zone (Dict.set m vm zone) (PyStr.lower vm) k zone)
    as [H1 | H1]; [now left|]. rewrite H1.
  apply get_set_zone.
Qed.

Lemma store_vms_keeps_zone (vms : list string) (zone k : string)
      (m : dict string) :
  Dict.get m k = Some zone -> Dict.get (store_vms m vms zone) k = Some zone.
Proof.
  intros H. destruct (store_vms_get vms zone k m) as [E | E];
    [exact E|now rewrite E].
Qed.

(** Every listed VM is stored under its own spelling and in lower case. *)
Lemma store_vms_stored (vms : list string) (zone vm : string) (m : dict string) :
  In vm vms ->
  Dict.get (store_vms m vms zone) vm = Some zone
  /\ Dict.get (store_vms m vms zone) (PyStr.lower vm) = Some zone.
Proof.
  revert m. induction vms as [|x rest IH]; intros m Hin; [now elim Hin|].
  cbn [store_vms]. destruct Hin as [-> | Hin]; [|now apply IH].
  split; apply store_vms_keeps_zone.
  - destruct (get_set_zone (Dict.set m vm zone) (PyStr.lower vm) vm zone)
      as [H | H]; [exact H|]. rewrite H. apply get_set_same.
  - apply get_set_same.
Qed.

End StoredNames.

(** X8.  The zone a lookup returns does not depend on the clock: a stale
    cache answers exactly as a fresh one (staleness only schedules a
    refresh), and no call schedules more than two refreshes. *)
Theorem lookup_ignores_clock (self : VMCache.t) (now now' : Z) (vm_name : string) :
  fst (VMCache.get_vm_zone self now vm_name)
  = fst (VMCache.get_vm_zone self now' vm_name)
  /\ (snd (VMCache.get_vm_zone self now vm_name) <= 2)%nat.
Proof.
  unfold VMCache.get_vm_zone.
  destruct (negb (PyStr.truthy vm_name)); [split; [reflexivity|cbn; lia]|].
  destruct (Dict.get _ (PyStr.split_first "."%char vm_name));
    [split; [reflexivity|cbn [snd]; destruct (_ >? _)%Z; lia]|].
  destruct (Dict.get _ (PyStr.lower _));
    [split; [reflexivity|cbn [snd]; destruct (_ >? _)%Z; lia]|].
  destruct (VMCache.partial_match _ _);
    [split; [reflexivity|cbn [snd]; destruct (_ >? _)%Z; lia]|].
  split; [reflexivity|]. cbn [snd].
  destruct (_ >? _)%Z; destruct (_ || _); lia.
Qed.

(** X9.  A miss on a stale cache schedules two refreshes at once, one
    for the staleness and one for the miss, whenever the maximum age is at
    least one hour (so that stale implies older than thirty minutes). *)
Theorem stale_miss_schedules_twice
  (self : VMCache.t) (now : Z) (vm_name : string) :
  vm_name <> "" ->
  (1 <= VMCache.max_age_hours self)%Z ->
  (now - VMCache.last_update self
   > VMCache.hours (VMCache.max_age_hours self))%Z ->
  fst (VMCache.get_vm_zone self now vm_name) = None ->
  snd (VMCache.get_vm_zone self now vm_name) = 2%nat.
Proof.
  intros Hn Hage Hstale. unfold VMCache.get_vm_zone.
  destruct vm_name; [now elim Hn|]. cbn [PyStr.truthy negb].
  assert (H1 : (now - VMCache.last_update self
                >? VMCache.hours (VMCache.max_age_hours self))%Z = true)
    by (apply Z.gtb_lt; lia).
  assert (H2 : (now - VMCache.last_update self >? VMCache.minutes 30)%Z = true).
  { apply Z.gtb_lt. unfold VMCache.hours, VMCache.minutes in *. lia. }
  rewrite H1, H2.
  destruct (Dict.get _ (PyStr.split_first _ _)); [discriminate|].
  destruct (Dict.get _ (PyStr.lower _)); [discriminate|].
  destruct (VMCache.partial_match _ _); [discriminate|].
  intros _. cbn [snd]. now rewrite orb_true_r.
Qed.

Lemma stale_miss_schedules_twice_witness :
  snd (VMCache.get_vm_zone Sample.one_vm (VMCache.hours 2) "db-primary")
  = 2%nat.
Proof.
  apply (stale_miss_schedules_twice Sample.one_vm (VMCache.hours 2) "db-primary").
  - discriminate.
  - vm_compute. discriminate.
  - vm_compute. reflexivity.
  - reflexivity.
Defined.

(** X10.  After the VMs of a zone are stored, a listed VM is found in that
    zone under any spelling that differs from the listed one only in letter
    case, provided the spelling is not a key that another zone had written
    before. *)
Theorem stored_vm_found_in_any_case
  (self : VMCache.t) (now : Z) (m : dict string) (vms : list string)
  (zone vm n : string) :
  VMCache.vm_zone_map self = VMCache.store_vms m vms zone ->
  In vm vms ->
  PyStr.lower n = PyStr.lower vm ->
  n <> "" ->
  PyStr.has_char "."%char n = false ->
  Dict.get m n = None \/ Dict.get m n = Some zone ->
  fst (VMCache.get_vm_zone self now n) = Some zone.
Proof.
  intros Hm Hin Hl Hn Hdot Hold. unfold VMCache.get_vm_zone.
  destruct n as [|c t]; [now elim Hn|]. cbn [PyStr.truthy negb].
  rewrite (split_first_id _ _ Hdot), Hm.
  destruct (store_vms_get vms zone (String c t) m) as [E | E].
  - now rewrite E.
  - rewrite E. destruct Hold as [-> | ->]; [|reflexivity].
    rewrite Hl. now rewrite (proj2 (store_vms_stored vms zone vm m Hin)).
Qed.

Lemma stored_vm_found_in_any_case_witness :
  fst (VMCache.get_vm_zone
         (VMCache.with_map Sample.one_vm
            (VMCache.store_vms [] ["Web7"] "us-east1-b"))
         0 "WEB7") = Some "us-east1-b".
Proof.
  apply (stored_vm_found_in_any_case _ 0 [] ["Web7"] "us-east1-b" "Web7" "WEB7").
  - reflexivity.
  - left. reflexivity.
  - reflexivity.
  - discriminate.
  - reflexivity.
  - left. reflexivity.
Defined.

(** X11.  The lookup reads only the first label of the name: a name
    followed by a dot and any domain is answered exactly like the name
    alone, refreshes scheduled included. *)
Theorem lookup_ignores_domain
  (self : VMCache.t) (now : Z) (n domain : string) :
  n <> "" ->
  PyStr.has_char "."%char n = false ->
  VMCache.get_vm_zone self now (n ++ String "."%char domain)
  = VMCache.get_vm_zone self now n.
Proof.
  intros Hn Hdot. unfold VMCache.get_vm_zone.
  rewrite (split_first_app_sep _ _ domain Hdot), (split_first_id _ _ Hdot).
  destruct n; [now elim Hn|]. reflexivity.
Qed.

Lemma lookup_ignores_domain_witness :
  VMCache.get_vm_zone Sample.one_vm 0 ("vm1" ++ String "."%char "corp.example.org")
  = VMCache.get_vm_zone Sample.one_vm 0 "vm1".
Proof.
  apply (lookup_ignores_domain Sample.one_vm 0 "vm1" "corp.example.org").
  - discriminate.
  - reflexivity.
Defined.

(** ** More on the refresh *)

Section RefreshInvariants.
Import VMCache.

Lemma set_In (d : dict string) (k v k2 v2 : string) :
  In (k2, v2) (Dict.set d k v) -> (k2 = k /\ v2 = v) \/ In (k2, v2) d.
Proof.
  induction d as [|[k' v'] d IH]; cbn [Dict.set].
  - intros [[= <- <-]|[]]. now left.
  - destruct (String.eqb k' k) eqn:E.
    + apply String.eqb_eq in E. subst k'.
      intros [[= <- <-]|H]; [now left|right; now right].
    + intros [H|H]; [right; now left|].
      destruct (IH H) as [?|?]; [now left|right; now right].
Qed.

(** Where the entries of the mapping come from: an entry written while the
    VMs of [zone] are stored is a listed VM, in its own spelling or in lower
    case, with that zone. *)
Lemma store_vms_In (vms : list string) (zone k z : string) (m : dict string) :
  In (k, z) (store_vms m vms zone) ->
  In (k, z) m
  \/ (z = zone /\ exists vm, In vm vms /\ (k = vm \/ k = PyStr.lower vm)).
Proof.
  revert m. induction vms as [|x rest IH]; intros m H; [now left|].
  cbn [store_vms] in H. destruct (IH _ H) as [Hm | (-> & vm & Hin & Hk)].
  - destruct (set_In _ _ _ _ _ Hm) as [[-> ->] | Hm1].
    + right. split; [reflexivity|]. exists x. split; [now left|now right].
    + destruct (set_In _ _ _ _ _ Hm1) as [[-> ->] | Hm2]; [|now left].
      right. split; [reflexivity|]. exists x. split; [now left|now left].
  - right. split; [reflexivity|]. exists vm. split; [now right|exact Hk].
Qed.

Lemma scan_zones_In (instances : string -> proc) (zones : list string)
      (k z : string) (m : dict string) :
  In (k, z) (scanned_map (scan_zones instances zones m)) ->
  In (k, z) m \/ (In z zones /\ VMCacheStartup.listed_in instances k z).
Proof.
  revert m. induction zones as [|zone rest IH]; intros m; cbn [scan_zones];
    [cbn; now left|].
  destruct (raises (instances zone)); [cbn; now left|].
  destruct (returncode (instances zone) =? 0)%Z eqn:Hrc; cbn [negb].
  - apply Z.eqb_eq in Hrc.
    destruct (stdout (instances zone)) as [text|msg] eqn:Hout; [|cbn; now left].
    cbn [scanned_map]. intros H.
    destruct (IH _ H) as [Hm | [Hin Hl]]; [|right; split; [now right|exact Hl]].
    destruct (PyStr.truthy text); [|now left].
    destruct (store_vms_In _ _ _ _ _ Hm) as [?|(-> & vm & Hvm & Hk)];
      [now left|].
    right. split; [now left|]. exists text, vm. now repeat split.
  - destruct (stderr (instances zone)); [|cbn; now left].
    cbn [scanned_map]. intros H.
    destruct (IH _ H) as [?|[Hin Hl]]; [now left|].
    right. split; [now right|exact Hl].
Qed.

Lemma nonempty_lines_nonempty (text z : string) :
  In z (nonempty_lines text) -> z <> "".
Proof.
  unfold nonempty_lines. intros H. apply filter_In in H as [_ H].
  intros ->. discriminate H.
Qed.

(** The listings launched by the zone loop: those of a prefix of the
    zones, in order, and one observed mapping for each. *)
Lemma scan_zones_commands (instances : string -> proc) (zones : list string)
      (m : dict string) :
  exists scanned rest,
    zones = (scanned ++ rest)%list
    /\ commands (scan_zones instances zones m) = map instances_cmd scanned
    /\ List.length (observed (scan_zones instances zones m))
       = List.length scanned
    /\ (completed (scan_zones instances zones m) = true -> rest = []).
Proof.
  revert m. induction zones as [|zone rest IH]; intros m.
  - exists [], []. repeat split.
  - assert (Hstop : exists scanned rest0,
               zone :: rest = (scanned ++ rest0)%list
               /\ [instances_cmd zone] = map instances_cmd scanned
               /\ 1%nat = List.length scanned
               /\ (false = true -> rest0 = [])).
    { exists [zone], rest. repeat split. discriminate. }
    assert (Hgo : forall m',
               exists scanned rest0,
                 zone :: rest = (scanned ++ rest0)%list
                 /\ instances_cmd zone :: commands (scan_zones instances rest m')
                    = map instances_cmd scanned
                 /\ S (List.length (observed (scan_zones instances rest m')))
                    = List.length scanned
                 /\ (completed (scan_zones instances rest m') = true
                     -> rest0 = [])).
    { intros m'. destruct (IH m') as (sc & r0 & -> & Hc & Hl & Hd).
      exists (zone :: sc), r0. cbn [map List.length app].
      now rewrite Hc, Hl. }
    cbn [scan_zones].
    destruct (raises (instances zone));
      [cbn [commands observed completed List.length]; exact Hstop|].
    destruct (negb _).
    + destruct (stderr (instances zone));
        cbn [commands observed completed List.length];
        [apply Hgo|exact Hstop].
    + destruct (stdout (instances zone));
        cbn [commands observed completed List.length];
        [apply Hgo|exact Hstop].
Qed.

End RefreshInvariants.

(** X12.  Where the mapping comes from: after any refresh, every entry
    of the mapping names a zone that the zone listing printed, and its key
    is a line, as printed or in lower case, of the output of a successful
    instance listing of that zone. *)
Theorem refreshed_entries_were_listed
  (self : VMCache.t) (env : VMCache.refresh_env) (k z : string) :
  In (k, z) (VMCache.vm_zone_map (VMCache.final (VMCache.update_cache self env))) ->
  (exists text,
     stdout (VMCache.zones_process env) = Ok text
     /\ In z (VMCache.nonempty_lines text))
  /\ z <> ""
  /\ VMCacheStartup.listed_in (VMCache.instances_process env) k z.
Proof.
  unfold VMCache.update_cache.
  destruct (raises (VMCache.zones_process env)); [intros []|].
  destruct (negb _); [intros []|].
  destruct (stdout (VMCache.zones_process env)) as [text|msg]; [|intros []].
  destruct (VMCache.nonempty_lines text) as [|z0 zs] eqn:Hz; [intros []|].
  assert (H : In (k, z)
                (VMCache.scanned_map
                   (VMCache.scan_zones (VMCache.instances_process env)
                      (z0 :: zs) [])) ->
              (exists text0, Ok text = Ok text0
                             /\ In z (VMCache.nonempty_lines text0))
              /\ z <> ""
              /\ VMCacheStartup.listed_in (VMCache.instances_process env) k z).
  { intros H. destruct (scan_zones_In _ _ _ _ _ H) as [[]|[Hin Hl]].
    rewrite <- Hz in Hin. split; [now exists text|].
    split; [now apply (nonempty_lines_nonempty text)|exact Hl]. }
  destruct (VMCache.completed _); cbn [negb].
  - destruct (VMCache.scanned_map _) eqn:E; [intros []|].
    cbn [VMCache.final VMCache.vm_zone_map VMCache._save_to_pickle
           VMCache.with_last_update VMCache.with_map]. exact H.
  - cbn [VMCache.final VMCache.vm_zone_map VMCache.with_map]. exact H.
Qed.

Lemma refreshed_entries_were_listed_witness :
  (exists text,
     stdout (VMCache.zones_process (Sample.finds_both 10 11)) = Ok text
     /\ In "us-east1-b" (VMCache.nonempty_lines text))
  /\ "us-east1-b" <> ""
  /\ VMCacheStartup.listed_in
       (VMCache.instances_process (Sample.finds_both 10 11))
       "vm2" "us-east1-b".
Proof.
  apply (refreshed_entries_were_listed Sample.two_vms (Sample.finds_both 10 11)).
  vm_compute. right. left. reflexivity.
Defined.

Section LowerClosure.
Import VMCache VMCacheStartup.

Lemma mem_set (d : dict string) (k v k2 : string) :
  Dict.mem (Dict.set d k v) k2 = String.eqb k k2 || Dict.mem d k2.
Proof.
  unfold Dict.mem. destruct (String.eqb k k2) eqn:E.
  - apply String.eqb_eq in E. subst k2. now rewrite get_set_same.
  - rewrite get_set_other; [reflexivity|].
    intros ->. now rewrite String.eqb_refl in E.
Qed.

Lemma store_vms_closed (vms : list string) (zone : string) (m : dict string) :
  lower_closed m -> lower_closed (store_vms m vms zone).
Proof.
  revert m. induction vms as [|vm rest IH]; intros m Hm; [exact Hm|].
  cbn [store_vms]. apply IH. intros k. rewrite !mem_set. intros H.
  apply orb_prop in H as [H|H].
  - apply String.eqb_eq in H. subst k. now rewrite lower_idem, String.eqb_refl.
  - apply orb_prop in H as [H|H].
    + apply String.eqb_eq in H. subst k. now rewrite String.eqb_refl.
    + rewrite (Hm k H). now rewrite !orb_true_r.
Qed.

Lemma scan_zones_closed (instances : string -> proc) (zones : list string)
      (m : dict string) :
  lower_closed m -> lower_closed (scanned_map (scan_zones instances zones m)).
Proof.
  revert m. induction zones as [|zone rest IH]; intros m Hm; [exact Hm|].
  cbn [scan_zones].
  destruct (raises (instances zone)); [exact Hm|].
  destruct (negb _).
  - destruct (stderr (instances zone)); [now apply IH|exact Hm].
  - destruct (stdout (instances zone)) as [text|]; [|exact Hm].
    cbn [scanned_map]. apply IH.
    destruct (PyStr.truthy text); [now apply store_vms_closed|exact Hm].
Qed.

End LowerClosure.

(** X13.  After any refresh, complete or cut short, the mapping holds with
    every key its lower-case spelling, which is what the second step of the
    lookup relies on. *)
Theorem refreshed_keys_have_lower_twin
  (self : VMCache.t) (env : VMCache.refresh_env) (k : string) :
  Dict.mem (VMCache.vm_zone_map (VMCache.final (VMCache.update_cache self env))) k
  = true ->
  Dict.mem (VMCache.vm_zone_map (VMCache.final (VMCache.update_cache self env)))
    (PyStr.lower k) = true.
Proof.
  revert k. change (VMCacheStartup.lower_closed
                      (VMCache.vm_zone_map
                         (VMCache.final (VMCache.update_cache self env)))).
  assert (H0 : VMCacheStartup.lower_closed []) by (intros k H; discriminate H).
  unfold VMCache.update_cache.
  destruct (raises (VMCache.zones_process env)); [exact H0|].
  destruct (negb _); [exact H0|].
  destruct (stdout (VMCache.zones_process env)) as [text|msg]; [|exact H0].
  destruct (VMCache.nonempty_lines text) as [|z0 zs]; [exact H0|].
  pose proof (scan_zones_closed (VMCache.instances_process env) (z0 :: zs) []
                H0) as H.
  destruct (VMCache.completed _); cbn [negb].
  - destruct (VMCache.scanned_map _) eqn:E; [exact H0|exact H].
  - exact H.
Qed.

Lemma refreshed_keys_have_lower_twin_witness :
  Dict.mem
    (VMCache.vm_zone_map
       (VMCache.final
          (VMCache.update_cache Sample.one_vm
             {| VMCache.zones_process := Sample.succeeds "us-east1-b";
                VMCache.instances_process := fun _ => Sample.succeeds "Web7";
                VMCache.now_update := 10; VMCache.now_save := 11 |})))
    (PyStr.lower "Web7") = true.
Proof.
  apply (refreshed_keys_have_lower_twin Sample.one_vm).
  reflexivity.
Defined.

(** X14.  A refresh launches the zone listing first and then instance
    listings for an initial part of the printed zones, one per zone and in
    the printed order; a lookup has one mapping to observe per command
    launched. *)
Theorem refresh_commands_follow_zones
  (self : VMCache.t) (env : VMCache.refresh_env) :
  exists scanned,
    VMCache.ran (VMCache.update_cache self env)
    = VMCache.zones_cmd :: map VMCache.instances_cmd scanned
    /\ List.length (VMCache.seen (VMCache.update_cache self env))
       = List.length (VMCache.ran (VMCache.update_cache self env))
    /\ (scanned = []
        \/ exists text rest,
             stdout (VMCache.zones_process env) = Ok text
             /\ VMCache.nonempty_lines text = (scanned ++ rest)%list).
Proof.
  unfold VMCache.update_cache.
  assert (H0 : exists scanned,
             [VMCache.zones_cmd]
             = VMCache.zones_cmd :: map VMCache.instances_cmd scanned
             /\ 1%nat = 1%nat
             /\ (scanned = []
                 \/ exists text rest,
                      stdout (VMCache.zones_process env) = Ok text
                      /\ VMCache.nonempty_lines text = (scanned ++ rest)%list))
    by (exists []; repeat split; now left).
  destruct (raises (VMCache.zones_process env)); [exact H0|].
  destruct (negb _); [exact H0|].
  destruct (stdout (VMCache.zones_process env)) as [text|msg]; [|exact H0].
  destruct (VMCache.nonempty_lines text) as [|z0 zs] eqn:Hz; [exact H0|].
  destruct (scan_zones_commands (VMCache.instances_process env) (z0 :: zs) [])
    as (scanned & rest & Hsplit & Hc & Hl & _).
  exists scanned.
  assert (Hr : scanned = []
               \/ exists text0 rest0,
                    Ok text = Ok text0
                    /\ VMCache.nonempty_lines text0 = (scanned ++ rest0)%list).
  { right. exists text, rest. split; [reflexivity|]. now rewrite Hz. }
  destruct (VMCache.completed _); cbn [negb];
    [destruct (VMCache.scanned_map _)|];
    cbn [VMCache.ran VMCache.seen List.length]; rewrite Hc, Hl, length_map;
    repeat split; exact Hr.
Qed.

(** ** Start and restart *)

Section Startup.
Import VMCache VMCacheStartup.

Lemma ran_starts_with_zone_listing (self : t) (env : refresh_env) :
  hd_error (ran (update_cache self env)) = Some zones_cmd.
Proof.
  unfold update_cache.
  destruct (raises (zones_process env)); [reflexivity|].
  destruct (negb _); [reflexivity|].
  destruct (stdout (zones_process env)) as [text|msg]; [|reflexivity].
  destruct (nonempty_lines text) as [|z zs]; [reflexivity|].
  destruct (completed _); [|reflexivity].
  destruct (scanned_map _); reflexivity.
Qed.

Lemma ran_has_zone_listing (self : t) (env : refresh_env) :
  In zones_cmd (ran (update_cache self env)).
Proof.
  pose proof (ran_starts_with_zone_listing self env) as H.
  destruct (ran (update_cache self env)); [discriminate H|].
  injection H as ->. now left.
Qed.

End Startup.

(** X15.  A restart within the hour restores the directory without any
    external command: when the server shuts down with a non-empty mapping at
    instant [t] and starts again less than 3600 seconds later, whatever its
    maximum age, the mapping is the one it had, it is dated [t], and no
    command was launched. *)
Theorem restart_restores_directory
  (self : VMCache.t) (t now h : Z) (env1 env2 : VMCache.refresh_env) :
  VMCache.vm_zone_map self <> [] ->
  (now - t < VMCache.seconds 3600)%Z ->
  let s := VMCacheStartup.lifespan_startup
             (VMCacheStartup.make
                (VMCache.cache_file (VMCacheStartup.lifespan_shutdown self t)) h)
             now env1 env2 in
  VMCache.vm_zone_map (VMCacheStartup.state s) = VMCache.vm_zone_map self
  /\ VMCache.last_update (VMCacheStartup.state s) = t
  /\ VMCacheStartup.launched s = [].
Proof.
  intros Hm Hage. unfold VMCacheStartup.lifespan_startup,
    VMCacheStartup.initialize, VMCacheStartup.lifespan_shutdown,
    VMCache._load_from_pickle.
  cbn [VMCache.cache_file VMCache._save_to_pickle VMCacheStartup.make].
  apply Z.ltb_lt in Hage. rewrite Hage.
  cbn [VMCacheStartup.state VMCache.get_status VMCache.vm_zone_map
         VMCache.with_map VMCache.with_last_update].
  destruct (VMCache.vm_zone_map self) as [|e m]; [now elim Hm|].
  repeat split.
Qed.

Lemma restart_restores_directory_witness :
  let s := VMCacheStartup.lifespan_startup
             (VMCacheStartup.make
                (VMCache.cache_file
                   (VMCacheStartup.lifespan_shutdown Sample.two_vms 100)) 1)
             200 (Sample.finds_both 300 301) (Sample.finds_both 400 401) in
  VMCache.vm_zone_map (VMCacheStartup.state s)
  = VMCache.vm_zone_map Sample.two_vms
  /\ VMCache.last_update (VMCacheStartup.state s) = 100%Z
  /\ VMCacheStartup.launched s = [].
Proof.
  apply (restart_restores_directory Sample.two_vms 100 200 1).
  - discriminate.
  - reflexivity.
Defined.

(** X16.  The start-up never ends with an empty directory without having
    tried to fill it: after [initialize] and the check that follows it,
    either the mapping is not empty or a zone listing was launched. *)
Theorem startup_tries_to_fill
  (self : VMCache.t) (now : Z) (env1 env2 : VMCache.refresh_env) :
  VMCache.vm_zone_map
    (VMCacheStartup.state
       (VMCacheStartup.lifespan_startup self now env1 env2)) <> []
  \/ In VMCache.zones_cmd
       (VMCacheStartup.launched
          (VMCacheStartup.lifespan_startup self now env1 env2)).
Proof.
  unfold VMCacheStartup.lifespan_startup.
  destruct (VMCache.get_status _ =? 0)%nat eqn:E.
  - right. cbn [VMCacheStartup.launched]. apply in_or_app. right.
    apply ran_has_zone_listing.
  - left. intros H. unfold VMCache.get_status in E. rewrite H in E.
    discriminate E.
Qed.

(** X17.  The age limit of the pickle file is one hour, not the configured
    maximum age: a snapshot that is 3600 seconds old or older is not loaded
    by [initialize], however large [max_age_hours] is; the object is
    refreshed instead, and the first command is the zone listing. *)
Theorem old_snapshot_is_not_loaded
  (m : dict string) (t h now : Z) (env : VMCache.refresh_env) :
  (VMCache.seconds 3600 <= now - t)%Z ->
  VMCacheStartup.state
    (VMCacheStartup.initialize (VMCacheStartup.make (Some (m, t)) h) now env)
  = VMCache.final
      (VMCache.update_cache (VMCacheStartup.make (Some (m, t)) h) env)
  /\ hd_error
       (VMCacheStartup.launched
          (VMCacheStartup.initialize (VMCacheStartup.make (Some (m, t)) h)
             now env))
     = Some VMCache.zones_cmd.
Proof.
  intros Hage. unfold VMCacheStartup.initialize, VMCache._load_from_pickle.
  cbn [VMCache.cache_file VMCacheStartup.make].
  assert (Hlt : (now - t <? VMCache.seconds 3600)%Z = false)
    by (apply Z.ltb_ge; exact Hage).
  rewrite Hlt. cbn [VMCacheStartup.launched VMCacheStartup.state].
  split; [reflexivity|apply ran_starts_with_zone_listing].
Qed.

Lemma old_snapshot_is_not_loaded_witness :
  hd_error
    (VMCacheStartup.launched
       (VMCacheStartup.initialize
          (VMCacheStartup.make (Some ([("vm1", "us-central1-a")], 0%Z)) 24)
          (VMCache.hours 2) (Sample.finds_both 1 2)))
  = Some VMCache.zones_cmd.
Proof.
  apply (old_snapshot_is_not_loaded [("vm1", "us-central1-a")] 0 24
           (VMCache.hours 2) (Sample.finds_both 1 2)).
  vm_compute. discriminate.
Defined.

(** ** The zones of the zone manager and the other refresh *)


Section ScannerFacts.
Import VMScanner.

Lemma set_In_any {V : Type} (d : dict V) (k : string) (v : V) (k2 : string)
      (v2 : V) :
  In (k2, v2) (Dict.set d k v) -> (k2 = k /\ v2 = v) \/ In (k2, v2) d.
Proof.
  induction d as [|[k' v'] d IH]; cbn [Dict.set].
  - intros [[= <- <-]|[]]. now left.
  - destruct (String.eqb k' k) eqn:E.
    + apply String.eqb_eq in E. subst k'.
      intros [[= <- <-]|H]; [now left|right; now right].
    + intros [H|H]; [right; now left|].
      destruct (IH H) as [?|?]; [now left|right; now right].
Qed.

Lemma add_instances_In (instances : list instance) (project k : string)
      (e : vm_entry) (c : dict vm_entry) :
  In (k, e) (add_instances c instances project) ->
  In (k, e) c \/ (k <> "" /\ vm_project e = project).
Proof.
  revert c. induction instances as [|i rest IH]; intros c H; [now left|].
  cbn [add_instances] in H.
  destruct (inst_name i) as [[|a n]|]; [now apply IH| |now apply IH].
  destruct (IH _ H) as [Hc|?]; [|now right].
  destruct (set_In_any _ _ _ _ _ Hc) as [[-> ->]|?]; [|now left].
  right. split; [discriminate|reflexivity].
Qed.

Lemma scanner_scan (listings : string -> listing) (zones : list string)
      (project : string) (c : dict vm_entry) (cmds : list (list string))
      (final_cache : dict vm_entry) :
  scan_zones listings zones project c = Ok (cmds, final_cache) ->
  cmds = map list_cmd zones
  /\ forall k e, In (k, e) final_cache ->
                 In (k, e) c \/ (k <> "" /\ vm_project e = project).
Proof.
  revert c cmds final_cache.
  induction zones as [|zone rest IH]; intros c cmds final_cache;
    cbn [scan_zones].
  - intros [= <- <-]. split; [reflexivity|]. intros k e H. now left.
  - destruct (list_vms_in_zone (listings zone)) as [[[success instances] err]|];
      [|discriminate].
    destruct (scan_zones listings rest project _) as [[cmds' fc]|] eqn:E;
      [|discriminate].
    intros [= <- <-]. destruct (IH _ _ _ E) as [-> Hin].
    split; [reflexivity|]. intros k e H.
    destruct (Hin k e H) as [Hc|?]; [|now right].
    destruct success; [|now left].
    now apply (add_instances_In instances).
Qed.

End ScannerFacts.

(** X19.  The refresh of the scanner, when it runs to its end: the project
    is known, the instances of every zone of [get_all_zones] are listed
    once and in order, whether or not a listing fails, and every entry of
    the new cache has a non-empty name and carries the project. *)
Theorem scanner_lists_every_zone
  (project : string) (zones : ZoneManager.zones_run)
  (listings : string -> VMScanner.listing)
  (cmds : list (list string)) (new_cache : dict VMScanner.vm_entry) :
  VMScanner.update_vm_cache project zones listings = Ok (Some (cmds, new_cache)) ->
  project <> ""
  /\ cmds = map VMScanner.list_cmd (ZoneManager.get_all_zones zones)
  /\ forall k e, In (k, e) new_cache ->
                 k <> "" /\ VMScanner.vm_project e = project.
Proof.
  unfold VMScanner.update_vm_cache.
  destruct project as [|c t]; [discriminate|]. cbn [PyStr.truthy negb].
  destruct (VMScanner.scan_zones _ _ _ _) as [[cmds' fc]|] eqn:E; [|discriminate].
  intros [= <- <-]. destruct (scanner_scan _ _ _ _ _ _ E) as [-> Hin].
  split; [discriminate|]. split; [reflexivity|].
  intros k e H. destruct (Hin k e H) as [[]|?]. assumption.
Qed.

Lemma scanner_lists_every_zone_witness :
  map VMScanner.list_cmd ZoneManager.fallback_zones
  = map VMScanner.list_cmd (ZoneManager.get_all_zones Sample.zones_run_fails).
Proof.
  apply (scanner_lists_every_zone "my-project" Sample.zones_run_fails
           Sample.no_instances
           (map VMScanner.list_cmd ZoneManager.fallback_zones) []).
  reflexivity.
Defined.

(* ================================================================== *)
(** ** The shape of one run *)
(* ================================================================== *)

Import VMOperationsHandler AuthorizationPolicy NameResolver.


(** The loop over the lines of output yields one progress message per
    line, until a line fails to decode. *)
Lemma stream_output_yields (lines : list (py_result string)) :
  exists texts,
    stream_output lines = (map (fun x => Yield (Shape.progress_message x)) texts, Next tt)
    \/ exists msg,
         stream_output lines
         = (map (fun x => Yield (Shape.progress_message x)) texts, Throw (Exception msg)).
Proof.
  induction lines as [|[text|msg] rest (texts & IH)].
  - exists []. now left.
  - exists (text :: texts). cbn [stream_output eval pass bind say do map app].
    destruct IH as [-> | (m & ->)]; [left|right; exists m]; reflexivity.
  - exists []. right. exists msg. reflexivity.
Qed.

Lemma in_order_yields (s l : bool) (texts : list string) (u : list effect) :
  Shape.in_order s l (map (fun x => Yield (Shape.progress_message x)) texts ++ u)
  = Shape.in_order s l u.
Proof. induction texts as [|x texts IH]; [reflexivity|exact IH]. Qed.

Ltac crack :=
  repeat (cbn [negb bind pass do say eval raise return_ launch fst snd app];
  match goal with
  | |- context [is_vm_allowed_for_operation ?c ?v ?o] =>
      destruct (is_vm_allowed_for_operation c v o)
  | |- context [given ?z] => destruct (given z)
  | |- context [String.eqb ?o "status"] => destruct (String.eqb o "status")
  | |- context [str_in ?o ["start"; "stop"; "suspend"; "resume"]] =>
      destruct (str_in o ["start"; "stop"; "suspend"; "resume"])
  | |- context [_get_gcloud_command ?o ?v ?z] =>
      destruct (_get_gcloud_command o v z)
  | |- context [raises ?p] => destruct (raises p)
  | |- context [(returncode ?p =? 0)%Z] => destruct (returncode p =? 0)%Z
  | |- context [(1 <=? List.length (PyStr.split ?c ?s))%nat] =>
      rewrite (split_never_empty c s)
  | |- context [stdout ?p] => destruct (stdout p)
  | |- context [stderr ?p] => destruct (stderr p)
  | |- context [stdout_json ?p] => destruct (stdout_json p)
  | |- context [resource_instance ?e] => destruct (resource_instance e)
  | |- context [stream_output (stdout_lines ?p)] =>
      let texts := fresh "texts" in
      let E := fresh "E" in
      destruct (stream_output_yields (stdout_lines p))
        as (texts & [E | (? & E)]); rewrite E
  end).


Ltac settle :=
  cbn [negb bind pass do say eval raise return_ launch fst snd app];
  rewrite ?app_nil_r.

Lemma stream_output_ok (texts : list string) :
  stream_output (map Ok texts)
  = (map (fun x => Yield (Shape.progress_message x)) texts, Next tt).
Proof.
  induction texts as [|x texts IH]; [reflexivity|].
  cbn [map stream_output eval pass bind say do app]. now rewrite IH.
Qed.

Lemma messages_yields (texts : list string) (u : list effect) :
  messages (map (fun x => Yield (Shape.progress_message x)) texts ++ u)
  = (map Shape.progress_message texts ++ messages u)%list.
Proof.
  induction texts as [|x texts IH]; [reflexivity|].
  cbn [map app]. change (messages (Yield ?m :: ?t)) with (m :: messages t).
  now rewrite IH.
Qed.

Lemma statuses_yields (texts : list string) (u : list effect) :
  statuses (map (fun x => Yield (Shape.progress_message x)) texts ++ u)
  = statuses u.
Proof. induction texts as [|x texts IH]; [reflexivity|exact IH]. Qed.

Lemma rows_yields (texts : list string) (u : list effect) :
  rows (map (fun x => Yield (Shape.progress_message x)) texts ++ u) = rows u.
Proof. induction texts as [|x texts IH]; [reflexivity|exact IH]. Qed.

Lemma commands_yields (texts : list string) (u : list effect) :
  commands (map (fun x => Yield (Shape.progress_message x)) texts ++ u)
  = commands u.
Proof. induction texts as [|x texts IH]; [reflexivity|exact IH]. Qed.

Lemma one_final_after_progress (texts : list string) (u : list sse_message) :
  u <> [] ->
  Shape.one_final_last (map Shape.progress_message texts ++ u)
  = Shape.one_final_last u.
Proof.
  intros Hu. induction texts as [|x texts IH]; [reflexivity|].
  cbn [map app Shape.one_final_last].
  destruct (map Shape.progress_message texts ++ u)%list eqn:E.
  - destruct texts; [now elim Hu|discriminate E].
  - rewrite IH. reflexivity.
Qed.

Lemma one_final_cons_progress (m : sse_message) (texts : list string)
      (u : list sse_message) :
  Route.is_final m = false -> u <> [] ->
  Shape.one_final_last (m :: map Shape.progress_message texts ++ u)
  = Shape.one_final_last u.
Proof.
  intros Hm Hu. cbn [Shape.one_final_last].
  destruct (map Shape.progress_message texts ++ u)%list eqn:E.
  - destruct texts; [now elim Hu|discriminate E].
  - rewrite Hm, <- E. now apply one_final_after_progress.
Qed.

(** X20.  In both modes and for every request, a command is launched only
    after the row [started] has been written, and at most one command is
    launched. *)
Theorem command_follows_started
  (cfg : AuthorizationPolicy.t) (vm_cache : VMCache.t) (now : Z) (p : proc)
  (vmname operation : string) (zone : option string) (client_ip : string) :
  Shape.in_order false false
    (execute_vm_operation cfg vm_cache now p vmname operation zone client_ip)
  = true
  /\ Shape.in_order false false
       (fst (execute_operation_json cfg vm_cache now p vmname operation zone
               client_ip))
     = true.
Proof.
  split.
  - unfold execute_vm_operation, stream_try, resolve_zone, stream_status,
      stream_command.
    crack; settle;
      cbn [Shape.in_order log_row OperationLogger.log_operation
             OperationLogger.status orb andb negb String.eqb Ascii.eqb
             Bool.eqb];
      rewrite ?in_order_yields; reflexivity.
  - unfold execute_operation_json, json_try, resolve_zone, json_status,
      json_command.
    crack; settle; reflexivity.
Qed.

(** X21.  The streaming executor always yields at least one message; its
    last message is a [success] or an [error], and no message before the
    last one is. *)
Theorem stream_ends_with_one_final_message
  (cfg : AuthorizationPolicy.t) (vm_cache : VMCache.t) (now : Z) (p : proc)
  (vmname operation : string) (zone : option string) (client_ip : string) :
  Shape.one_final_last
    (messages
       (execute_vm_operation cfg vm_cache now p vmname operation zone client_ip))
  = true.
Proof.
  unfold execute_vm_operation, stream_try, resolve_zone, stream_status,
    stream_command.
  crack; settle;
    repeat match goal with
    | |- context [messages (?e :: ?t)] =>
        first [ change (messages (e :: t)) with (messages t)
              | match e with
                | Yield ?m => change (messages (e :: t)) with (m :: messages t)
                end ]
    end;
    rewrite ?messages_yields;
    try (rewrite one_final_cons_progress;
         [|reflexivity|cbn [messages flat_map app log_row]; discriminate]);
    reflexivity.
Qed.

(** X22.  A start, stop, suspend or resume that is allowed, with the zone
    in the request and a command that starts: the messages are one [info],
    then one [progress] per line of output, stripped and in the order of
    the lines, then one [success] when the command exits with code 0 and
    otherwise one [error] with the sanitized standard error. *)
Theorem output_lines_are_forwarded_in_order
  (cfg : AuthorizationPolicy.t) (vm_cache : VMCache.t) (now : Z) (p : proc)
  (vmname operation : string) (zone : option string) (client_ip : string)
  (z : string) (texts : list string) :
  is_vm_allowed_for_operation cfg (map_vanity_to_hostname vmname) operation
  = true ->
  given zone = Some z ->
  In operation ["start"; "stop"; "suspend"; "resume"] ->
  raises p = None ->
  stdout_lines p = map Ok texts ->
  messages
    (execute_vm_operation cfg vm_cache now p vmname operation zone client_ip)
  = (_format_sse_message "info"
       (Text ("Executing " ++ operation ++ " on VM "
                ++ map_vanity_to_hostname vmname ++ " in zone " ++ z))
     :: map Shape.progress_message texts
     ++ [if (returncode p =? 0)%Z
         then _format_sse_message "success"
                (Text ("Successfully completed " ++ operation
                         ++ " operation on VM " ++ map_vanity_to_hostname vmname
                         ++ " (" ++ get_vanity_name vmname ++ ")"))
         else _format_sse_message "error"
                (Text (_sanitize_error
                         (match stderr p with
                          | Ok error_message => error_message
                          | Raises msg => msg
                          end)))])%list.
Proof.
  intros Hallowed Hzone Hop Hr Hlines.
  unfold execute_vm_operation, stream_try, resolve_zone, stream_command.
  rewrite Hallowed, Hzone. cbn [negb bind pass app].
  assert (Hs : String.eqb operation "status" = false)
    by (destruct Hop as [<-|[<-|[<-|[<-|[]]]]]; reflexivity).
  assert (Hcmd : exists cmd,
             _get_gcloud_command operation (map_vanity_to_hostname vmname) z
             = Some cmd)
    by (destruct Hop as [<-|[<-|[<-|[<-|[]]]]]; eexists; reflexivity).
  destruct Hcmd as (cmd & Hcmd).
  rewrite Hs, Hcmd. unfold launch. rewrite Hr, Hlines, stream_output_ok.
  destruct (returncode p =? 0)%Z; [|destruct (stderr p)]; settle;
    change (messages (?a :: Yield ?m :: ?b :: ?t)) with (m :: messages t);
    rewrite messages_yields; reflexivity.
Qed.

Lemma output_lines_are_forwarded_in_order_witness :
  let p := {| raises := None; returncode := 0; stdout := Ok "";
              stdout_lines := [Ok "  Stopping instance(s) guedfocnlq03...  ";
                               Ok "done."];
              stdout_json := Raises "no output"; stderr := Ok "" |} in
  map (fun m => (event m, data m))
    (messages
       (execute_vm_operation AuthorizationPolicy.default Sample.one_vm 0 p
          "nlq.ibi.systems" "stop" (Some "us-east1-b") "10.0.0.7"))
  = [("info", Text "Executing stop on VM guedfocnlq03 in zone us-east1-b");
     ("progress", Text "Stopping instance(s) guedfocnlq03...");
     ("progress", Text "done.");
     ("success",
      Text "Successfully completed stop operation on VM guedfocnlq03 (nlq.ibi.systems)")].
Proof.
  intros p.
  rewrite (output_lines_are_forwarded_in_order
             AuthorizationPolicy.default Sample.one_vm 0 p
             "nlq.ibi.systems" "stop" (Some "us-east1-b") "10.0.0.7"
             "us-east1-b"
             ["  Stopping instance(s) guedfocnlq03...  "; "done."]).
  - reflexivity.
  - reflexivity.
  - reflexivity.
  - right; left; reflexivity.
  - reflexivity.
  - reflexivity.
Defined.

(** X23.  An allowed request without a zone, for a VM the cache has no
    zone for: the cache is asked once for the canonical name, no command
    is launched, the only row is [failed-no-zone] with the zone [unknown],
    the streaming run yields one [error] and the single-response run
    raises the HTTP error 404 with the same text. *)
Theorem unknown_zone_stops_before_any_command
  (cfg : AuthorizationPolicy.t) (vm_cache : VMCache.t) (now : Z) (p : proc)
  (vmname operation : string) (zone : option string) (client_ip : string) :
  is_vm_allowed_for_operation cfg (map_vanity_to_hostname vmname) operation
  = true ->
  given zone = None ->
  given (fst (VMCache.get_vm_zone vm_cache now (map_vanity_to_hostname vmname)))
  = None ->
  let row := log_row vmname operation client_ip (Some "unknown") "failed-no-zone" in
  let text := no_zone_message (map_vanity_to_hostname vmname) in
  execute_vm_operation cfg vm_cache now p vmname operation zone client_ip
  = [ZoneLookup (map_vanity_to_hostname vmname);
     Yield (_format_sse_message "error" (Text text)); row]
  /\ execute_operation_json cfg vm_cache now p vmname operation zone client_ip
     = ([ZoneLookup (map_vanity_to_hostname vmname); row], Raised 404 text).
Proof.
  intros Ha Hz Hl row text.
  unfold execute_vm_operation, execute_operation_json, stream_try, json_try,
    resolve_zone.
  rewrite Ha, Hz, Hl. split; reflexivity.
Qed.

Lemma unknown_zone_stops_before_any_command_witness :
  commands
    (execute_vm_operation AuthorizationPolicy.default Sample.one_vm 0
       (Sample.succeeds "") "db-primary" "start" None "10.0.0.7") = []
  /\ snd (execute_operation_json AuthorizationPolicy.default Sample.one_vm 0
            (Sample.succeeds "") "db-primary" "start" None "10.0.0.7")
     = Raised 404
         "VM db-primary not found in any zone. Please specify a zone parameter.".
Proof.
  destruct (unknown_zone_stops_before_any_command
              AuthorizationPolicy.default Sample.one_vm 0 (Sample.succeeds "")
              "db-primary" "start" None "10.0.0.7")
    as [Hs Hj].
  - reflexivity.
  - reflexivity.
  - reflexivity.
  - rewrite Hs, Hj. split; reflexivity.
Defined.

(** X24.  The single-response executor never returns without a body; a
    body comes with the rows [started] and [completed], 403 with the row
    [denied], 404 with [failed-no-zone] or with [started] and [failed],
    400 with [started] alone, 500 with [started] and then [failed] or
    [error].  No other status code is raised. *)
Theorem json_outcome_matches_rows
  (cfg : AuthorizationPolicy.t) (vm_cache : VMCache.t) (now : Z) (p : proc)
  (vmname operation : string) (zone : option string) (client_ip : string) :
  let run := execute_operation_json cfg vm_cache now p vmname operation zone
               client_ip in
  match snd run with
  | Returned (Some _) => statuses (fst run) = ["started"; "completed"]
  | Returned None => False
  | Raised status_code _ =>
      (status_code = 403%Z /\ statuses (fst run) = ["denied"])
      \/ (status_code = 404%Z
          /\ (statuses (fst run) = ["failed-no-zone"]
              \/ statuses (fst run) = ["started"; "failed"]))
      \/ (status_code = 400%Z /\ statuses (fst run) = ["started"])
      \/ (status_code = 500%Z
          /\ (statuses (fst run) = ["started"; "failed"]
              \/ statuses (fst run) = ["started"; "error"]))
  end.
Proof.
  unfold execute_operation_json, json_try, resolve_zone, json_status,
    json_command.
  crack; settle; cbn [fst snd]; auto 10.
Qed.

(** X25.  For start, stop, suspend and resume, when the lines of output
    decode, the two modes write the same rows and launch the same
    commands. *)
Theorem both_modes_write_the_same_rows
  (cfg : AuthorizationPolicy.t) (vm_cache : VMCache.t) (now : Z) (p : proc)
  (vmname operation : string) (zone : option string) (client_ip : string)
  (texts : list string) :
  In operation ["start"; "stop"; "suspend"; "resume"] ->
  stdout_lines p = map Ok texts ->
  rows (execute_vm_operation cfg vm_cache now p vmname operation zone client_ip)
  = rows (fst (execute_operation_json cfg vm_cache now p vmname operation zone
                 client_ip))
  /\ commands
       (execute_vm_operation cfg vm_cache now p vmname operation zone client_ip)
     = commands
         (fst (execute_operation_json cfg vm_cache now p vmname operation zone
                 client_ip)).
Proof.
  intros Hop Hlines.
  unfold execute_vm_operation, execute_operation_json, stream_try, json_try,
    resolve_zone, stream_command, json_command.
  rewrite Hlines, stream_output_ok.
  destruct Hop as [<-|[<-|[<-|[<-|[]]]]];
    cbn [String.eqb Ascii.eqb Bool.eqb str_in existsb orb andb
           _get_gcloud_command Dict.get];
    crack; settle;
    pose proof rows_yields as Hrows; pose proof commands_yields as Hcommands;
    unfold rows in *; unfold commands in *;
    cbn [flat_map app log_row]; rewrite ?Hrows, ?Hcommands;
    split; reflexivity.
Qed.

Lemma both_modes_write_the_same_rows_witness :
  let p := Sample.fails "ERROR: (gcloud.compute.instances.resume) HTTPError 400: Invalid value" in
  rows (execute_vm_operation AuthorizationPolicy.default Sample.one_vm 0 p
          "vm1" "resume" None "10.0.0.7")
  = rows (fst (execute_operation_json AuthorizationPolicy.default
                 Sample.one_vm 0 p "vm1" "resume" None "10.0.0.7")).
Proof.
  intros p.
  apply (both_modes_write_the_same_rows
           AuthorizationPolicy.default Sample.one_vm 0 p
           "vm1" "resume" None "10.0.0.7" []).
  - right; right; right; left; reflexivity.
  - reflexivity.
Defined.

(** X26.  Through the route, a request that writes [started] writes
    exactly one terminal row after it.  A single response has a body and
    the rows [started] and [completed]; an HTTP error has one of the codes
    400, 403, 404 and 500, and 400 is answered before any row is written,
    any command launched or any message sent. *)
Theorem route_closes_every_request
  (cfg : AuthorizationPolicy.t) (vm_cache : VMCache.t) (now : Z) (p : proc)
  (vmname : string) (operation zone format : option string)
  (client_ip : string) :
  let run := Route.handle_vm_operation cfg vm_cache now p vmname operation
               zone format client_ip in
  (terminal_rows_after_started (fst run) = None
   \/ terminal_rows_after_started (fst run) = Some 1%nat)
  /\ match snd run with
     | Route.Stream => True
     | Route.Body r => r <> None /\ statuses (fst run) = ["started"; "completed"]
     | Route.HttpError status_code _ =>
         In status_code Shape.http_codes
         /\ (status_code = 400%Z -> fst run = [])
     end.
Proof.
  cbv zeta. unfold Route.handle_vm_operation.
  destruct (str_in (Route.query operation "status") valid_operations) eqn:Hv;
    cbn [negb].
  - apply str_in_In in Hv.
    destruct (started_then_one_terminal cfg vm_cache now p vmname
                (Route.query operation "status") zone client_ip Hv) as [Hs Hj].
    destruct (String.eqb (PyStr.lower (Route.query format "sse")) "json").
    + split.
      { destruct (execute_operation_json _ _ _ _ _ _ _ _) as [t [r|c d]];
          exact Hj. }
      clear Hs Hj. revert Hv. generalize (Route.query operation "status").
      intros op Hv. unfold Shape.http_codes.
      unfold execute_operation_json, json_try, resolve_zone, json_status,
        json_command.
      destruct Hv as [<-|[<-|[<-|[<-|[<-|[]]]]]];
        cbn [String.eqb Ascii.eqb Bool.eqb str_in existsb orb andb
               _get_gcloud_command Dict.get];
        crack; settle; cbn [fst snd];
        first [ split; [discriminate|reflexivity]
              | split; [cbn [In]; auto 10|intros [=]] ].
    + split; [exact Hs|exact I].
  - split; [left; reflexivity|].
    cbn [fst snd]. split; [left; reflexivity|reflexivity].
Qed.

(** ** The rows of a run and the request *)

(** Every row the executors hand to the logger belongs to the request. *)
Lemma logged_row_carries_request
  (vmname operation client_ip : string) (zone : option string)
  (status : string) :
  Shape.carries_request vmname operation client_ip
    (OperationLogger.log_operation (map_vanity_to_hostname vmname) operation
       client_ip zone status (Some (get_vanity_name vmname))).
Proof.
  unfold Shape.carries_request.
  cbn [OperationLogger.log_operation OperationLogger.vm_name
         OperationLogger.vanity_name OperationLogger.operation
         OperationLogger.client_ip OperationLogger.zone].
  repeat split.
  - unfold OperationLogger.or_else.
    destruct (get_vanity_name vmname) as [|c t] eqn:E.
    + apply map_vanity_to_hostname_idem.
    + rewrite <- E. apply alias_maps_back.
  - unfold OperationLogger.or_else.
    destruct zone as [[|c t]|]; discriminate.
Qed.

(** X27.  In both modes and for every request, every row written names
    the canonical host of the request in its host column, carries an alias
    that canonicalizes to that host, the operation and the client of the
    request, and a zone column that is not empty. *)
Theorem rows_carry_the_request
  (cfg : AuthorizationPolicy.t) (vm_cache : VMCache.t) (now : Z) (p : proc)
  (vmname operation : string) (zone : option string) (client_ip : string) :
  Forall (Shape.carries_request vmname operation client_ip)
    (rows (execute_vm_operation cfg vm_cache now p vmname operation zone
             client_ip))
  /\ Forall (Shape.carries_request vmname operation client_ip)
       (rows (fst (execute_operation_json cfg vm_cache now p vmname operation
                     zone client_ip))).
Proof.
  pose proof rows_yields as Hrows. unfold rows in Hrows.
  split.
  - unfold execute_vm_operation, stream_try, resolve_zone, stream_status,
      stream_command.
    crack; settle; unfold rows; cbn [flat_map app log_row];
      rewrite ?Hrows; cbn [flat_map app log_row];
      repeat constructor; apply logged_row_carries_request.
  - unfold execute_operation_json, json_try, resolve_zone, json_status,
      json_command.
    crack; settle; unfold rows; cbn [flat_map app log_row fst];
      repeat constructor; apply logged_row_carries_request.
Qed.

(* ================================================================== *)
(** ** The event streams of the manager *)
(* ================================================================== *)

Section Streams.
Import SSEManager.

Lemma open_ended_app (l x : list SSEEvent) :
  open_ended l -> open_ended x -> open_ended (l ++ x)%list.
Proof.
  intros Hl [-> | (a & e & -> & He)].
  - now rewrite app_nil_r.
  - right. exists (l ++ a)%list, e. now rewrite app_assoc.
Qed.

Lemma events_of_create (self : t) (operation_id k : string) :
  events_of (create_operation_stream self operation_id) k = events_of self k.
Proof.
  unfold create_operation_stream, Dict.mem.
  destruct (Dict.get self operation_id) eqn:E; [reflexivity|].
  unfold events_of. destruct (String.eqb operation_id k) eqn:Ek.
  - apply String.eqb_eq in Ek. subst k. now rewrite get_set_same, E.
  - rewrite get_set_other; [reflexivity|].
    intros ->. now rewrite String.eqb_refl in Ek.
Qed.

Lemma events_of_add_event (self : t) (operation_id event_type k : string)
      (d : payload) :
  events_of (add_event self operation_id event_type d) k
  = (events_of self k
       ++ (if String.eqb operation_id k
           then [{| data := d; event := event_type |}] else []))%list.
Proof.
  unfold add_event. unfold events_of at 1.
  destruct (String.eqb operation_id k) eqn:Ek.
  - apply String.eqb_eq in Ek. subst k.
    now rewrite get_set_same, events_of_create.
  - rewrite get_set_other by (intros ->; now rewrite String.eqb_refl in Ek).
    rewrite app_nil_r. apply events_of_create.
Qed.

(** A call only appends, and what a call of the helpers appends does not
    end with a final event. *)
Lemma run_call_appends (self : t) (c : call) (k : string) :
  exists x, events_of (run_call self c) k = (events_of self k ++ x)%list
            /\ (through_helpers c = true -> open_ended x).
Proof.
  destruct c as [id ty d|id step progress message status|id success d];
    cbn [through_helpers run_call].
  - rewrite events_of_add_event. eexists. split; [reflexivity|]. intros Hc.
    destruct (String.eqb id k); [|now left].
    right. exists [], {| data := d; event := ty |}. split; [reflexivity|].
    unfold is_final. cbn [event]. now apply negb_true_iff in Hc.
  - unfold add_progress_update. rewrite events_of_add_event.
    eexists. split; [reflexivity|]. intros _.
    destruct (String.eqb id k); [|now left].
    right. eexists [], _. split; reflexivity.
  - unfold add_completion_event.
    destruct success; unfold add_progress_update;
      rewrite !events_of_add_event, <- app_assoc;
      (eexists; split; [reflexivity|]); intros _;
      (destruct (String.eqb id k); [|now left]);
      right; eexists [_], _; split; reflexivity.
Qed.

Lemma run_calls_appends (calls : list call) (self : t) (k : string) :
  exists x, events_of (run_calls self calls) k = (events_of self k ++ x)%list
            /\ (forallb through_helpers calls = true -> open_ended x).
Proof.
  revert self. induction calls as [|c calls IH]; intros self.
  - exists []. split; [now rewrite app_nil_r|now left].
  - destruct (run_call_appends self c k) as (x1 & E1 & H1).
    destruct (IH (run_call self c)) as (x2 & E2 & H2).
    exists (x1 ++ x2)%list. split.
    + unfold run_calls in *. cbn [fold_left]. now rewrite E2, E1, <- app_assoc.
    + cbn [forallb]. intros Hc. apply andb_prop in Hc as [Hc Hcs].
      apply open_ended_app; auto.
Qed.

Lemma slice_last (A : Type) (a x : list A) (e : A) :
  slice ((a ++ [e]) ++ x)%list (List.length (a ++ [e]) - 1)
    (List.length (a ++ [e]))
  = [e].
Proof.
  unfold slice. rewrite List.length_app. cbn [List.length].
  replace (List.length a + 1 - 1)%nat with (List.length a + 0)%nat by lia.
  replace (List.length a + 1 - (List.length a + 0))%nat with 1%nat by lia.
  rewrite <- !app_assoc. rewrite skipn_app, skipn_all2 by lia.
  replace (List.length a + 0 - List.length a)%nat with 0%nat by lia.
  reflexivity.
Qed.

Lemma stream_loop_stays_open (schedule : list tick) (self : t)
      (operation_id : string) (sent_events : nat) :
  helpers_only schedule = true ->
  open_ended (events_of self operation_id) ->
  (sent_events <= List.length (events_of self operation_id))%nat ->
  snd (stream_loop self operation_id sent_events schedule) <> Completed.
Proof.
  revert self sent_events.
  induction schedule as [|tk rest IH]; intros self sent Hs Ho Hn;
    cbn [stream_loop]; [discriminate|].
  cbn [helpers_only forallb] in Hs.
  apply andb_prop in Hs as [Htk Hrest]. apply andb_prop in Htk as [Hb Hd].
  destruct (run_calls_appends (before tk) self operation_id)
    as (x1 & E1 & H1). specialize (H1 Hb).
  set (m1 := run_calls self (before tk)) in *.
  assert (Ho1 : open_ended (events_of m1 operation_id))
    by (rewrite E1; now apply open_ended_app).
  assert (Hlen : (sent + List.length (skipn sent (events_of m1 operation_id))
                  = List.length (events_of m1 operation_id))%nat).
  { rewrite List.length_skipn. rewrite E1, List.length_app. lia. }
  rewrite Hlen.
  set (m2 := match skipn sent (events_of m1 operation_id) with
             | [] => m1
             | _ => run_calls m1 (during tk)
             end).
  assert (H2 : exists x2, events_of m2 operation_id
                          = (events_of m1 operation_id ++ x2)%list
                          /\ open_ended x2).
  { subst m2. destruct (skipn sent (events_of m1 operation_id)).
    - exists []. split; [now rewrite app_nil_r|now left].
    - destruct (run_calls_appends (during tk) m1 operation_id)
        as (x & E & H). exists x. split; [exact E|exact (H Hd)]. }
  destruct H2 as (x2 & E2 & H2).
  assert (Hcheck : (0 <? List.length (events_of m1 operation_id))%nat
                   && existsb is_final
                        (slice (events_of m2 operation_id)
                           (List.length (events_of m1 operation_id) - 1)
                           (List.length (events_of m1 operation_id)))
                   = false).
  { rewrite E2. destruct Ho1 as [-> | (a & e & -> & He)]; [reflexivity|].
    rewrite slice_last. cbn [existsb]. rewrite He. apply andb_false_r. }
  rewrite Hcheck.
  destruct (disconnected tk); [discriminate|].
  specialize (IH m2 (List.length (events_of m1 operation_id)) Hrest).
  destruct (stream_loop m2 operation_id _ rest) as [more e].
  cbn [snd] in *. apply IH.
  - rewrite E2. now apply open_ended_app.
  - rewrite E2, List.length_app. lia.
Qed.

End Streams.

(** X28.  A stream of the manager that is fed through
    [add_progress_update] and [add_completion_event] never ends by itself:
    [add_completion_event] appends a progress event after its [success]
    or [error], so the event that [stream_events] tests, the last one it
    has sent, is never a final one, and the loop is left only when the
    client is gone. *)
Theorem completion_event_never_ends_stream
  (earlier : list SSEManager.call) (operation_id : string)
  (schedule : list SSEManager.tick) :
  forallb SSEManager.through_helpers earlier = true ->
  SSEManager.helpers_only schedule = true ->
  snd (SSEManager.stream_events (SSEManager.run_calls [] earlier)
         operation_id schedule)
  <> SSEManager.Completed.
Proof.
  intros He Hs. unfold SSEManager.stream_events.
  pose proof (stream_loop_stays_open schedule
                (SSEManager.create_operation_stream
                   (SSEManager.run_calls [] earlier) operation_id)
                operation_id 0 Hs) as H.
  destruct (SSEManager.stream_loop _ _ _ _) as [sent e]. cbn [snd] in *.
  apply H; [|lia].
  rewrite events_of_create.
  destruct (run_calls_appends earlier [] operation_id) as (x & -> & Hx).
  exact (Hx He).
Qed.

Lemma completion_event_never_ends_stream_witness :
  snd (SSEManager.stream_events
         (SSEManager.run_calls []
            [SSEManager.AddProgressUpdate "op-1" "boot" 50 "Booting" "running"])
         "op-1"
         [{| SSEManager.before := [SSEManager.AddCompletionEvent "op-1" true None];
             SSEManager.during := [];
             SSEManager.disconnected := false |};
          {| SSEManager.before := [];
             SSEManager.during := [];
             SSEManager.disconnected := true |}])
  <> SSEManager.Completed.
Proof.
  apply completion_event_never_ends_stream; reflexivity.
Defined.


